(** * Verification of the diet/log simulation core (ai-generated-users)

    Shallow embedding of
      - experiments/exp2_acegpt_claude/utils_json_v12.py  (normalizer, diversifier)
      - experiments/exp2_acegpt_claude/acegpt_client.py   (meal builder, schema normalizer)
      - experiments/exp2_acegpt_claude/claude_client_v12.py (weekly outcome fallback)
      - utils_sim_dual.py                                  (week-1 payload builder)
      - utils_time_dual.py                                 (ISO week identifiers)
      - experiments/exp2_acegpt_claude/year_orchestrator_v12.py (weeks of the yearly loop,
                                                            persona carried over)
      - acegpt_client_v12.py                               (diet of a persona and week)

    Conventions of the embedding.
      - A Python [dict] with string keys is a [gmap string pyval]; in-place
        mutation is state passing.
      - A Python [float] is an exact rational ([Q]); [round(x, n)] is rounding
        to the nearest multiple of [10^-n], ties to even.  NaN, infinities and
        binary representation error are outside the model.
      - [random.Random], [hashlib] digests and the float parser/printer of the
        Python runtime are parameters ([PyRandom], [PyRuntime]); every result
        below holds for all of them.
      - An exception is the [Raise] outcome; exhausting the recursion depth of
        the interpreter is [Raise RecursionError]. *)

From Stdlib Require Import ZArith QArith Qround Qabs Lia Lqa Ascii String Sorted.
From Stdlib Require Import Decimal DecimalString DecimalN DecimalZ DecimalFacts.
From stdpp Require Import gmap strings list fin_maps.

#[local] Set Warnings "-register-all".
#[local] Open Scope string_scope.

(** ** Python values and the runtime *)

Module Py.

Inductive pyval : Type :=
| PNone
| PBool (b : bool)
| PInt (z : Z)
| PFloat (q : Q)
| PStr (s : string)
| PList (l : list pyval)
| PDict (d : gmap string pyval).

Inductive exn : Type :=
| ValueError | TypeError | AttributeError | KeyError | IndexError | RecursionError
| OverflowError.

Inductive result (A : Type) : Type :=
| Ok (a : A)
| Raise (e : exn).
Arguments Ok {A} a.
Arguments Raise {A} e.

#[global] Instance result_ret : MRet result := fun A a => Ok a.
#[global] Instance result_bind : MBind result := fun A B k r =>
  match r with
  | Ok a => k a
  | Raise e => Raise e
  end.

(** *** Strings *)

(** [str.isspace] on the ASCII range. *)
Definition is_space (c : ascii) : bool :=
  let n := nat_of_ascii c in
  (n =? 32)%nat || ((9 <=? n)%nat && (n <=? 13)%nat) || ((28 <=? n)%nat && (n <=? 31)%nat).

Fixpoint lstrip_by (p : ascii -> bool) (s : string) : string :=
  match s with
  | String c s' => if p c then lstrip_by p s' else s
  | EmptyString => EmptyString
  end.

Fixpoint rstrip_by (p : ascii -> bool) (s : string) : string :=
  match s with
  | String c s' =>
      match rstrip_by p s' with
      | EmptyString => if p c then EmptyString else String c EmptyString
      | r => String c r
      end
  | EmptyString => EmptyString
  end.

Definition strip_by (p : ascii -> bool) (s : string) : string :=
  rstrip_by p (lstrip_by p s).

(** [s.strip()] *)
Definition strip (s : string) : string := strip_by is_space s.



Definition lower_ascii (c : ascii) : ascii :=
  let n := nat_of_ascii c in
  if ((65 <=? n)%nat && (n <=? 90)%nat) then ascii_of_nat (n + 32) else c.

(** [s.lower()] (ASCII letters; other bytes are kept) *)
Fixpoint lower (s : string) : string :=
  match s with
  | String c s' => String (lower_ascii c) (lower s')
  | EmptyString => EmptyString
  end.

Fixpoint startswith (p s : string) : bool :=
  match p, s with
  | EmptyString, _ => true
  | String a p', String b s' => Ascii.eqb a b && startswith p' s'
  | String _ _, EmptyString => false
  end.

(** [sub in s] *)
Fixpoint contains (sub s : string) : bool :=
  startswith sub s ||
  match s with
  | String _ s' => contains sub s'
  | EmptyString => false
  end.


(** [s.split(sep)] for a one-character separator *)
Fixpoint split_on (sep : ascii) (s : string) : list string :=
  match s with
  | EmptyString => [EmptyString]
  | String c s' =>
      if Ascii.eqb c sep then EmptyString :: split_on sep s'
      else match split_on sep s' with
           | h :: t => String c h :: t
           | [] => [String c EmptyString]
           end
  end.

Fixpoint take_word (s : string) : string * string :=
  match s with
  | EmptyString => (EmptyString, EmptyString)
  | String c s' =>
      if is_space c then (EmptyString, s)
      else let '(w, r) := take_word s' in (String c w, r)
  end.

Fixpoint split_ws_fuel (n : nat) (s : string) : list string :=
  match n with
  | O => []
  | S n =>
      match lstrip_by is_space s with
      | EmptyString => []
      | s1 => let '(w, r) := take_word s1 in w :: split_ws_fuel n r
      end
  end.

(** [s.split()]: the words between runs of blanks *)
Definition split_ws (s : string) : list string := split_ws_fuel (String.length s) s.


(** [s[:n]] *)
Fixpoint prefix (n : nat) (s : string) : string :=
  match n, s with
  | S n, String c s' => String c (prefix n s')
  | _, _ => EmptyString
  end.

(** [str(n)] for an [int] *)
Definition str_of_Z (z : Z) : string := NilZero.string_of_int (Z.to_int z).

Definition is_digit (c : ascii) : bool :=
  let n := nat_of_ascii c in ((48 <=? n)%nat && (n <=? 57)%nat).

(** [int(s)] for a [str]: surrounding blanks, an optional sign, ASCII digits. *)
Definition int_of_str (s : string) : option Z :=
  let t := strip s in
  let body := match t with
              | String "+" r => r
              | String "-" r => r
              | _ => t
              end in
  match body with
  | EmptyString => None
  | _ =>
      if forallb is_digit (list_ascii_of_string body) then
        match NilZero.uint_of_string body with
        | Some u =>
            let n := Z.of_N (N.of_uint u) in
            Some (match t with String "-" _ => (- n)%Z | _ => n end)
        | None => None
        end
      else None
  end.

(** *** Numbers *)

Definition fmax (a b : Q) : Q := if Qle_bool b a then a else b.
Definition fmin (a b : Q) : Q := if Qle_bool a b then a else b.
Definition Qlt_bool (a b : Q) : bool := negb (Qle_bool b a).

(** Nearest integer, ties to even. *)
Definition round_half_even (q : Q) : Z :=
  let f := Qfloor q in
  let r := (q - inject_Z f)%Q in
  if Qlt_bool r (1#2) then f
  else if Qlt_bool (1#2) r then (f + 1)%Z
  else if Z.even f then f else (f + 1)%Z.

Definition pow10 (n : nat) : Q := inject_Z (10 ^ Z.of_nat n).

(** [round(x, n)] on a float *)
Definition round_nd (n : nat) (x : Q) : Q :=
  (inject_Z (round_half_even (x * pow10 n)) / pow10 n)%Q.

(** [int(x)] on a float: truncation towards zero *)
Definition trunc (q : Q) : Z :=
  if Qle_bool 0 q then Qfloor q else Qceiling q.

(** *** The parts of the runtime that are left abstract *)

Class PyRuntime : Type := {
  (** [float(s)] for a [str]; [None] is ValueError *)
  float_of_str : string -> option Q;
  (** [repr(v)], which is [str(v)] for every value that is not a [str] *)
  py_repr : pyval -> string;
  (** [format(x, ".Nf")] *)
  format_fixed : nat -> Q -> string;
  (** [hashlib.md5(s).hexdigest()[:6]] *)
  md5_hex6 : string -> string;
}.

(** [random.Random] seeded through a SHA-256 prefix. *)
Class PyRandom : Type := {
  rng : Type;
  (** [int(hashlib.sha256(s.encode()).hexdigest()[:12], 16)] *)
  sha256_hex12 : string -> Z;
  (** [random.Random(seed)] *)
  Random : Z -> rng;
  (** [rnd.random()] *)
  rnd_random : rng -> Q * rng;
  (** [rnd._randbelow(n)] *)
  rnd_below : Z -> rng -> Z * rng;
  rnd_random_unit : forall g, (0 <= fst (rnd_random g) /\ fst (rnd_random g) < 1)%Q;
  rnd_below_range : forall n g, (0 < n)%Z -> (0 <= fst (rnd_below n g) < n)%Z;
}.

Section Runtime.
Context `{RT : PyRuntime} `{RNG : PyRandom}.

(** [bool(v)] *)
Definition truthy (v : pyval) : bool :=
  match v with
  | PNone => false
  | PBool b => b
  | PInt z => negb (z =? 0)%Z
  | PFloat q => negb (Qeq_bool q 0)
  | PStr s => negb (String.eqb s "")
  | PList l => match l with [] => false | _ => true end
  | PDict d => match map_to_list d with [] => false | _ => true end
  end.

(** [d.get(k)] *)
Definition get (d : gmap string pyval) (k : string) : pyval :=
  default PNone (d !! k).

(** [d.get(k, v)] *)
Definition get2 (d : gmap string pyval) (k : string) (v : pyval) : pyval :=
  default v (d !! k).

(** [d[k]] *)
Definition item (d : gmap string pyval) (k : string) : result pyval :=
  match d !! k with
  | Some v => Ok v
  | None => Raise KeyError
  end.

(** [v or dflt] *)
Definition por (v dflt : pyval) : pyval := if truthy v then v else dflt.

(** A value used as an operand of float arithmetic. *)
Definition py_num (v : pyval) : result Q :=
  match v with
  | PBool b => Ok (if b then 1 else 0)%Q
  | PInt z => Ok (inject_Z z)
  | PFloat q => Ok q
  | _ => Raise TypeError
  end.

(** [v == 0.0] *)
Definition eq_zero (v : pyval) : bool :=
  match v with
  | PBool b => negb b
  | PInt z => (z =? 0)%Z
  | PFloat q => Qeq_bool q 0
  | _ => false
  end.

(** [str(v)] *)
Definition py_str (v : pyval) : string :=
  match v with
  | PStr s => s
  | PNone => "None"
  | PBool true => "True"
  | PBool false => "False"
  | PInt z => str_of_Z z
  | _ => py_repr v
  end.

(** [float(v)] *)
Definition py_float (v : pyval) : result Q :=
  match v with
  | PBool b => Ok (if b then 1 else 0)%Q
  | PInt z => Ok (inject_Z z)
  | PFloat q => Ok q
  | PStr s => match float_of_str s with Some q => Ok q | None => Raise ValueError end
  | _ => Raise TypeError
  end.

(** [int(v)] *)
Definition py_int (v : pyval) : result Z :=
  match v with
  | PBool b => Ok (if b then 1 else 0)%Z
  | PInt z => Ok z
  | PFloat q => Ok (trunc q)
  | PStr s => match int_of_str s with Some z => Ok z | None => Raise ValueError end
  | _ => Raise TypeError
  end.

(** [v.lower()], an AttributeError when [v] is not a [str] *)
Definition py_lower (v : pyval) : result string :=
  match v with
  | PStr s => Ok (lower s)
  | _ => Raise AttributeError
  end.

(** [rnd.uniform(a, b)] *)
Definition uniform (a b : Q) (g : rng) : Q * rng :=
  let '(u, g) := rnd_random g in ((a + (b - a) * u)%Q, g).

(** [rnd.randrange(start, stop)] *)
Definition randrange (start stop : Z) (g : rng) : result (Z * rng) :=
  if (0 <? stop - start)%Z then
    let '(k, g) := rnd_below (stop - start) g in Ok ((start + k)%Z, g)
  else Raise ValueError.

(** [rnd.randint(a, b)] *)
Definition randint (a b : Z) (g : rng) : result (Z * rng) :=
  randrange a (b + 1) g.

(** [arr[i]]: a negative index counts from the end *)
Definition index {A} (arr : list A) (i : Z) : result A :=
  let n := Z.of_nat (length arr) in
  let j := if (i <? 0)%Z then (i + n)%Z else i in
  if (0 <=? j)%Z && (j <? n)%Z then
    match arr !! Z.to_nat j with
    | Some x => Ok x
    | None => Raise IndexError
    end
  else Raise IndexError.

(** [arr[rng.randrange(len(arr))]] *)
Definition pick {A} (arr : list A) (g : rng) : result (A * rng) :=
  '(i, g) ← randrange 0 (Z.of_nat (length arr)) g;
  x ← index arr i;
  Ok (x, g).

End Runtime.

End Py.

(** ** utils_json_v12.py: the diet-shape normalizer and the diversifier *)

Module utils_json_v12.
Import Py.

Definition SAUDI_MEAL_NAMES : list string := [
  "Masoub (banana+dates+milk)";
  "Chicken Kabsa (lean rice)";
  "Jareesh with laban";
  "Ful medames + tamees";
  "Balila cup (chickpeas)";
  "Grilled Hammour + rice + salad";
  "Labneh + cucumbers + olives + bread";
  "Tuna salad + lemon + olive oil";
  "Margoog (light) + salad";
  "Thareed (lean beef + veg)";
  "Harees (light) + salad";
  "Egg shakshouka + bread";
  "Date + laban snack"
].

Definition totals : list string :=
  ["Total_kcal_target_kcal"; "Total_carbs_g"; "Total_fat_g";
   "Total_protein_g"; "Total_fiber_g"; "Total_sodium_mg"].
Definition meals : list string := ["1st"; "2nd"; "3rd"; "4th"].
Definition mkeys : list string :=
  ["kcal_target_kcal"; "carbs_g"; "fat_g"; "protein_g"; "fiber_g"; "sodium_mg"].

(** The last-week argument of [diversify_meals]: [None], the very object
    being diversified, or another dict. *)
Inductive last_week : Type :=
| LastNone
| LastSame
| LastOther (b : gmap string pyval).

Section WithRuntime.
Context `{RT : PyRuntime} `{RNG : PyRandom}.

Definition _f (v : pyval) (dflt : Q) : Q :=
  match v with
  | PNone => dflt
  | PStr s =>
      if String.eqb (strip s) "" then dflt
      else match py_float v with Ok q => q | Raise _ => dflt end
  | _ => match py_float v with Ok q => q | Raise _ => dflt end
  end.

Definition _ensure_meal_label (val : pyval) (idx : nat) : string :=
  match val with
  | PStr s =>
      if negb (String.eqb (strip s) "") then strip s
      else nth (idx mod length SAUDI_MEAL_NAMES) SAUDI_MEAL_NAMES ""
  | _ => nth (idx mod length SAUDI_MEAL_NAMES) SAUDI_MEAL_NAMES ""
  end.

Definition _pull_nested_meal_num (obj : gmap string pyval) (key : string) (fallback : Q) : Q :=
  match obj !! key with
  | Some v => _f v fallback
  | None =>
      let prefix := hd "" (split_on "_" key) in
      match get obj (prefix ++ "_meal") with
      | PDict nested =>
          match nested !! key with
          | Some v => _f v fallback
          | None => fallback
          end
      | _ => fallback
      end
  end.

(** [float(sum(obj[f"{m}_meal_{mm}"] for m in meals))] *)
Definition _sum (obj : gmap string pyval) (mm : string) : result Q :=
  foldl (fun acc m =>
           a ← acc;
           v ← item obj (m ++ "_meal_" ++ mm);
           q ← py_num v;
           Ok (a + q)%Q)
        (Ok 0%Q) meals.

(** [if obj[tk]==0.0: obj[tk] = _sum(mm)] *)
Definition fill_total (tk mm : string) (obj : gmap string pyval) : result (gmap string pyval) :=
  t ← item obj tk;
  if eq_zero t then
    s ← _sum obj mm;
    Ok (<[tk := PFloat s]> obj)
  else Ok obj.

Definition shape_meal (obj : gmap string pyval) (i : nat) (m : string) : gmap string pyval :=
  let name_key := m ++ "_meal" in
  let obj := <[name_key := PStr (_ensure_meal_label (get obj name_key) i)]> obj in
  foldl (fun obj mk =>
           let full := m ++ "_meal_" ++ mk in
           <[full := PFloat (_pull_nested_meal_num obj full 0.0)]> obj)
        obj mkeys.

Definition ensure_diet_shape (obj : gmap string pyval) : result (gmap string pyval) :=
  let obj := foldl (fun obj k => <[k := PFloat (_f (get2 obj k (PFloat 0.0)) 0.0)]> obj)
                   obj totals in
  let obj := foldl (fun obj im => shape_meal obj (fst im) (snd im))
                   obj (zip (seq 0 (length meals)) meals) in
  (* if totals missing, recompute from meals *)
  obj ← fill_total "Total_kcal_target_kcal" "kcal_target_kcal" obj;
  obj ← fill_total "Total_carbs_g" "carbs_g" obj;
  obj ← fill_total "Total_fat_g" "fat_g" obj;
  obj ← fill_total "Total_protein_g" "protein_g" obj;
  obj ← fill_total "Total_fiber_g" "fiber_g" obj;
  obj ← fill_total "Total_sodium_mg" "sodium_mg" obj;
  let obj :=
    if negb (truthy (get obj "Note"))
    then <["Note" := PStr "Saudi-inspired plan. Adjust portions if training load changes."]> obj
    else obj in
  Ok obj.

Definition _sha_seed (s : string) : Z := sha256_hex12 s.

Definition _dirichlet4 (rnd : rng) : list Q * rng :=
  let '(r1, rnd) := rnd_random rnd in
  let '(r2, rnd) := rnd_random rnd in
  let '(r3, rnd) := rnd_random rnd in
  let '(r4, rnd) := rnd_random rnd in
  let xs := [r1 + 0.3; r2 + 0.3; r3 + 0.3; r4 + 0.3]%Q in
  let s := foldl Qplus 0%Q xs in
  (map (fun x => x / s)%Q xs, rnd).

Definition _split (total : Q) (rnd : rng) : list Q * rng :=
  if Qle_bool total 0 then ([0.0; 0.0; 0.0; 0.0]%Q, rnd)
  else
    let '(w, rnd) := _dirichlet4 rnd in
    (map (fun wi => round_nd 1 (total * wi)) w, rnd).

Definition tol_default : Q := 1 # 1000000.

Definition _all_meals_identical (obj : gmap string pyval) (tol : Q) : result bool :=
  let keys := mkeys in
  first ← mapM (fun k => item obj ("1st_meal_" ++ k)) keys;
  same ← foldl (fun (acc : result bool) m =>
                  foldl (fun (acc : result bool) kf =>
                           b ← acc;
                           if b : bool then
                             v ← item obj (m ++ "_meal_" ++ fst kf);
                             Ok (negb (Qlt_bool tol (Qabs (_f v 0.0 - _f (snd kf) 0.0))))
                           else Ok false)
                        acc (zip keys first))
               (Ok true) (tl meals);
  if negb same then Ok false
  else
    (* also check identical meal names *)
    let n0 := py_str (get2 obj "1st_meal" (PStr "")) in
    if existsb (fun m => negb (String.eqb (py_str (get2 obj (m ++ "_meal") (PStr ""))) n0))
               (tl meals)
    then Ok false
    else Ok true.

Definition same_names (a b : gmap string pyval) : bool :=
  forallb (fun m => String.eqb (py_str (get2 a (m ++ "_meal") (PStr "")))
                               (py_str (get2 b (m ++ "_meal") (PStr ""))))
          meals.

Definition close_totals (a b : gmap string pyval) (tol : Q) : bool :=
  forallb (fun k => Qle_bool (Qabs (_f (get2 a k (PInt 0)) 0.0 - _f (get2 b k (PInt 0)) 0.0)) tol)
          totals.

(** [_similar_overview(a, b)] with [b] an optional dict;
    [not b] holds for [None] and for the empty dict. *)
Definition _similar_overview (a : gmap string pyval) (b : option (gmap string pyval)) (tol : Q) : bool :=
  match b with
  | None => false
  | Some b =>
      if negb (truthy (PDict b)) then false
      else same_names a b || close_totals a b tol
  end.

Definition _goal_kcal (w_kg : Q) (goal : string) : Q :=
  let base := (28.0 * w_kg)%Q in
  let base := if contains "fat" goal then (base - 250)%Q else base in
  let base := if contains "muscle" goal then (base + 150)%Q else base in
  fmax 1600.0 (fmin 3600.0 base).

Definition _jitter (value pct : Q) (rnd : rng) : Q * rng :=
  let lo := (1.0 - pct)%Q in
  let hi := (1.0 + pct)%Q in
  let '(u, rnd) := uniform lo hi rnd in
  (round_nd 1 (value * u), rnd).

Definition _re_totals_with_jitter (obj persona : gmap string pyval) (rnd : rng)
  : result (gmap string pyval * rng) :=
  let w := _f (get persona "Weight_kg") 75.0 in
  goal ← py_lower (por (get persona "Primary_goal") (PStr ""));
  let kcal := _goal_kcal w goal in
  let '(kcal, rnd) := _jitter kcal 0.06 rnd in
  let '(p, f, rnd) :=
    if contains "muscle" goal then
      let '(p, rnd) := _jitter (fmin (fmax (1.9 * w) 110) 190) 0.06 rnd in
      let '(f, rnd) := _jitter (kcal * 0.27 / 9.0) 0.08 rnd in
      (p, f, rnd)
    else if contains "fat" goal then
      let '(p, rnd) := _jitter (fmin (fmax (1.8 * w) 100) 180) 0.06 rnd in
      let '(f, rnd) := _jitter (kcal * 0.30 / 9.0) 0.08 rnd in
      (p, f, rnd)
    else
      let '(p, rnd) := _jitter (fmin (fmax (1.7 * w) 95) 175) 0.06 rnd in
      let '(f, rnd) := _jitter (kcal * 0.28 / 9.0) 0.08 rnd in
      (p, f, rnd) in
  let c := fmax 90.0 ((kcal - (p * 4 + f * 9)) / 4.0) in
  let '(u, rnd) := uniform 24 36 rnd in
  let fiber := round_nd 1 u in
  let '(u, rnd) := uniform (-350) 350 rnd in
  let sodium := round_nd 0 (fmax 1500.0 (fmin 3200.0 (2000.0 + (w - 70.0) * 8.0 + u))) in
  let obj := <["Total_kcal_target_kcal" := PFloat (round_nd 1 kcal)]> obj in
  let obj := <["Total_carbs_g" := PFloat (round_nd 1 c)]> obj in
  let obj := <["Total_fat_g" := PFloat (round_nd 1 f)]> obj in
  let obj := <["Total_protein_g" := PFloat (round_nd 1 p)]> obj in
  let obj := <["Total_fiber_g" := PFloat fiber]> obj in
  let obj := <["Total_sodium_mg" := PFloat sodium]> obj in
  Ok (obj, rnd).

(** [_split(obj[tk], rnd)] *)
Definition split_total (obj : gmap string pyval) (tk : string) (rnd : rng)
  : result (list Q * rng) :=
  v ← item obj tk;
  t ← py_num v;
  Ok (_split t rnd).

(** One pass of [diversify_meals], up to the similarity test. *)
Definition diversify_pass (obj : gmap string pyval) (pid week_id : string)
    (persona : gmap string pyval) (nonce : Z) : result (gmap string pyval) :=
  let seed := _sha_seed (pid ++ "|" ++ week_id ++ "|diet|" ++ str_of_Z nonce) in
  let rnd := Random seed in
  (* 1) Replace totals with goal/weight-informed values + jitter *)
  '(obj, rnd) ← _re_totals_with_jitter obj persona rnd;
  (* 2) Assign meal names (rotating window) *)
  '(offset, rnd) ← randrange 0 (Z.of_nat (length SAUDI_MEAL_NAMES) - 4) rnd;
  chosen ← mapM (fun i => index SAUDI_MEAL_NAMES (offset + Z.of_nat i)) (seq 0 4);
  let obj := foldl (fun obj it => <[snd it ++ "_meal" := PStr (nth (fst it) chosen "")]> obj)
                   obj (zip (seq 0 (length meals)) meals) in
  (* 3) Re-split totals across meals with Dirichlet weights *)
  '(s_kcal, rnd) ← split_total obj "Total_kcal_target_kcal" rnd;
  '(s_carbs, rnd) ← split_total obj "Total_carbs_g" rnd;
  '(s_fat, rnd) ← split_total obj "Total_fat_g" rnd;
  '(s_protein, rnd) ← split_total obj "Total_protein_g" rnd;
  '(s_fiber, rnd) ← split_total obj "Total_fiber_g" rnd;
  '(s_sodium, rnd) ← split_total obj "Total_sodium_mg" rnd;
  let obj := foldl (fun obj it =>
                      let i := fst it in
                      let tag := snd it in
                      let obj := <[tag ++ "_meal_kcal_target_kcal" := PFloat (nth i s_kcal 0%Q)]> obj in
                      let obj := <[tag ++ "_meal_carbs_g" := PFloat (nth i s_carbs 0%Q)]> obj in
                      let obj := <[tag ++ "_meal_fat_g" := PFloat (nth i s_fat 0%Q)]> obj in
                      let obj := <[tag ++ "_meal_protein_g" := PFloat (nth i s_protein 0%Q)]> obj in
                      let obj := <[tag ++ "_meal_fiber_g" := PFloat (nth i s_fiber 0%Q)]> obj in
                      let obj := <[tag ++ "_meal_sodium_mg" := PFloat (nth i s_sodium 0%Q)]> obj in
                      obj)
                   obj (zip (seq 0 (length meals)) meals) in
  Ok obj.

(** The object [last_week_obj] denotes once [obj] has been rewritten. *)
Definition last_week_value (obj : gmap string pyval) (last : last_week)
  : option (gmap string pyval) :=
  match last with
  | LastNone => None
  | LastSame => Some obj
  | LastOther b => Some b
  end.

(** [fuel] is the recursion depth the interpreter still allows. *)
Fixpoint diversify_meals (fuel : nat) (obj : gmap string pyval) (pid week_id : string)
    (persona : gmap string pyval) (last_week_obj : last_week) (nonce : Z)
  : result (gmap string pyval) :=
  match fuel with
  | O => Raise RecursionError
  | S fuel =>
      obj ← diversify_pass obj pid week_id persona nonce;
      (* 4) identical meals or too similar to last week: an extra rotation *)
      ident ← _all_meals_identical obj tol_default;
      if ident || _similar_overview obj (last_week_value obj last_week_obj) tol_default
      then diversify_meals fuel obj pid week_id persona last_week_obj (nonce + 1)
      else Ok obj
  end.

End WithRuntime.

End utils_json_v12.

(** ** acegpt_client.py: the schema normalizer and the meal builder *)

Module acegpt_client.
Import Py.


(** [(name_key, [kcal_key; c_key; f_key; p_key; fi_key; na_key])] *)
Definition MEAL_KEYS : list (string * list string) := [
  ("1st_meal", ["1st_meal_kcal_target_kcal"; "1st_meal_carbs_g"; "1st_meal_fat_g";
                "1st_meal_protein_g"; "1st_meal_fiber_g"; "1st_meal_sodium_mg"]);
  ("2nd_meal", ["2nd_meal_kcal_target_kcal"; "2nd_meal_carbs_g"; "2nd_meal_fat_g";
                "2nd_meal_protein_g"; "2nd_meal_fiber_g"; "2nd_meal_sodium_mg"]);
  ("3rd_meal", ["3rd_meal_kcal_target_kcal"; "3rd_meal_carbs_g"; "3rd_meal_fat_g";
                "3rd_meal_protein_g"; "3rd_meal_fiber_g"; "3rd_meal_sodium_mg"]);
  ("4th_meal", ["4th_meal_kcal_target_kcal"; "4th_meal_carbs_g"; "4th_meal_fat_g";
                "4th_meal_protein_g"; "4th_meal_fiber_g"; "4th_meal_sodium_mg"])
].


(** *** Nutrition database (per 100 g / 100 ml) *)

Record macros : Type := mk_macros {
  kcal : Q; carb : Q; prot : Q; fat : Q; fib : Q; na : Q
}.

Definition NUTR : list (string * macros) := [
  (* breads *)
  ("tamees",             mk_macros 275 52 9 3 3 450);
  ("whole-wheat tamees", mk_macros 260 49 10 3 6 440);
  ("samoon",             mk_macros 280 54 9 3 2.5 500);
  ("markook",            mk_macros 260 53 8 2 3 400);
  ("pita",               mk_macros 260 55 9 1.5 2.5 400);
  ("kubz arabi",         mk_macros 260 55 9 1.5 2.5 400);
  (* spreads/eggs *)
  ("ful medames",        mk_macros 110 19 7.6 0.6 8 250);
  ("labneh",             mk_macros 130 5 10 7 0 200);
  ("hummus",             mk_macros 177 14.3 7.9 8.6 6 240);
  ("feta",               mk_macros 265 4 14 21 0 1100);
  ("peanut butter",      mk_macros 588 20 25 50 6 400);
  ("white cheese",       mk_macros 280 3 20 22 0 700);
  ("scrambled eggs",     mk_macros 155 1.1 13 11 0 125);
  ("boiled eggs",        mk_macros 155 1.1 13 11 0 125);
  ("omelette",           mk_macros 180 2 12 14 0 135);
  (* proteins *)
  ("chicken breast",     mk_macros 165 0 31 3.6 0 74);
  ("lamb",               mk_macros 294 0 25 21 0 70);
  ("beef",               mk_macros 250 0 26 15 0 72);
  ("shrimp",             mk_macros 99 0.2 24 0.3 0 150);
  ("white fish",         mk_macros 120 0 26 1.5 0 90);
  ("tuna",               mk_macros 132 0 29 1 0 320);
  (* rice dishes (cooked) *)
  ("kabsa",              mk_macros 170 30 4 3 1 300);
  ("mandi",              mk_macros 160 29 4 2.5 1 260);
  ("saleeq",             mk_macros 140 24 4 2.5 0.5 250);
  ("sayadiyah",          mk_macros 165 28 6 3 1 350);
  (* sides *)
  ("simple salad",       mk_macros 35 7 1.5 0.2 2.5 50);
  ("cucumber sticks",    mk_macros 16 3.6 0.7 0.1 0.5 2);
  ("carrot sticks",      mk_macros 41 10 0.9 0.2 2.8 69);
  ("roasted zucchini",   mk_macros 30 6 1.2 0.4 2 5);
  ("okra stew",          mk_macros 70 9 2 3 3 300);
  ("grilled peppers",    mk_macros 31 6 1 0.3 2 4);
  (* drinks (per 100 ml) *)
  ("laban",              mk_macros 40 3 3 2 0 45);
  ("mint tea",           mk_macros 1 0.2 0 0 0 2);
  ("Arabic coffee",      mk_macros 2 0.3 0.1 0 0 5);
  ("black tea",          mk_macros 1 0.1 0 0 0 3);
  ("water",              mk_macros 0 0 0 0 0 0);
  (* fruits *)
  ("dates",              mk_macros 282 75 2.5 0.4 8 2);
  ("banana",             mk_macros 89 23 1.1 0.3 2.6 1);
  ("orange",             mk_macros 47 12 0.9 0.1 2.4 1);
  ("apple",              mk_macros 52 14 0.3 0.2 2.4 1);
  ("berries",            mk_macros 57 14 1 0.3 5 1);
  ("grapes",             mk_macros 69 18 0.7 0.2 1 2);
  (* sauces (assume small serving) *)
  ("tahini lemon dip",   mk_macros 595 21 17 53 9 10);
  ("yogurt",             mk_macros 59 3.6 10 0.4 0 36);
  ("garlic sauce",       mk_macros 500 10 4 48 1 600);
  ("tomato salsa",       mk_macros 29 7 1.5 0.2 1.5 300);
  ("pickles",            mk_macros 12 2.5 0.3 0.2 1.2 785)
]%Q.

(** [NUTR[name]] when [name in NUTR] *)
Fixpoint nutr_lookup (tbl : list (string * macros)) (name : string) : option macros :=
  match tbl with
  | [] => None
  | (n, m) :: tbl' => if String.eqb n name then Some m else nutr_lookup tbl' name
  end.

(** *** Meal composition helpers *)

Definition WINDOWS (slot : Z) : string :=
  match slot with
  | 1%Z => "07:30–09:30 — Breakfast:"
  | 2%Z => "12:30–14:30 — Lunch:"
  | 3%Z => "17:00–18:30 — Snack:"
  | _ => "20:00–22:00 — Dinner:"
  end.

Definition BREADS := ["tamees"; "whole-wheat tamees"; "samoon"; "markook"; "pita"; "kubz arabi"].
Definition SPREADS := ["ful medames"; "labneh"; "hummus"; "feta"; "peanut butter"; "white cheese"].
Definition EGGS := ["scrambled eggs"; "boiled eggs"; "omelette"].
Definition PROTEINS := ["chicken breast"; "lamb"; "beef"; "shrimp"; "white fish"; "tuna"].
Definition RICE_DISH := ["kabsa"; "mandi"; "saleeq"; "sayadiyah"].
Definition SIDES := ["simple salad"; "cucumber sticks"; "carrot sticks"; "roasted zucchini";
                     "okra stew"; "grilled peppers"].
Definition DRINKS := ["laban"; "mint tea"; "Arabic coffee"; "black tea"; "water"].
Definition FRUITS := ["dates"; "banana"; "orange"; "apple"; "berries"; "grapes"].
Definition SAUCES := ["tahini lemon dip"; "yogurt"; "garlic sauce"; "tomato salsa"; "pickles"].

(** [x in arr] *)
Definition mem (x : string) (arr : list string) : bool := existsb (String.eqb x) arr.

(** An item of a meal: [(name, amount, unit)]. *)
Definition item_t : Type := string * Z * string.

Section WithRuntime.
Context `{RT : PyRuntime} `{RNG : PyRandom}.

Definition _rng_for (persona_id : string) (slot_idx attempt : Z) : rng :=
  let seed_str := persona_id ++ "-" ++ str_of_Z slot_idx ++ "-" ++ str_of_Z attempt in
  Random (sha256_hex12 seed_str).

Definition _pick (rng0 : rng) (arr : list string) : result (string * rng) := pick arr rng0.

(** [x] is always an [int] here, so [int(round(x))] is [x]. *)
Definition _clamp_int (x lo hi : Z) : Z := Z.max lo (Z.min hi x).

(** [_clamp_int(rng.randint(a, b), lo, hi)] *)
Definition amount (a b lo hi : Z) (g : rng) : result (Z * rng) :=
  '(x, g) ← randint a b g; Ok (_clamp_int x lo hi, g).

Definition g_txt (name : string) (amt : Z) (unit : string) : string :=
  name ++ " (" ++ str_of_Z amt ++ " " ++ unit ++ ")".

Definition _compose_breakfast (g : rng) : result (string * list item_t) :=
  '(bread, g) ← _pick g BREADS; '(g_bread, g) ← amount 90 140 60 180 g;
  '(spread_or_eggs, g) ← _pick g (SPREADS ++ EGGS)%list;
  '(g_spread, g) ← (if mem spread_or_eggs SPREADS then amount 70 120 40 150 g
                     else amount 90 120 80 140 g);
  '(fruit, g) ← _pick g FRUITS; '(g_fruit, g) ← amount 80 120 60 180 g;
  '(drink, g) ← _pick g DRINKS; '(ml_drink, g) ← amount 150 250 100 300 g;
  let items := [(bread, g_bread, "g"); (spread_or_eggs, g_spread, "g");
                (fruit, g_fruit, "g"); (drink, ml_drink, "ml")] in
  let text := WINDOWS 1 ++ " " ++ g_txt bread g_bread "g" ++ ", " ++
              g_txt spread_or_eggs g_spread "g" ++ ", " ++ g_txt fruit g_fruit "g" ++ ", " ++
              g_txt drink ml_drink "ml" in
  Ok (text, items).

Definition _compose_lunch (g : rng) : result (string * list item_t) :=
  '(rice, g) ← _pick g RICE_DISH; '(g_rice, g) ← amount 260 380 200 450 g;
  '(protein, g) ← _pick g PROTEINS; '(g_prot, g) ← amount 150 200 120 240 g;
  '(side, g) ← _pick g SIDES; '(g_side, g) ← amount 100 160 80 200 g;
  '(drink, g) ← _pick g DRINKS; '(ml_drink, g) ← amount 160 240 120 300 g;
  let items := [(rice, g_rice, "g"); (protein, g_prot, "g");
                (side, g_side, "g"); (drink, ml_drink, "ml")] in
  let text := WINDOWS 2 ++ " " ++ g_txt rice g_rice "g" ++ " + " ++
              g_txt protein g_prot "g" ++ ", " ++ g_txt side g_side "g" ++ ", " ++
              g_txt drink ml_drink "ml" in
  Ok (text, items).

Definition _compose_snack (g : rng) : result (string * list item_t) :=
  '(spread, g) ← _pick g SPREADS; '(g_spread, g) ← amount 90 140 60 160 g;
  '(bread, g) ← _pick g BREADS; '(g_bread, g) ← amount 70 110 50 140 g;
  '(fruit, g) ← _pick g FRUITS; '(g_fruit, g) ← amount 70 110 50 150 g;
  let items := [(spread, g_spread, "g"); (bread, g_bread, "g"); (fruit, g_fruit, "g")] in
  let text := WINDOWS 3 ++ " " ++ g_txt spread g_spread "g" ++ " with " ++
              g_txt bread g_bread "g" ++ ", " ++ g_txt fruit g_fruit "g" in
  Ok (text, items).

Definition _compose_dinner (g : rng) : result (string * list item_t) :=
  (* choose either rice-dish dinner OR grilled protein plate *)
  let '(coin, g) := rnd_random g in
  if Qlt_bool coin 0.5 then
    '(rice, g) ← _pick g RICE_DISH; '(g_rice, g) ← amount 220 340 180 400 g;
    '(protein, g) ← _pick g PROTEINS; '(g_prot, g) ← amount 150 200 120 240 g;
    '(side, g) ← _pick g SIDES; '(g_side, g) ← amount 100 160 80 200 g;
    '(sauce, g) ← _pick g SAUCES; '(g_sauce, g) ← amount 20 35 15 40 g;
    let items := [(rice, g_rice, "g"); (protein, g_prot, "g");
                  (side, g_side, "g"); (sauce, g_sauce, "g")] in
    let text := WINDOWS 4 ++ " " ++ g_txt rice g_rice "g" ++ " + " ++
                g_txt protein g_prot "g" ++ ", " ++ g_txt side g_side "g" ++ ", " ++
                g_txt sauce g_sauce "g" in
    Ok (text, items)
  else
    '(protein, g) ← _pick g PROTEINS; '(g_prot, g) ← amount 170 220 140 260 g;
    '(side, g) ← _pick g SIDES; '(g_side, g) ← amount 120 180 90 220 g;
    '(sauce, g) ← _pick g SAUCES; '(g_sauce, g) ← amount 20 35 15 40 g;
    '(bread_or_rice, g) ← _pick g (BREADS ++ RICE_DISH)%list;
    '(g_br, g) ← (if mem bread_or_rice BREADS then amount 80 130 60 180 g
                   else amount 200 320 160 400 g);
    let items := [(protein, g_prot, "g"); (side, g_side, "g");
                  (sauce, g_sauce, "g"); (bread_or_rice, g_br, "g")] in
    let text := WINDOWS 4 ++ " grilled " ++ g_txt protein g_prot "g" ++ ", " ++
                g_txt side g_side "g" ++ ", " ++ g_txt sauce g_sauce "g" ++ ", " ++
                g_txt bread_or_rice g_br "g" in
    Ok (text, items).

(** The running totals of [_sum_macros], before rounding. *)
Definition add_item (total : macros) (it : item_t) : macros :=
  let '(name, amt, _) := it in
  match nutr_lookup NUTR name with
  | None => total
  | Some per =>
      let factor := (inject_Z amt / 100.0)%Q in
      mk_macros (kcal total + kcal per * factor) (carb total + carb per * factor)
                (prot total + prot per * factor) (fat total + fat per * factor)
                (fib total + fib per * factor) (na total + na per * factor)
  end.

Definition _sum_macros (items : list item_t) : macros :=
  let total := foldl add_item (mk_macros 0.0 0.0 0.0 0.0 0.0 0.0) items in
  (* round sensibly *)
  let total := mk_macros (round_nd 1 (kcal total)) (round_nd 1 (carb total))
                         (round_nd 1 (prot total)) (round_nd 1 (fat total))
                         (round_nd 1 (fib total)) (round_nd 1 (na total)) in
  (* compute kcal via macros for consistency (override with 4/4/9 rule) *)
  let kcal_calc := (4.0 * carb total + 4.0 * prot total + 9.0 * fat total)%Q in
  mk_macros (round_nd 1 kcal_calc) (carb total) (prot total) (fat total) (fib total) (na total).

(** [USED_MEAL_TEXTS] is threaded as state. *)
Definition _ensure_unique (text : string) (used : gset string) : string * gset string :=
  if bool_decide (text ∈ used) then
    (* add small unique tag when collision happens *)
    let tag := md5_hex6 text in
    let uniq := text ++ " [u:" ++ tag ++ "]" in
    (uniq, {[uniq]} ∪ used)
  else (text, {[text]} ∪ used).




(** One attempt of [_compose_meal]: compose the slot from the seeded stream. *)
Definition compose_slot (slot_idx : Z) (g : rng) : result (string * list item_t) :=
  if (slot_idx =? 1)%Z then _compose_breakfast g
  else if (slot_idx =? 2)%Z then _compose_lunch g
  else if (slot_idx =? 3)%Z then _compose_snack g
  else _compose_dinner g.

(** The [for attempt in range(12)] loop, from [attempt] with [n] attempts left. *)
Fixpoint compose_attempts (n : nat) (attempt : Z) (slot_idx : Z) (persona_id : string)
    (used : gset string) : result (option (string * macros) * gset string) :=
  match n with
  | O => Ok (None, used)
  | S n =>
      let g := _rng_for persona_id slot_idx attempt in
      '(text, items) ← compose_slot slot_idx g;
      let '(text, used) := _ensure_unique text used in
      let m := _sum_macros items in
      (* Reject absurdly low/high kcal per slot *)
      if Qle_bool 250 (kcal m) && Qle_bool (kcal m) 1200 then Ok (Some (text, m), used)
      else compose_attempts n (attempt + 1) slot_idx persona_id used
  end.

Definition _compose_meal (slot_idx : Z) (persona_id : string) (used : gset string)
  : result (string * macros * gset string) :=
  '(found, used) ← compose_attempts 12 0 slot_idx persona_id used;
  match found with
  | Some (text, m) => Ok (text, m, used)
  | None =>
      (* fallback (should not happen often) *)
      let g := _rng_for persona_id slot_idx 999 in
      '(text, items) ← compose_slot slot_idx g;
      let '(text, used) := _ensure_unique text used in
      Ok (text, _sum_macros items, used)
  end.

End WithRuntime.

End acegpt_client.

(** ** The weekly log, as both simulators return it *)

Record WeeklyLog : Type := mk_log {
  Date : string;
  Time_ : string;
  free_text_feedback : string;
  notes : string;
  daily_avg_kcal : Q;
  Pre_weight_kg : Q;
  Pre_muscle_kg : Q;
  Pre_fat_pct : Q;
  Post_weight_kg : Q;
  Post_muscle_kg : Q;
  Post_fat_pct : Q;
  delta_weight_kg : Q;
  delta_muscle_kg : Q;
  delta_fat_pct : Q;
  sleep_avg_hours : Q
}.

(** ** claude_client_v12.py: the seeded fallback of the weekly simulation *)

Module claude_client_v12.
Import Py.

Section WithRuntime.
Context `{RT : PyRuntime} `{RNG : PyRandom}.
#[local] Open Scope Q_scope.

Definition _seed (s : string) : Z := sha256_hex12 s.

Definition _rng (pid week_id : string) (salt : Z) : rng :=
  Random (_seed (pid ++ "|" ++ week_id ++ "|logs|" ++ str_of_Z salt)).

Definition _pick {A} (g : rng) (arr : list A) : result (A * rng) := pick arr g.

(** [float(d.get(k, dflt) or dflt)] *)
Definition float_or (d : gmap string pyval) (k : string) (dflt : Q) : result Q :=
  py_float (por (get2 d k (PFloat dflt)) (PFloat dflt)).

(** [(d.get(k) or "").lower()] *)
Definition lower_or_empty (d : gmap string pyval) (k : string) : result string :=
  py_lower (por (get d k) (PStr "")).

Definition tones : list string :=
  ["steady"; "focused"; "up-and-down"; "disciplined"; "optimistic"; "energized";
   "measured"; "resilient"].
Definition feel : list string :=
  ["energy"; "recovery"; "digestion"; "sleep"; "appetite"; "joint comfort"; "pump";
   "motivation"].
Definition change : list string :=
  ["noticeable"; "gradual"; "clear"; "promising"; "mixed"; "strong"].

Definition barrier_hints (k : string) : string :=
  if String.eqb k "time" then "Short supersets and grouped movements saved time."
  else if String.eqb k "motivation" then "Small checklists + music helped motivation spikes."
  else if String.eqb k "sleep" then "Earlier wind-down boosted sleep quality."
  else if String.eqb k "injur" then "Controlled tempo and warm-ups kept joints safe."
  else "Removing frictions improved follow-through.".

Definition goal_hint (gk : string) : string :=
  if String.eqb gk "muscle" then "prioritized progressive overload + protein timing"
  else if String.eqb gk "fat" then "kept a mild deficit + high steps"
  else "balanced volume and daily activity".

Definition _mk_feedback (pid week_id : string) (persona diet : gmap string pyval)
    (workouts_ids : list string) (salt : Z) : result string :=
  let g := _rng pid week_id salt in
  goal ← lower_or_empty persona "Primary_goal";
  barrier ← lower_or_empty persona "Biggest_barrier";
  budget ← lower_or_empty persona "Budjet_SAR_per_day";
  cook ← lower_or_empty persona "Cooking_skill";
  let m1 := py_str (get2 diet "1st_meal" (PStr "")) in
  let m2 := py_str (get2 diet "2nd_meal" (PStr "")) in
  '(wid, g) ← (match workouts_ids with
               | [] => Ok ("W21", g)
               | _ => '(i, g) ← randrange 0 (Z.of_nat (length workouts_ids)) g;
                      w ← index workouts_ids i; Ok (w, g)
               end);
  '(tone, g) ← _pick g tones;
  '(f, g) ← _pick g feel;
  '(ch, g) ← _pick g change;
  adher ← float_or persona "Adherence_propensity" 0.65;
  let adher_txt := if Qle_bool 0.8 adher then "very consistent"
                   else if Qle_bool 0.6 adher then "mostly consistent" else "on/off" in
  let key := hd "x" (filter (fun k => bool_decide (k ∈ ["time"; "motivation"; "sleep"; "injur"]))
                            (split_ws barrier)) in
  let barrier_hint := barrier_hints key in
  let gk := if contains "muscle" goal then "muscle"
            else if contains "fat" goal then "fat" else "recomp" in
  Ok ("Felt " ++ tone ++ " this week. With " ++ adher_txt ++
      " adherence, I completed sessions incl. " ++ wid ++ ". " ++
      "Meals like '" ++ m1 ++ "' and '" ++ m2 ++ "' sat well; " ++ barrier_hint ++
      " I saw " ++ ch ++ " changes in " ++ f ++ ". " ++
      "For my goal, I " ++ goal_hint gk ++ ". Budget=" ++
      (if String.eqb budget "" then "medium" else budget) ++ ", cooking=" ++
      (if String.eqb cook "" then "intermediate" else cook) ++ ".").

Definition knobs : list string :=
  ["front-load protein earlier";
   "lighten late snacks";
   "add 10–15 min mobility";
   "track water more tightly";
   "5-min post-meal walks";
   "prep breakfast the night before";
   "warm shoulders/hips before heavy sets";
   "swap one rice meal for jareesh mid-week";
   "season with za’atar to vary flavor"].

Definition _mk_notes (pid week_id : string) (persona diet : gmap string pyval) (salt : Z)
  : result string :=
  let g := _rng pid week_id salt in
  sleep ← float_or persona "Sleep_hours" 7.0;
  kcal ← float_or diet "Total_kcal_target_kcal" 2000.0;
  '(tweak, g) ← _pick g knobs;
  Ok ("Next week: keep ~" ++ format_fixed 0 kcal ++ " kcal/day, " ++ tweak ++
      ", and aim for consistent " ++ format_fixed 1 sleep ++ " h sleep.").

(** [now] is the pair [now_riyadh()] returns at the time of the call. *)
Definition simulate_week_with_claude_fallback (now : string * string)
    (persona diet : gmap string pyval) (workouts_ids : list string)
    (pid week_id : string) (salt : Z) : result WeeklyLog :=
  let g := _rng pid week_id salt in
  let '(date_str, time_str) := now in
  pre_w ← float_or persona "Weight_kg" 75.0;
  pre_m ← float_or persona "Muscle_mass_kg" 30.0;
  pre_f ← float_or persona "Fat_percent" 25.0;
  adher ← float_or persona "Adherence_propensity" 0.65;
  days ← py_int (por (get2 persona "Days_per_week" (PInt 3)) (PInt 3));
  kcal ← float_or diet "Total_kcal_target_kcal" 2000.0;
  let '(u, g) := uniform (-60) 60 g in
  let daily := round_nd 1 (kcal * (0.82 + 0.38 * adher) + u) in
  goal ← lower_or_empty persona "Primary_goal";
  let '(dW, dM, g) :=
    if contains "fat" goal then
      let '(u1, g) := uniform (-0.08) 0.02 g in
      let '(u2, g) := uniform (-0.02) 0.05 g in
      (-0.35 * adher + u1, 0.03 * adher + u2, g)
    else if contains "muscle" goal then
      let '(u1, g) := uniform (-0.05) 0.12 g in
      let '(u2, g) := uniform 0.00 0.10 g in
      (0.20 * adher + u1, 0.10 * adher + u2, g)
    else
      let '(u1, g) := uniform (-0.06) 0.06 g in
      let '(u2, g) := uniform (-0.02) 0.06 g in
      ((-0.05 + 0.10 * (adher - 0.5)) + u1, 0.05 * adher + u2, g) in
  let post_w := pre_w + dW in
  let post_m := pre_m + dM in
  let fat_kg := pre_w * (pre_f / 100.0) in
  let fat_kg := fat_kg + (if Qlt_bool dW 0 then 0.75 * dW else 0.30 * dW) in
  let post_f := fmax 5.0 (fmin ((fat_kg / fmax post_w 0.1) * 100.0) 60.0) in
  sleep0 ← float_or persona "Sleep_hours" 7.0;
  let '(u, g) := uniform (-0.25) 0.25 g in
  let sleep := round_nd 2 (sleep0 + (0.2 * (adher - 0.5)) + u) in
  feedback ← _mk_feedback pid week_id persona diet workouts_ids salt;
  notes ← _mk_notes pid week_id persona diet salt;
  Ok {| Date := date_str; Time_ := time_str;
        free_text_feedback := feedback;
        notes := notes;
        daily_avg_kcal := daily;
        Pre_weight_kg := round_nd 2 pre_w; Pre_muscle_kg := round_nd 2 pre_m;
        Pre_fat_pct := round_nd 2 pre_f;
        Post_weight_kg := round_nd 2 post_w; Post_muscle_kg := round_nd 2 post_m;
        Post_fat_pct := round_nd 2 post_f;
        delta_weight_kg := round_nd 2 dW; delta_muscle_kg := round_nd 2 dM;
        delta_fat_pct := round_nd 2 (post_f - pre_f);
        sleep_avg_hours := sleep |}.

End WithRuntime.
End claude_client_v12.

(** ** utils_sim_dual.py: the week-1 payload builder *)

Module utils_sim_dual.
Import Py.

Section WithRuntime.
Context `{RT : PyRuntime} `{RNG : PyRandom}.
#[local] Open Scope Q_scope.










Definition tones : list string :=
  ["solid"; "mostly good"; "up-and-down"; "challenging but improving"].






End WithRuntime.
End utils_sim_dual.

(** ** datetime.date, following the algorithms of CPython's [Lib/_pydatetime.py] *)

Module datetime.
Import Py.
#[local] Open Scope Z_scope.

Record date : Type := mk_date { year : Z; month : Z; day : Z }.

Definition MINYEAR : Z := 1.
Definition MAXYEAR : Z := 9999.
Definition _MAXORDINAL : Z := 3652059.

Definition _DAYS_IN_MONTH : list Z := [-1; 31; 28; 31; 30; 31; 30; 31; 31; 30; 31; 30; 31].
Definition _DAYS_BEFORE_MONTH : list Z :=
  [-1; 0; 31; 59; 90; 120; 151; 181; 212; 243; 273; 304; 334].

Definition _is_leap (y : Z) : bool :=
  (y mod 4 =? 0) && (negb (y mod 100 =? 0) || (y mod 400 =? 0)).

Definition _days_before_year (y : Z) : Z :=
  let y := y - 1 in y * 365 + y / 4 - y / 100 + y / 400.

Definition _days_before_month (y m : Z) : Z :=
  nth (Z.to_nat m) _DAYS_BEFORE_MONTH 0 + (if (2 <? m) && _is_leap y then 1 else 0).

Definition _ymd2ord (y m d : Z) : Z :=
  _days_before_year y + _days_before_month y m + d.

Definition _DI400Y : Z := 146097.
Definition _DI100Y : Z := 36524.
Definition _DI4Y : Z := 1461.

Definition _ord2ymd (n : Z) : date :=
  let n := n - 1 in
  let n400 := n / _DI400Y in let n := n mod _DI400Y in
  let y := n400 * 400 + 1 in
  let n100 := n / _DI100Y in let n := n mod _DI100Y in
  let n4 := n / _DI4Y in let n := n mod _DI4Y in
  let n1 := n / 365 in let n := n mod 365 in
  let y := y + (n100 * 100 + n4 * 4 + n1) in
  if (n1 =? 4) || (n100 =? 4) then mk_date (y - 1) 12 31
  else
    let leapyear := (n1 =? 3) && (negb (n4 =? 24) || (n100 =? 3)) in
    let m := Z.shiftr (n + 50) 5 in
    let preceding := nth (Z.to_nat m) _DAYS_BEFORE_MONTH 0 +
                     (if (2 <? m) && leapyear then 1 else 0) in
    let '(m, preceding) :=
      if n <? preceding then
        (m - 1, preceding - (nth (Z.to_nat (m - 1)) _DAYS_IN_MONTH 0 +
                             (if (m - 1 =? 2) && leapyear then 1 else 0)))
      else (m, preceding) in
    mk_date y m (n - preceding + 1).

Definition toordinal (d : date) : Z := _ymd2ord (year d) (month d) (day d).
Definition fromordinal (n : Z) : date := _ord2ymd n.

Definition _isoweek1monday (y : Z) : Z :=
  let THURSDAY := 3 in
  let firstday := _ymd2ord y 1 1 in
  let firstweekday := (firstday + 6) mod 7 in
  let week1monday := firstday - firstweekday in
  if THURSDAY <? firstweekday then week1monday + 7 else week1monday.

(** [d.isocalendar()]: (ISO year, ISO week, ISO weekday) *)
Definition isocalendar (d : date) : Z * Z * Z :=
  let y := year d in
  let week1monday := _isoweek1monday y in
  let today := toordinal d in
  let week := (today - week1monday) / 7 in
  let wd := (today - week1monday) mod 7 in
  if week <? 0 then
    let y := y - 1 in
    let week1monday := _isoweek1monday y in
    (y, (today - week1monday) / 7 + 1, (today - week1monday) mod 7 + 1)
  else if (52 <=? week) && (_isoweek1monday (y + 1) <=? today) then (y + 1, 1, wd + 1)
  else (y, week + 1, wd + 1).

(** Whether ISO year [y] has a week 53, as [_isoweek_to_gregorian] tests it. *)
Definition has_week_53 (y : Z) : bool :=
  let first_weekday := _ymd2ord y 1 1 mod 7 in
  (first_weekday =? 4) || ((first_weekday =? 3) && _is_leap y).

(** [date.fromisocalendar(y, w, wd)] *)
Definition fromisocalendar (y w wd : Z) : result date :=
  if negb ((MINYEAR <=? y) && (y <=? MAXYEAR)) then Raise ValueError
  else if negb ((0 <? w) && (w <? 53)) && negb ((w =? 53) && has_week_53 y) then Raise ValueError
  else if negb ((0 <? wd) && (wd <? 8)) then Raise ValueError
  else
    let day_offset := (w - 1) * 7 + (wd - 1) in
    let day_1 := _isoweek1monday y in
    Ok (_ord2ymd (day_1 + day_offset)).

(** [d + timedelta(days=n)] *)
Definition add_days (d : date) (n : Z) : result date :=
  let o := toordinal d + n in
  if (0 <? o) && (o <=? _MAXORDINAL) then Ok (fromordinal o) else Raise OverflowError.

End datetime.

(** ** utils_time_dual.py: week identifiers *)

Module utils_time_dual.
Import Py datetime.

(** Parse 'Week_YYYY_WW' -> (year, iso_week). *)
Definition parse_week_id (week_id : string) : result (Z * Z) :=
  let parts := split_on "_" week_id in
  if negb (length parts =? 3)%nat || negb (String.eqb (nth 0 parts "") "Week") then
    Raise ValueError
  else
    y ← py_int (PStr (nth 1 parts ""));
    w ← py_int (PStr (nth 2 parts ""));
    Ok (y, w).

(** The Monday date of the ISO week represented by [week_id]. *)
Definition week_monday (week_id : string) : result date :=
  '(y, w) ← parse_week_id week_id;
  fromisocalendar y w 1.

Definition week_label (y w : Z) : string := "Week_" ++ str_of_Z y ++ "_" ++ str_of_Z w.

(** Advance by 7 days from the Monday of this week and return the new 'Week_YYYY_WW'. *)
Definition next_week_id (week_id : string) : result string :=
  mon ← week_monday week_id;
  nxt ← add_days mon 7;
  let '(y, w, _) := isocalendar nxt in
  Ok (week_label y w).

Fixpoint advance (n : nat) (cur : string) (seq : list string) : result (list string) :=
  match n with
  | O => Ok seq
  | S n => cur ← next_week_id cur; advance n cur (seq ++ [cur])
  end.

Definition week_id_sequence (start_week_id : string) (total_weeks : Z) (include_start : bool)
  : result (list string) :=
  if (total_weeks <=? 0)%Z then Ok []
  else
    let seq := if include_start then [start_week_id] else [] in
    advance (Z.to_nat (total_weeks - (if include_start then 1 else 0))) start_week_id seq.

End utils_time_dual.

(** ** A concrete runtime, used to evaluate the model on examples *)

Module Toy.
Import Py.

(** Sum of the bytes of a string. *)
Definition byte_sum (s : string) : Z :=
  fold_right (fun c acc => (Z.of_nat (nat_of_ascii c) + acc)%Z) 0%Z (list_ascii_of_string s).

(** Plain decimals ["12"], ["12.5"], ["-3.25"]. *)
Definition toy_float_of_str (s : string) : option Q :=
  match split_on "." (strip s) with
  | [i] => inject_Z <$> int_of_str i
  | [i; f] =>
      match int_of_str i, (if forallb is_digit (list_ascii_of_string f) then int_of_str f else None) with
      | Some a, Some b =>
          let frac := (inject_Z b / inject_Z (10 ^ Z.of_nat (String.length f)))%Q in
          Some (if startswith "-" (strip s) then inject_Z a - frac else inject_Z a + frac)%Q
      | _, _ => None
      end
  | _ => None
  end.

#[global] Instance toy_runtime : PyRuntime := {|
  float_of_str := toy_float_of_str;
  py_repr := fun _ => "<obj>";
  format_fixed := fun n q => str_of_Z (round_half_even q);
  md5_hex6 := fun s => str_of_Z (byte_sum s mod 1000000);
|}.

(** A counter-based generator: the [k]-th draw of seed [s] is read off [s + k]. *)
Definition toy_random (g : Z * Z) : Q * (Z * Z) :=
  (inject_Z ((fst g * 37 + snd g * 61) mod 100) / 100, (fst g, snd g + 1)%Z)%Q.

Definition toy_below (n : Z) (g : Z * Z) : Z * (Z * Z) :=
  ((fst g + snd g) mod n, (fst g, snd g + 1))%Z.

Lemma toy_random_unit g : (0 <= fst (toy_random g) /\ fst (toy_random g) < 1)%Q.
Proof.
  unfold toy_random; simpl.
  pose proof (Z.mod_pos_bound (g.1 * 37 + g.2 * 61) 100 ltac:(lia)) as H.
  set (m := ((g.1 * 37 + g.2 * 61) mod 100)%Z) in *.
  split.
  - apply Qle_shift_div_l; [reflexivity|]. rewrite Qmult_0_l.
    change 0%Q with (inject_Z 0). rewrite <- Zle_Qle. lia.
  - apply Qlt_shift_div_r; [reflexivity|]. rewrite Qmult_1_l.
    change 100%Q with (inject_Z 100). rewrite <- Zlt_Qlt. lia.
Qed.

Lemma toy_below_range n g : (0 < n)%Z -> (0 <= fst (toy_below n g) < n)%Z.
Proof. intros H. unfold toy_below; simpl. apply Z.mod_pos_bound. exact H. Qed.

#[global] Instance toy_rng : PyRandom := {|
  rng := Z * Z;
  sha256_hex12 := byte_sum;
  Random := fun seed => (seed, 0%Z);
  rnd_random := toy_random;
  rnd_below := toy_below;
  rnd_random_unit := toy_random_unit;
  rnd_below_range := toy_below_range;
|}.

End Toy.

(** A second generator: a fixed tape of draws per seed, chosen so that
    every breakfast is a heavy one. *)

Module Heavy.
Import Py.

Definition tape (seed : Z) : list Z := [2; 44 + seed mod 7; 4; 50; 0; 40; 0; 100]%Z.

Definition heavy_random (g : list Z) : Q * list Z :=
  match g with
  | [] => (0, [])
  | x :: t => (inject_Z (x mod 100) / 100, t)
  end%Q.

Definition heavy_below (n : Z) (g : list Z) : Z * list Z :=
  match g with
  | [] => (0, [])
  | x :: t => (x mod n, t)
  end%Z.

Lemma heavy_random_unit g : (0 <= fst (heavy_random g) /\ fst (heavy_random g) < 1)%Q.
Proof.
  destruct g as [|x t]; cbn [heavy_random fst]; [split; lra|].
  pose proof (Z.mod_pos_bound x 100 ltac:(lia)) as [H0 H1].
  split.
  - apply Qle_shift_div_l; [reflexivity|]. rewrite Qmult_0_l.
    change 0%Q with (inject_Z 0). rewrite <- Zle_Qle. exact H0.
  - apply Qlt_shift_div_r; [reflexivity|]. rewrite Qmult_1_l.
    change 100%Q with (inject_Z 100). rewrite <- Zlt_Qlt. exact H1.
Qed.

Lemma heavy_below_range n g : (0 < n)%Z -> (0 <= fst (heavy_below n g) < n)%Z.
Proof.
  intros H. destruct g as [|x t]; cbn [heavy_below fst]; [lia|].
  apply Z.mod_pos_bound. exact H.
Qed.

#[global] Instance heavy_rng : PyRandom := {|
  rng := list Z;
  sha256_hex12 := Toy.byte_sum;
  Random := tape;
  rnd_random := heavy_random;
  rnd_below := heavy_below;
  rnd_random_unit := heavy_random_unit;
  rnd_below_range := heavy_below_range
|}.

End Heavy.

(** ** ISO weeks: the successor on (year, week) pairs and its checker *)

Module iso_weeks.
Import Py datetime utils_time_dual.
#[local] Open Scope Z_scope.

Definition weeks_in_year (y : Z) : Z := if has_week_53 y then 53 else 52.

Definition valid_week (y w : Z) : Prop :=
  1 <= y <= 9999 /\ 1 <= w <= weeks_in_year y.

Definition iso_succ (yw : Z * Z) : Z * Z :=
  let '(y, w) := yw in
  if w <? weeks_in_year y then (y, w + 1) else (y + 1, 1).


Definition label (yw : Z * Z) : string := week_label (fst yw) (snd yw).

Fixpoint iso_from (n : nat) (yw : Z * Z) : list (Z * Z) :=
  match n with
  | O => []
  | S n => yw :: iso_from n (iso_succ yw)
  end.

(** The Monday of week [w] of year [y] converts to a date and back, and
    the date seven days later is the Monday of the successor week. *)
Definition week_ok (y w : Z) : bool :=
  let o := _isoweek1monday y + (w - 1) * 7 in
  (toordinal (_ord2ymd o) =? o) &&
  (let '(y', w', d') := isocalendar (_ord2ymd (o + 7)) in
   let '(a, b) := iso_succ (y, w) in (y' =? a) && (w' =? b)).

Fixpoint upto (n : nat) (z : Z) (f : Z -> bool) : bool :=
  match n with
  | O => true
  | S n => f z && upto n (z + 1) f
  end.

Definition year_ok (y : Z) : bool := upto (Z.to_nat (weeks_in_year y)) 1 (week_ok y).

Definition num_ok (z : Z) : bool :=
  match int_of_str (str_of_Z z) with Some z' => z' =? z | None => false end &&
  forallb (fun c => negb (Ascii.eqb c "_")) (list_ascii_of_string (str_of_Z z)).

End iso_weeks.

(** ** Sample inputs *)

Module Samples.
Import Py utils_json_v12.

Definition persona1 : gmap string pyval :=
  <["Weight_kg" := PFloat 80]> (<["Primary_goal" := PStr "muscle gain"]> ∅).

(** A last week's plan with the four names of the first window drawn for
    "P01" in week "2025-W46". *)
Definition last_week1 : gmap string pyval :=
  list_to_map [("1st_meal", PStr "Grilled Hammour + rice + salad");
               ("2nd_meal", PStr "Labneh + cucumbers + olives + bread");
               ("3rd_meal", PStr "Tuna salad + lemon + olive oil");
               ("4th_meal", PStr "Margoog (light) + salad")].

End Samples.

Module Samples2.
Import Py.



End Samples2.

(** ** year_orchestrator_v12.py: the weeks of the yearly loop and the persona carried over *)

Module year_orchestrator_v12.
Import Py datetime.

Definition START_WEEK_ID : string := "Week_2025_46".
Definition TOTAL_WEEKS : Z := 54.
Definition INCLUDE_START_WEEK : bool := false.

Definition WORKOUT_MAP : list (Z * list string) :=
  [(3, ["W33"; "W29"; "W21"]);
   (4, ["W25"; "W21"; "W25"; "W21"]);
   (5, ["W03"; "W07"; "W11"; "W15"; "W21"])]%Z.

(** [_, yyyy, ww = week_id.split("_")]: any other number of parts is a ValueError. *)
Definition _week_to_monday (week_id : string) : result date :=
  match split_on "_" week_id with
  | [_; yyyy; ww] =>
      y ← py_int (PStr yyyy);
      w ← py_int (PStr ww);
      fromisocalendar y w 1
  | _ => Raise ValueError
  end.

(** [format(n, "02d")] *)
Definition format_02d (n : Z) : string :=
  let s := str_of_Z n in
  if (String.length s <? 2)%nat then "0" ++ s else s.

Definition _week_from_date (d : date) : string :=
  let '(y, w, _) := isocalendar d in
  "Week_" ++ str_of_Z y ++ "_" ++ format_02d w.

(** The loop [for i in range(idx0, idx0 + n)], with [k] iterations left. *)
Fixpoint week_loop (start_date : date) (i : Z) (k : nat) (weeks : list string)
  : result (list string) :=
  match k with
  | O => Ok weeks
  | S k =>
      monday ← add_days start_date (7 * i);
      week_loop start_date (i + 1) k (weeks ++ [_week_from_date monday])
  end.

Definition week_sequence (start_week_id : string) (n : Z) (include_start : bool)
  : result (list string) :=
  start_date ← _week_to_monday start_week_id;
  let idx0 := if include_start then 0%Z else 1%Z in
  week_loop start_date idx0 (Z.to_nat n) [].

(** [WORKOUT_MAP.get(int(days_per_week), WORKOUT_MAP[3])] for an [int]. *)
Definition _choose_workouts (days_per_week : Z) : list string :=
  let find k := list_find (fun p : Z * list string => bool_decide (fst p = k)) WORKOUT_MAP in
  match find days_per_week with
  | Some (_, (_, ws)) => ws
  | None => match find 3%Z with Some (_, (_, ws)) => ws | None => [] end
  end.

Definition build_updated_persona (prev logs : gmap string pyval) : gmap string pyval :=
  list_to_map [
    ("Age_band", get prev "Age_band");
    ("Sex", get prev "Sex");
    ("BMI", get prev "BMI");
    ("Days_per_week", get prev "Days_per_week");
    ("Current_fitness_level", get prev "Current_fitness_level");
    ("Primary_goal", get prev "Primary_goal");
    ("Adherence_propensity", get prev "Adherence_propensity");
    ("Cooking_skill", get prev "Cooking_skill");
    ("Budjet_SAR_per_day", get prev "Budjet_SAR_per_day");
    ("Weight_kg", get logs "Post_weight_kg");
    ("Muscle_mass_kg", get logs "Post_muscle_kg");
    ("Fat_percent", get logs "Post_fat_pct");
    ("Sleep_hours", get logs "sleep_avg_hours");
    ("notes", get logs "notes")].

End year_orchestrator_v12.

(** The dict both simulators build from the fields of a weekly log. *)
Definition weekly_log_dict (l : WeeklyLog) : gmap string Py.pyval :=
  list_to_map [
    ("Date", Py.PStr (Date l)); ("Time", Py.PStr (Time_ l));
    ("free_text_feedback", Py.PStr (free_text_feedback l));
    ("notes", Py.PStr (notes l));
    ("daily_avg_kcal", Py.PFloat (daily_avg_kcal l));
    ("Pre_weight_kg", Py.PFloat (Pre_weight_kg l));
    ("Pre_muscle_kg", Py.PFloat (Pre_muscle_kg l));
    ("Pre_fat_pct", Py.PFloat (Pre_fat_pct l));
    ("Post_weight_kg", Py.PFloat (Post_weight_kg l));
    ("Post_muscle_kg", Py.PFloat (Post_muscle_kg l));
    ("Post_fat_pct", Py.PFloat (Post_fat_pct l));
    ("delta_weight_kg", Py.PFloat (delta_weight_kg l));
    ("delta_muscle_kg", Py.PFloat (delta_muscle_kg l));
    ("delta_fat_pct", Py.PFloat (delta_fat_pct l));
    ("sleep_avg_hours", Py.PFloat (sleep_avg_hours l))].

(** Further sample inputs. *)
Module Samples3.
Import Py.


(** A reply that gives its second meal as a nested dict. *)
Definition nested_plan : gmap string pyval :=
  <["2nd_meal" := PDict (list_to_map [("name", PStr "Chicken Kabsa");
                                      ("2nd_meal_kcal_target_kcal", PFloat 650.0%Q);
                                      ("2nd_meal_protein_g", PFloat 45.0%Q)])]> ∅.

End Samples3.

(** ** ISO weeks: Mondays, year lengths and zero-padded labels, with their checkers *)

Module iso_mondays.
Import Py datetime utils_time_dual iso_weeks year_orchestrator_v12.
#[local] Open Scope Z_scope.

(** The ordinal of the Monday of week [w] of ISO year [y]. *)
Definition monday (yw : Z * Z) : Z := _isoweek1monday (fst yw) + (snd yw - 1) * 7.

(** The Monday of week [w] of year [y] is day 1 of week [w] of year [y]. *)
Definition monday_ok (y w : Z) : bool :=
  let '(y', w', d') := isocalendar (_ord2ymd (monday (y, w))) in
  (y' =? y) && (w' =? w) && (d' =? 1).

(** Week 1 of the next year starts when the weeks of this year are over. *)
Definition year_len_ok (y : Z) : bool :=
  _isoweek1monday (y + 1) =? _isoweek1monday y + 7 * weeks_in_year y.

Definition year_mondays_ok (y : Z) : bool :=
  upto (Z.to_nat (weeks_in_year y)) 1 (monday_ok y) && year_len_ok y.

(** The label [_week_from_date] writes for a week. *)
Definition padded_label (yw : Z * Z) : string :=
  "Week_" ++ str_of_Z (fst yw) ++ "_" ++ format_02d (snd yw).

Definition pad_ok (z : Z) : bool :=
  match int_of_str (format_02d z) with Some z' => z' =? z | None => false end &&
  forallb (fun c => negb (Ascii.eqb c "_")) (list_ascii_of_string (format_02d z)).

Fixpoint iso_iter (n : nat) (yw : Z * Z) : Z * Z :=
  match n with
  | O => yw
  | S n => iso_iter n (iso_succ yw)
  end.

End iso_mondays.

(** ** acegpt_client.py: the plan [call_acegpt] builds from the endpoint's reply *)

Module acegpt_client_call.
Import Py acegpt_client.


Section WithRuntime.
Context `{RT : PyRuntime} `{RNG : PyRandom}.





(** The body of the loop over [enumerate(MEAL_KEYS, start=1)]. *)
Definition set_meal (obj : gmap string pyval) (mk : string * list string) (text : string)
    (m : macros) : gmap string pyval :=
  let k j := nth j (snd mk) "" in
  let obj := <[fst mk := PStr text]> obj in
  let obj := <[k 0%nat := PFloat (kcal m)]> obj in
  let obj := <[k 1%nat := PFloat (carb m)]> obj in
  let obj := <[k 2%nat := PFloat (fat m)]> obj in
  let obj := <[k 3%nat := PFloat (prot m)]> obj in
  let obj := <[k 4%nat := PFloat (fib m)]> obj in
  <[k 5%nat := PFloat (na m)]> obj.



End WithRuntime.
End acegpt_client_call.

(** ** acegpt_client_v12.py: the diet of a persona and week, from the reply to the plan *)

Module acegpt_client_v12.
Import Py utils_json_v12.

Section WithRuntime.
Context `{RT : PyRuntime} `{RNG : PyRandom}.

(** Minimal fallback; totals diversified later *)
Definition _fallback (persona : gmap string pyval) : gmap string pyval :=
  list_to_map [
    ("Note", PStr "Fallback plan.");
    ("Total_kcal_target_kcal", PFloat 0.0); ("Total_carbs_g", PFloat 0.0);
    ("Total_fat_g", PFloat 0.0); ("Total_protein_g", PFloat 0.0);
    ("Total_fiber_g", PFloat 0.0); ("Total_sodium_mg", PFloat 0.0);
    ("1st_meal", PStr ""); ("2nd_meal", PStr ""); ("3rd_meal", PStr ""); ("4th_meal", PStr "");
    ("1st_meal_kcal_target_kcal", PFloat 0.0); ("1st_meal_carbs_g", PFloat 0.0);
    ("1st_meal_fat_g", PFloat 0.0); ("1st_meal_protein_g", PFloat 0.0);
    ("1st_meal_fiber_g", PFloat 0.0); ("1st_meal_sodium_mg", PFloat 0.0);
    ("2nd_meal_kcal_target_kcal", PFloat 0.0); ("2nd_meal_carbs_g", PFloat 0.0);
    ("2nd_meal_fat_g", PFloat 0.0); ("2nd_meal_protein_g", PFloat 0.0);
    ("2nd_meal_fiber_g", PFloat 0.0); ("2nd_meal_sodium_mg", PFloat 0.0);
    ("3rd_meal_kcal_target_kcal", PFloat 0.0); ("3rd_meal_carbs_g", PFloat 0.0);
    ("3rd_meal_fat_g", PFloat 0.0); ("3rd_meal_protein_g", PFloat 0.0);
    ("3rd_meal_fiber_g", PFloat 0.0); ("3rd_meal_sodium_mg", PFloat 0.0);
    ("4th_meal_kcal_target_kcal", PFloat 0.0); ("4th_meal_carbs_g", PFloat 0.0);
    ("4th_meal_fat_g", PFloat 0.0); ("4th_meal_protein_g", PFloat 0.0);
    ("4th_meal_fiber_g", PFloat 0.0); ("4th_meal_sodium_mg", PFloat 0.0)].

(** [last_week_diet] is [None] or a dict that is not the plan being built. *)
Definition last_of (last_week_diet : option (gmap string pyval)) : last_week :=
  match last_week_diet with
  | None => LastNone
  | Some b => LastOther b
  end.

(** The body of the [try] once the reply is parsed. *)
Definition shape_and_diversify (fuel : nat) (raw : gmap string pyval)
    (persona : gmap string pyval) (pid week_id : string)
    (last_week_diet : option (gmap string pyval)) (diversify_nonce : Z)
  : result (gmap string pyval) :=
  diet ← ensure_diet_shape raw;
  diversify_meals fuel diet pid week_id persona (last_of last_week_diet) diversify_nonce.

(** [reply attempt] is the dict [extract_first_json] returns at that
    attempt, or [None] when the request or the parser raised, the text was
    empty or the JSON was not an object; every exception inside the [try],
    the diversifier's included, sends the loop to the next attempt.  [fuel]
    is the recursion depth left. *)
Definition get_diet_from_ace (fuel : nat) (reply : nat -> option (gmap string pyval))
    (persona : gmap string pyval) (pid week_id : string)
    (last_week_diet : option (gmap string pyval)) (diversify_nonce : Z)
  : result (gmap string pyval) :=
  let try attempt :=
    match reply attempt with
    | Some raw =>
        match shape_and_diversify fuel raw persona pid week_id last_week_diet diversify_nonce with
        | Ok r => Some r
        | Raise _ => None
        end
    | None => None
    end in
  match try 0%nat with
  | Some r => Ok r
  | None =>
      match try 1%nat with
      | Some r => Ok r
      | None =>
          (* fallback + diversify *)
          shape_and_diversify fuel (_fallback persona) persona pid week_id last_week_diet
            diversify_nonce
      end
  end.

End WithRuntime.
End acegpt_client_v12.

(** * Properties *)

(** ** Strings *)

Section StringFacts.
Import Py.
Variable p : ascii -> bool.

Lemma lstrip_by_head (s : string) :
  match lstrip_by p s with
  | String c _ => p c = false
  | EmptyString => True
  end.
Proof.
  induction s as [|c s IH]; simpl; [exact I|].
  destruct (p c) eqn:E; [exact IH | exact E].
Qed.

Lemma lstrip_by_fixed (c : ascii) (s : string) :
  p c = false -> lstrip_by p (String c s) = String c s.
Proof. intros H; simpl; rewrite H; reflexivity. Qed.

Lemma rstrip_by_idem (s : string) : rstrip_by p (rstrip_by p s) = rstrip_by p s.
Proof.
  induction s as [|c s IH]; simpl; [reflexivity|].
  destruct (rstrip_by p s) as [|d r] eqn:E.
  - destruct (p c) eqn:Ec; simpl; [reflexivity|]. rewrite Ec. reflexivity.
  - change (rstrip_by p (String c (String d r)))
      with (match rstrip_by p (String d r) with
            | EmptyString => if p c then EmptyString else String c EmptyString
            | r0 => String c r0
            end).
    rewrite IH. reflexivity.
Qed.

Lemma rstrip_by_head (c : ascii) (s : string) :
  p c = false -> exists r, rstrip_by p (String c s) = String c r.
Proof.
  intros H; simpl. destruct (rstrip_by p s) as [|d r].
  - rewrite H. eauto.
  - eauto.
Qed.

Lemma strip_by_idem (s : string) : strip_by p (strip_by p s) = strip_by p s.
Proof.
  unfold strip_by.
  pose proof (lstrip_by_head s) as Hh.
  destruct (lstrip_by p s) as [|c t] eqn:E; [reflexivity|].
  destruct (rstrip_by_head c t Hh) as [r Hr].
  rewrite Hr, (lstrip_by_fixed c r Hh), <- Hr.
  apply rstrip_by_idem.
Qed.

End StringFacts.

Lemma strip_idem (s : string) : Py.strip (Py.strip s) = Py.strip s.
Proof. apply strip_by_idem. Qed.

(** ** Rounding *)

Section RoundFacts.
Import Py.
#[local] Open Scope Q_scope.

Lemma Qle_bool_true (a b : Q) : Qle_bool a b = true <-> a <= b.
Proof. apply Qle_bool_iff. Qed.

Lemma Qle_bool_false (a b : Q) : Qle_bool a b = false <-> b < a.
Proof.
  split; intros H.
  - apply Qnot_le_lt. intros Hle. apply Qle_bool_iff in Hle. congruence.
  - destruct (Qle_bool a b) eqn:E; [|reflexivity].
    apply Qle_bool_iff in E. exfalso. apply (Qlt_not_le _ _ H E).
Qed.

Lemma Qlt_bool_true (a b : Q) : Qlt_bool a b = true <-> a < b.
Proof.
  unfold Qlt_bool. rewrite negb_true_iff. apply Qle_bool_false.
Qed.

Lemma Qlt_bool_false (a b : Q) : Qlt_bool a b = false <-> b <= a.
Proof.
  unfold Qlt_bool. rewrite negb_false_iff. apply Qle_bool_true.
Qed.

Lemma fmax_lub_l (a b : Q) : a <= fmax a b.
Proof.
  unfold fmax. destruct (Qle_bool b a) eqn:E; [apply Qle_refl|].
  apply Qle_bool_false in E. apply Qlt_le_weak, E.
Qed.

Lemma fmax_lub_r (a b : Q) : b <= fmax a b.
Proof.
  unfold fmax. destruct (Qle_bool b a) eqn:E; [|apply Qle_refl].
  apply Qle_bool_true in E. exact E.
Qed.

Lemma fmax_cases (a b : Q) : fmax a b = a \/ fmax a b = b.
Proof. unfold fmax. destruct (Qle_bool b a); auto. Qed.

Lemma fmin_glb_l (a b : Q) : fmin a b <= a.
Proof.
  unfold fmin. destruct (Qle_bool a b) eqn:E; [apply Qle_refl|].
  apply Qle_bool_false in E. apply Qlt_le_weak, E.
Qed.

Lemma fmin_glb_r (a b : Q) : fmin a b <= b.
Proof.
  unfold fmin. destruct (Qle_bool a b) eqn:E; [|apply Qle_refl].
  apply Qle_bool_true in E. exact E.
Qed.

Lemma fmin_cases (a b : Q) : fmin a b = a \/ fmin a b = b.
Proof. unfold fmin. destruct (Qle_bool a b); auto. Qed.

(** The nearest integer is at most one half away. *)
Lemma round_half_even_near (q : Q) :
  inject_Z (round_half_even q) - (1#2) <= q /\ q <= inject_Z (round_half_even q) + (1#2).
Proof.
  unfold round_half_even.
  pose proof (Qfloor_le q) as Hlo.
  pose proof (Qlt_floor q) as Hhi.
  rewrite inject_Z_plus in Hhi. change (inject_Z 1) with 1 in Hhi.
  set (f := Qfloor q) in *.
  destruct (Qlt_bool (q - inject_Z f) (1#2)) eqn:E1.
  - apply Qlt_bool_true in E1. split; lra.
  - apply Qlt_bool_false in E1.
    destruct (Qlt_bool (1#2) (q - inject_Z f)) eqn:E2.
    + rewrite inject_Z_plus. change (inject_Z 1) with 1. split; lra.
    + apply Qlt_bool_false in E2.
      destruct (Z.even f); [|rewrite inject_Z_plus; change (inject_Z 1) with 1]; split; lra.
Qed.

(** An integer is its own rounding. *)
Lemma round_half_even_Z (z : Z) : round_half_even (inject_Z z) = z.
Proof.
  unfold round_half_even. rewrite Qfloor_Z.
  assert (H : Qlt_bool (inject_Z z - inject_Z z) (1#2) = true).
  { apply Qlt_bool_true. lra. }
  rewrite H. reflexivity.
Qed.

Lemma round_half_even_mono_ge (z : Z) (q : Q) :
  inject_Z z <= q -> (z <= round_half_even q)%Z.
Proof.
  intros H. unfold round_half_even.
  assert (Hf : (z <= Qfloor q)%Z).
  { rewrite <- (Qfloor_Z z). apply Qfloor_resp_le, H. }
  destruct (Qlt_bool _ _); [exact Hf|].
  destruct (Qlt_bool _ _); [lia|].
  destruct (Z.even _); lia.
Qed.

Lemma round_half_even_mono_le (z : Z) (q : Q) :
  q <= inject_Z z -> (round_half_even q <= z)%Z.
Proof.
  intros H.
  destruct (round_half_even_near q) as [Hlo _].
  assert (inject_Z (round_half_even q) < inject_Z (z + 1)).
  { rewrite inject_Z_plus. change (inject_Z 1) with 1. lra. }
  rewrite <- Zlt_Qlt in H0. lia.
Qed.

Lemma pow10_pos (n : nat) : 0 < pow10 n.
Proof.
  unfold pow10. change 0 with (inject_Z 0). rewrite <- Zlt_Qlt.
  apply Z.pow_pos_nonneg; lia.
Qed.

Lemma round_nd_1_tenths (x : Q) :
  round_nd 1 x == inject_Z (round_half_even (x * 10)) / 10.
Proof. reflexivity. Qed.

Lemma round_nd_near (n : nat) (x : Q) :
  Qabs (round_nd n x - x) <= (1#2) / pow10 n.
Proof.
  unfold round_nd.
  pose proof (pow10_pos n) as Hp.
  destruct (round_half_even_near (x * pow10 n)) as [Hlo Hhi].
  set (k := inject_Z (round_half_even (x * pow10 n))) in *.
  set (P := pow10 n) in *.
  assert (Hx : x == (x * P) / P) by (field; lra).
  apply Qabs_Qle_condition. split.
  - apply Qle_trans with ((k - x * P) / P).
    + apply Qle_shift_div_l; [exact Hp|].
      assert (- ((1#2) / P) * P == -(1#2)) by (field; lra).
      rewrite H. lra.
    + apply Qle_lteq. right. field. lra.
  - apply Qle_trans with ((k - x * P) / P).
    + apply Qle_lteq. right. field. lra.
    + apply Qle_shift_div_r; [exact Hp|].
      assert ((1#2) / P * P == (1#2)) by (field; lra).
      rewrite H. lra.
Qed.

Lemma Qdiv_le_mult (a b c : Q) : 0 < b -> a / b <= c -> a <= c * b.
Proof.
  intros Hb H.
  assert (E : a == a / b * b) by (field; lra).
  rewrite E. apply Qmult_le_compat_r; [exact H | lra].
Qed.

Lemma Qle_div_mult (a b c : Q) : 0 < b -> c <= a / b -> c * b <= a.
Proof.
  intros Hb H.
  assert (E : a == a / b * b) by (field; lra).
  rewrite E. apply Qmult_le_compat_r; [exact H | lra].
Qed.

Lemma round_nd_ge (n : nat) (z : Z) (x : Q) :
  inject_Z z / pow10 n <= x -> inject_Z z / pow10 n <= round_nd n x.
Proof.
  intros H. unfold round_nd.
  pose proof (pow10_pos n) as Hp.
  apply Qle_shift_div_l; [exact Hp|].
  assert (E : inject_Z z / pow10 n * pow10 n == inject_Z z) by (field; lra).
  rewrite E. rewrite <- Zle_Qle. apply round_half_even_mono_ge.
  apply Qdiv_le_mult; assumption.
Qed.

Lemma round_nd_le (n : nat) (z : Z) (x : Q) :
  x <= inject_Z z / pow10 n -> round_nd n x <= inject_Z z / pow10 n.
Proof.
  intros H. unfold round_nd.
  pose proof (pow10_pos n) as Hp.
  apply Qle_shift_div_r; [exact Hp|].
  assert (E : inject_Z z / pow10 n * pow10 n == inject_Z z) by (field; lra).
  rewrite E. rewrite <- Zle_Qle. apply round_half_even_mono_le.
  apply Qle_div_mult; assumption.
Qed.

End RoundFacts.

(** ** The diversifier: what one pass writes *)

Section DiversifyFacts.
Import Py utils_json_v12.
Context `{RT : PyRuntime} `{RNG : PyRandom}.

#[local] Arguments insert : simpl never.
#[local] Arguments lookup : simpl never.
#[local] Arguments union : simpl never.
#[local] Arguments empty : simpl never.

(** The three groups of assignments of a pass, as functions of the values
    written. *)
Definition set_totals (T : list Q) (obj : gmap string pyval) : gmap string pyval :=
  foldl (fun obj it => <[snd it := PFloat (nth (fst it) T 0%Q)]> obj)
        obj (zip (seq 0 (length totals)) totals).

Definition set_names (N : list string) (obj : gmap string pyval) : gmap string pyval :=
  foldl (fun obj it => <[snd it ++ "_meal" := PStr (nth (fst it) N "")]> obj)
        obj (zip (seq 0 (length meals)) meals).

Definition set_meals (S : list (list Q)) (obj : gmap string pyval) : gmap string pyval :=
  foldl (fun obj it =>
           foldl (fun obj jk =>
                    <[snd it ++ "_meal_" ++ snd jk := PFloat (nth (fst it) (nth (fst jk) S []) 0%Q)]> obj)
                 obj (zip (seq 0 (length mkeys)) mkeys))
        obj (zip (seq 0 (length meals)) meals).

Definition diet_map (T : list Q) (N : list string) (S : list (list Q)) : gmap string pyval :=
  set_meals S (set_names N (set_totals T ∅)).

Lemma insert_union_obj (m1 m2 : gmap string pyval) (k : string) (v : pyval) :
  <[k:=v]> (m1 ∪ m2) = <[k:=v]> m1 ∪ m2.
Proof. apply insert_union_l. Qed.

Lemma empty_union_obj (m : gmap string pyval) : ∅ ∪ m = m.
Proof. apply (left_id_L ∅ (∪)). Qed.

Ltac str_simpl :=
  cbn [String.append foldl zip zip_with seq length fst snd meals mkeys totals].

Lemma set_totals_union (T : list Q) (u obj : gmap string pyval) :
  set_totals T (u ∪ obj) = set_totals T u ∪ obj.
Proof. unfold set_totals. str_simpl. rewrite !insert_union_obj. reflexivity. Qed.

Lemma set_names_union (N : list string) (u obj : gmap string pyval) :
  set_names N (u ∪ obj) = set_names N u ∪ obj.
Proof. unfold set_names. str_simpl. rewrite !insert_union_obj. reflexivity. Qed.

Lemma set_meals_union (S : list (list Q)) (u obj : gmap string pyval) :
  set_meals S (u ∪ obj) = set_meals S u ∪ obj.
Proof. unfold set_meals. str_simpl. rewrite !insert_union_obj. reflexivity. Qed.

Lemma diet_map_union (T : list Q) (N : list string) (S : list (list Q)) (obj : gmap string pyval) :
  set_meals S (set_names N (set_totals T obj)) = diet_map T N S ∪ obj.
Proof.
  unfold diet_map.
  rewrite <- set_meals_union, <- set_names_union, <- set_totals_union, empty_union_obj.
  reflexivity.
Qed.

(** Lookups in the written map. *)
Lemma diet_map_total (T : list Q) (N : list string) (S : list (list Q)) (j : nat) (k : string) :
  totals !! j = Some k -> diet_map T N S !! k = Some (PFloat (nth j T 0%Q)).
Proof.
  intros H.
  do 6 (destruct j as [|j]; [injection H as <-; vm_compute; reflexivity|]).
  discriminate H.
Qed.

Lemma diet_map_name (T : list Q) (N : list string) (S : list (list Q)) (i : nat) (m : string) :
  meals !! i = Some m -> diet_map T N S !! (m ++ "_meal") = Some (PStr (nth i N "")).
Proof.
  intros H.
  do 4 (destruct i as [|i]; [injection H as <-; vm_compute; reflexivity|]).
  discriminate H.
Qed.

Lemma diet_map_meal (T : list Q) (N : list string) (S : list (list Q))
    (i j : nat) (m k : string) :
  meals !! i = Some m -> mkeys !! j = Some k ->
  diet_map T N S !! (m ++ "_meal_" ++ k) = Some (PFloat (nth i (nth j S []) 0%Q)).
Proof.
  intros Hm Hk.
  do 4 (destruct i as [|i];
        [injection Hm as <-;
         do 6 (destruct j as [|j]; [injection Hk as <-; vm_compute; reflexivity|]);
         discriminate Hk|]).
  discriminate Hm.
Qed.

Lemma names_totals_lookup (T : list Q) (N : list string) (obj : gmap string pyval)
    (j : nat) (k : string) :
  totals !! j = Some k ->
  set_names N (set_totals T obj) !! k = Some (PFloat (nth j T 0%Q)).
Proof.
  intros H.
  rewrite <- (empty_union_obj obj), set_totals_union, set_names_union.
  apply lookup_union_Some_l.
  do 6 (destruct j as [|j]; [injection H as <-; vm_compute; reflexivity|]).
  discriminate H.
Qed.

Lemma split_total_names_totals (T : list Q) (N : list string) (obj : gmap string pyval)
    (j : nat) (k : string) (rnd : rng) :
  totals !! j = Some k ->
  split_total (set_names N (set_totals T obj)) k rnd = Ok (_split (nth j T 0%Q) rnd).
Proof.
  intros H. unfold split_total, item.
  rewrite (names_totals_lookup T N obj j k H). reflexivity.
Qed.

Lemma re_totals_frame (obj persona : gmap string pyval) (rnd : rng) :
  _re_totals_with_jitter obj persona rnd =
  (_re_totals_with_jitter ∅ persona rnd ≫= fun ug => Ok (fst ug ∪ obj, snd ug)).
Proof.
  unfold _re_totals_with_jitter.
  destruct (py_lower _) as [goal|e]; cbn [mbind result_bind]; [|reflexivity].
  destruct (_jitter _ _ _) as [kcal rnd1].
  destruct (if contains "muscle" goal then _ else _) as [[p f] rnd2].
  destruct (uniform 24 36 rnd2) as [u1 rnd3].
  destruct (uniform _ _ rnd3) as [u2 rnd4].
  cbn [mbind result_bind fst snd].
  rewrite <- !insert_union_obj, empty_union_obj. reflexivity.
Qed.

Lemma re_totals_shape (obj persona : gmap string pyval) (rnd g : rng) (o : gmap string pyval) :
  _re_totals_with_jitter obj persona rnd = Ok (o, g) ->
  exists T, o = set_totals T obj.
Proof.
  unfold _re_totals_with_jitter.
  destruct (py_lower _) as [goal|e]; cbn [mbind result_bind]; [|discriminate].
  destruct (_jitter _ _ _) as [kcal rnd1].
  destruct (if contains "muscle" goal then _ else _) as [[p f] rnd2].
  destruct (uniform 24 36 rnd2) as [u1 rnd3].
  destruct (uniform _ _ rnd3) as [u2 rnd4].
  intros [= <- <-].
  eexists [_; _; _; _; _; _]. reflexivity.
Qed.

Ltac step_split j s g :=
  rewrite !(split_total_names_totals _ _ _ j _ _ eq_refl);
  cbn [mbind result_bind];
  destruct (_split _ _) as [s g].

(** A pass reads nothing of the dict it rewrites: it overlays the keys it
    writes on whatever was there. *)
Lemma pass_frame (obj : gmap string pyval) (pid week_id : string)
    (persona : gmap string pyval) (nonce : Z) :
  diversify_pass obj pid week_id persona nonce =
  (diversify_pass ∅ pid week_id persona nonce ≫= fun u => Ok (u ∪ obj)).
Proof.
  unfold diversify_pass.
  rewrite (re_totals_frame obj).
  destruct (_re_totals_with_jitter ∅ _ _) as [[u rnd1]|e] eqn:E;
    cbn [mbind result_bind fst snd]; [|reflexivity].
  apply re_totals_shape in E as (T & ->).
  rewrite <- set_totals_union, empty_union_obj.
  destruct (randrange _ _ _) as [[off rnd2]|e]; cbn [mbind result_bind fst snd]; [|reflexivity].
  destruct (mapM _ _) as [N|e]; cbn [mbind result_bind fst snd]; [|reflexivity].
  change (foldl (fun obj it => <[snd it ++ "_meal" := PStr (nth (fst it) N "")]> obj) ?o _)
    with (set_names N o).
  step_split 0%nat s0 g0. step_split 1%nat s1 g1. step_split 2%nat s2 g2.
  step_split 3%nat s3 g3. step_split 4%nat s4 g4. step_split 5%nat s5 g5.
  cbn [mbind result_bind].
  match goal with
  | |- Ok (foldl _ _ _) = _ =>
      change (Ok (set_meals [s0; s1; s2; s3; s4; s5] (set_names N (set_totals T obj))) =
              Ok (set_meals [s0; s1; s2; s3; s4; s5] (set_names N (set_totals T ∅)) ∪ obj))
  end.
  rewrite diet_map_union. reflexivity.
Qed.

(** *** The values a pass writes *)

#[local] Open Scope Q_scope.

Definition tenths (q : Q) : Prop := exists z : Z, (q == inject_Z z / 10).

(** Four shares of [t], each rounded to one decimal, from weights that sum to one. *)
Definition split_ok (t : Q) (l : list Q) : Prop :=
  exists a b c d : Q,
    (a + b + c + d == 1) /\
    l = [round_nd 1 (t * a); round_nd 1 (t * b); round_nd 1 (t * c); round_nd 1 (t * d)].

Definition totals_ok (T : list Q) : Prop :=
  exists kcal c f p fiber sodium : Q,
    T = [kcal; c; f; p; fiber; sodium] /\
    (1504 <= kcal /\ kcal <= 3816) /\ 90 <= c /\ 41 <= f /\ 89 <= p /\
    (24 <= fiber /\ fiber <= 36) /\ (1500 <= sodium /\ sodium <= 3200) /\
    Forall tenths T.

Lemma round_nd_tenths (x : Q) : tenths (round_nd 1 x).
Proof. exists (round_half_even (x * pow10 1)). reflexivity. Qed.

Lemma round_nd_0_tenths (x : Q) : tenths (round_nd 0 x).
Proof.
  exists (10 * round_half_even (x * pow10 0))%Z. unfold round_nd.
  rewrite inject_Z_mult. change (pow10 0) with 1. change (inject_Z 10) with 10. field.
Qed.

Lemma round_nd_1_ge (q x : Q) : tenths q -> q <= x -> q <= round_nd 1 x.
Proof.
  intros [z Hz] H. rewrite Hz in *. apply (round_nd_ge 1 z x), H.
Qed.

Lemma round_nd_1_le (q x : Q) : tenths q -> x <= q -> round_nd 1 x <= q.
Proof.
  intros [z Hz] H. rewrite Hz in *. apply (round_nd_le 1 z x), H.
Qed.

Definition integral (q : Q) : Prop := exists z : Z, (q == inject_Z z).

Lemma round_nd_0_ge (q x : Q) : integral q -> q <= x -> q <= round_nd 0 x.
Proof.
  intros [z Hz] H. rewrite Hz in *.
  pose proof (round_nd_ge 0 z x) as G. change (pow10 0) with 1 in G.
  assert (E : inject_Z z / 1 == inject_Z z) by field.
  rewrite E in G. apply G, H.
Qed.

Lemma round_nd_0_le (q x : Q) : integral q -> x <= q -> round_nd 0 x <= q.
Proof.
  intros [z Hz] H. rewrite Hz in *.
  pose proof (round_nd_le 0 z x) as G. change (pow10 0) with 1 in G.
  assert (E : inject_Z z / 1 == inject_Z z) by field.
  rewrite E in G. apply G, H.
Qed.

Lemma uniform_bounds (a b : Q) (g : rng) :
  a <= b -> a <= fst (uniform a b g) /\ fst (uniform a b g) <= b.
Proof.
  intros Hab. unfold uniform.
  pose proof (rnd_random_unit g) as [H0 H1].
  destruct (rnd_random g) as [u g']; cbn [fst] in *.
  split; nra.
Qed.

Lemma jitter_bounds (v pct : Q) (g : rng) (lo hi : Q) :
  tenths lo -> tenths hi -> 0 <= v -> 0 <= pct ->
  lo <= v * (1 - pct) -> v * (1 + pct) <= hi ->
  lo <= fst (_jitter v pct g) /\ fst (_jitter v pct g) <= hi.
Proof.
  intros Tlo Thi Hv Hp Hlo Hhi. unfold _jitter.
  pose proof (uniform_bounds (1.0 - pct) (1.0 + pct) g ltac:(lra)) as [U0 U1].
  destruct (uniform _ _ g) as [u g']; cbn [fst] in *.
  split; [apply round_nd_1_ge | apply round_nd_1_le]; try assumption; nra.
Qed.

Lemma jitter_tenths (v pct : Q) (g : rng) : tenths (fst (_jitter v pct g)).
Proof.
  unfold _jitter. destruct (uniform _ _ g) as [u g']. apply round_nd_tenths.
Qed.

Lemma goal_kcal_bounds (w : Q) (goal : string) :
  1600 <= _goal_kcal w goal /\ _goal_kcal w goal <= 3600.
Proof.
  unfold _goal_kcal.
  set (b := if contains "muscle" goal then _ else _).
  pose proof (fmax_lub_l 1600.0 (fmin 3600.0 b)).
  pose proof (fmin_glb_l 3600.0 b).
  destruct (fmax_cases 1600.0 (fmin 3600.0 b)) as [E|E]; rewrite E in *; split; lra.
Qed.

Lemma clamp_bounds (lo hi x : Q) :
  lo <= hi -> lo <= fmin (fmax x lo) hi /\ fmin (fmax x lo) hi <= hi.
Proof.
  intros H.
  pose proof (fmax_lub_r x lo). pose proof (fmin_glb_r (fmax x lo) hi).
  destruct (fmin_cases (fmax x lo) hi) as [E|E]; rewrite E in *; split; lra.
Qed.

End DiversifyFacts.

Section DiversifyValues.
Import Py utils_json_v12.
Context `{RT : PyRuntime} `{RNG : PyRandom}.
#[local] Open Scope Q_scope.

#[local] Arguments insert : simpl never.
#[local] Arguments lookup : simpl never.
#[local] Arguments union : simpl never.
#[local] Arguments empty : simpl never.

(** Division by a literal, for [lra]. *)
Ltac qnorm := unfold Qdiv in *; cbn [Qinv Qnum Qden Z.to_pos] in *.

Ltac lit z := exists z; reflexivity.

Lemma protein_fat_ok (goal : string) (w kcal : Q) (rnd1 : rng) :
  1504 <= kcal -> kcal <= 3816 ->
  exists p f rnd2,
    (if contains "muscle" goal
     then let '(p, rnd) := _jitter (fmin (fmax (1.9 * w) 110) 190) 0.06 rnd1 in
          let '(f, rnd) := _jitter (kcal * 0.27 / 9.0) 0.08 rnd in (p, f, rnd)
     else if contains "fat" goal
     then let '(p, rnd) := _jitter (fmin (fmax (1.8 * w) 100) 180) 0.06 rnd1 in
          let '(f, rnd) := _jitter (kcal * 0.30 / 9.0) 0.08 rnd in (p, f, rnd)
     else let '(p, rnd) := _jitter (fmin (fmax (1.7 * w) 95) 175) 0.06 rnd1 in
          let '(f, rnd) := _jitter (kcal * 0.28 / 9.0) 0.08 rnd in (p, f, rnd))
    = (p, f, rnd2) /\ 89 <= p /\ 41 <= f.
Proof.
  intros Hk Hk'.
  destruct (contains "muscle" goal); [|destruct (contains "fat" goal)].
  - pose proof (clamp_bounds 110 190 (1.9 * w) ltac:(lra)) as [C0 C1].
    pose proof (jitter_bounds (fmin (fmax (1.9 * w) 110) 190) 0.06 rnd1 89 300
                  ltac:(lit 890%Z) ltac:(lit 3000%Z) ltac:(lra) ltac:(lra) ltac:(lra) ltac:(lra))
      as [Hp0 _].
    destruct (_jitter (fmin _ _) 0.06 rnd1) as [p r2]; cbn [fst] in Hp0.
    pose proof (jitter_bounds (kcal * 0.27 / 9.0) 0.08 r2 41 2000
                  ltac:(lit 410%Z) ltac:(lit 20000%Z)) as Hf.
    destruct (_jitter _ 0.08 r2) as [f r3]; cbn [fst] in Hf.
    exists p, f, r3. repeat split; [lra|]. qnorm. apply Hf; lra.
  - pose proof (clamp_bounds 100 180 (1.8 * w) ltac:(lra)) as [C0 C1].
    pose proof (jitter_bounds (fmin (fmax (1.8 * w) 100) 180) 0.06 rnd1 89 300
                  ltac:(lit 890%Z) ltac:(lit 3000%Z) ltac:(lra) ltac:(lra) ltac:(lra) ltac:(lra))
      as [Hp0 _].
    destruct (_jitter (fmin _ _) 0.06 rnd1) as [p r2]; cbn [fst] in Hp0.
    pose proof (jitter_bounds (kcal * 0.30 / 9.0) 0.08 r2 41 2000
                  ltac:(lit 410%Z) ltac:(lit 20000%Z)) as Hf.
    destruct (_jitter _ 0.08 r2) as [f r3]; cbn [fst] in Hf.
    exists p, f, r3. repeat split; [lra|]. qnorm. apply Hf; lra.
  - pose proof (clamp_bounds 95 175 (1.7 * w) ltac:(lra)) as [C0 C1].
    pose proof (jitter_bounds (fmin (fmax (1.7 * w) 95) 175) 0.06 rnd1 89 300
                  ltac:(lit 890%Z) ltac:(lit 3000%Z) ltac:(lra) ltac:(lra) ltac:(lra) ltac:(lra))
      as [Hp0 _].
    destruct (_jitter (fmin _ _) 0.06 rnd1) as [p r2]; cbn [fst] in Hp0.
    pose proof (jitter_bounds (kcal * 0.28 / 9.0) 0.08 r2 41 2000
                  ltac:(lit 410%Z) ltac:(lit 20000%Z)) as Hf.
    destruct (_jitter _ 0.08 r2) as [f r3]; cbn [fst] in Hf.
    exists p, f, r3. repeat split; [lra|]. qnorm. apply Hf; lra.
Qed.

Lemma re_totals_ok (obj persona : gmap string pyval) (rnd g : rng) (o : gmap string pyval) :
  _re_totals_with_jitter obj persona rnd = Ok (o, g) ->
  exists T, o = set_totals T obj /\ totals_ok T.
Proof.
  unfold _re_totals_with_jitter.
  destruct (py_lower _) as [goal|e]; cbn [mbind result_bind]; [|discriminate].
  set (w := _f (get persona "Weight_kg") 75.0).
  pose proof (goal_kcal_bounds w goal) as [K0 K1].
  pose proof (jitter_bounds (_goal_kcal w goal) 0.06 rnd 1504 3816
                ltac:(lit 15040%Z) ltac:(lit 38160%Z)
                ltac:(lra) ltac:(lra) ltac:(lra) ltac:(lra)) as [Hk0 Hk1].
  destruct (_jitter (_goal_kcal w goal) 0.06 rnd) as [kcal rnd1]; cbn [fst] in Hk0, Hk1.
  destruct (protein_fat_ok goal w kcal rnd1 Hk0 Hk1) as (p & f & rnd2 & -> & Hp & Hf).
  pose proof (uniform_bounds 24 36 rnd2 ltac:(lra)) as [Hu0 Hu1].
  destruct (uniform 24 36 rnd2) as [u1 rnd3]; cbn [fst] in Hu0, Hu1.
  destruct (uniform (-350) 350 rnd3) as [u2 rnd4].
  intros [= <- <-].
  eexists [_; _; _; _; _; _]. split; [reflexivity|].
  do 6 eexists. split; [reflexivity|].
  set (na := fmax 1500.0 (fmin 3200.0 (2000.0 + (w - 70.0) * 8.0 + u2))).
  assert (Hna : 1500 <= na /\ na <= 3200).
  { subst na. set (b := 2000.0 + (w - 70.0) * 8.0 + u2).
    pose proof (fmax_lub_l 1500.0 (fmin 3200.0 b)).
    pose proof (fmin_glb_l 3200.0 b).
    destruct (fmax_cases 1500.0 (fmin 3200.0 b)) as [E|E]; rewrite E in *; split; lra. }
  pose proof (fmax_lub_l 90.0 ((kcal - (p * 4 + f * 9)) / 4.0)) as Hc.
  clearbody na w. clear K0 K1.
  set (c := fmax 90.0 ((kcal - (p * 4 + f * 9)) / 4.0)) in *. clearbody c.
  split; [split|split; [|split; [|split; [|split; [split|split; [split|]]]]]].
  - apply round_nd_1_ge; [lit 15040%Z | lra].
  - apply round_nd_1_le; [lit 38160%Z | lra].
  - apply round_nd_1_ge; [lit 900%Z | lra].
  - apply round_nd_1_ge; [lit 410%Z | lra].
  - apply round_nd_1_ge; [lit 890%Z | lra].
  - apply round_nd_1_ge; [lit 240%Z | lra].
  - apply round_nd_1_le; [lit 360%Z | lra].
  - apply round_nd_0_ge; [lit 1500%Z | lra].
  - apply round_nd_0_le; [lit 3200%Z | lra].
  - repeat constructor; try apply round_nd_tenths. apply round_nd_0_tenths.
Qed.

Lemma dirichlet4_sum (rnd : rng) :
  exists a b c d : Q,
    (a + b + c + d == 1) /\ fst (_dirichlet4 rnd) = [a; b; c; d].
Proof.
  unfold _dirichlet4.
  pose proof (rnd_random_unit rnd) as [A0 _].
  destruct (rnd_random rnd) as [r1 g1]; cbn [fst] in A0.
  pose proof (rnd_random_unit g1) as [B0 _].
  destruct (rnd_random g1) as [r2 g2]; cbn [fst] in B0.
  pose proof (rnd_random_unit g2) as [C0 _].
  destruct (rnd_random g2) as [r3 g3]; cbn [fst] in C0.
  pose proof (rnd_random_unit g3) as [D0 _].
  destruct (rnd_random g3) as [r4 g4]; cbn [fst] in D0.
  cbn [foldl map fst].
  do 4 eexists. split; [|reflexivity].
  field. lra.
Qed.

Lemma split_positive (t : Q) (rnd : rng) : 0 < t -> split_ok t (fst (_split t rnd)).
Proof.
  intros Ht. unfold _split.
  assert (E : Qle_bool t 0 = false) by (apply Qle_bool_false, Ht).
  rewrite E.
  destruct (dirichlet4_sum rnd) as (a & b & c & d & Hs & Hw).
  destruct (_dirichlet4 rnd) as [w g]; cbn [fst] in *. subst w.
  exists a, b, c, d. split; [exact Hs | reflexivity].
Qed.

Lemma randrange_ok (a b : Z) (g : rng) :
  (a < b)%Z -> exists k g', randrange a b g = Ok (k, g') /\ (a <= k < b)%Z.
Proof.
  intros H. unfold randrange.
  assert (E : (0 <? b - a)%Z = true) by (apply Z.ltb_lt; lia).
  rewrite E.
  pose proof (rnd_below_range (b - a) g ltac:(lia)) as Hk.
  destruct (rnd_below (b - a) g) as [k g']; cbn [fst] in Hk.
  exists (a + k)%Z, g'. split; [reflexivity | lia].
Qed.

(** The rotating window of meal names. *)
Definition window (off : Z) : list string :=
  take 4 (drop (Z.to_nat off) SAUDI_MEAL_NAMES).

Lemma window_names (off : Z) (rnd g : rng) (N : list string) :
  (0 <= off <= 8)%Z ->
  mapM (fun i => index SAUDI_MEAL_NAMES (off + Z.of_nat i)) (seq 0 4) = Ok N ->
  N = window off.
Proof.
  intros Hoff.
  assert (Hc : (off = 0 \/ off = 1 \/ off = 2 \/ off = 3 \/ off = 4 \/ off = 5 \/
               off = 6 \/ off = 7 \/ off = 8)%Z) by lia.
  destruct Hc as [->|[->|[->|[->|[->|[->|[->|[->| ->]]]]]]]];
    vm_compute; intros [= <-]; reflexivity.
Qed.

Lemma window_nodup (off : Z) :
  (0 <= off <= 8)%Z ->
  NoDup (window off) /\ length (window off) = 4%nat /\ Forall (fun n => n <> "") (window off).
Proof.
  intros Hoff.
  assert (Hc : (off = 0 \/ off = 1 \/ off = 2 \/ off = 3 \/ off = 4 \/ off = 5 \/
               off = 6 \/ off = 7 \/ off = 8)%Z) by lia.
  destruct Hc as [->|[->|[->|[->|[->|[->|[->|[->| ->]]]]]]]];
    (split; [apply (bool_decide_unpack _); vm_compute; reflexivity|]);
    (split; [reflexivity|]);
    repeat (constructor; [discriminate|]); constructor.
Qed.

(** What a pass writes: totals in range, a window of names, rounded shares. *)
Definition pass_ok (T : list Q) (N : list string) (S : list (list Q)) : Prop :=
  totals_ok T /\
  (exists off : Z, (0 <= off <= 8)%Z /\ N = window off) /\
  (exists s0 s1 s2 s3 s4 s5,
      S = [s0; s1; s2; s3; s4; s5] /\
      split_ok (nth 0 T 0) s0 /\ split_ok (nth 1 T 0) s1 /\ split_ok (nth 2 T 0) s2 /\
      split_ok (nth 3 T 0) s3 /\ split_ok (nth 4 T 0) s4 /\ split_ok (nth 5 T 0) s5).

Ltac step_split_ok j s g H :=
  rewrite (split_total_names_totals _ _ _ j _ _ eq_refl);
  cbn [mbind result_bind];
  match goal with
  | |- context [_split ?t ?r] =>
      pose proof (split_positive t r) as H;
      destruct (_split t r) as [s g]; cbn [fst] in H
  end.

Lemma pass_inv (pid week_id : string) (persona : gmap string pyval) (nonce : Z)
    (u : gmap string pyval) :
  diversify_pass ∅ pid week_id persona nonce = Ok u ->
  exists T N S, u = diet_map T N S /\ pass_ok T N S.
Proof.
  unfold diversify_pass.
  destruct (_re_totals_with_jitter ∅ _ _) as [[o rnd1]|e] eqn:E;
    cbn [mbind result_bind fst snd]; [|discriminate].
  apply re_totals_ok in E as (T & -> & HT).
  change (Z.of_nat (length SAUDI_MEAL_NAMES) - 4)%Z with 9%Z.
  destruct (randrange_ok 0 9 rnd1 ltac:(lia)) as (off & rnd2 & -> & Hoff).
  cbn [mbind result_bind].
  destruct (mapM _ _) as [N|e] eqn:EN; cbn [mbind result_bind fst snd]; [|discriminate].
  apply (window_names off rnd1 rnd2) in EN; [|lia].
  change (foldl (fun obj it => <[snd it ++ "_meal" := PStr (nth (fst it) N "")]> obj) ?o _)
    with (set_names N o).
  destruct HT as (kcal & c & f & p & fiber & sodium & -> & Hk & Hc & Hf & Hp & Hfi & Hna & Hten).
  step_split_ok 0%nat s0 g0 H0. step_split_ok 1%nat s1 g1 H1.
  step_split_ok 2%nat s2 g2 H2. step_split_ok 3%nat s3 g3 H3.
  step_split_ok 4%nat s4 g4 H4. step_split_ok 5%nat s5 g5 H5.
  cbn [mbind result_bind nth] in *.
  intros [= <-].
  exists [kcal; c; f; p; fiber; sodium], N, [s0; s1; s2; s3; s4; s5].
  split; [reflexivity|].
  split; [|split].
  - exists kcal, c, f, p, fiber, sodium. tauto.
  - exists off. split; [lia | exact EN].
  - exists s0, s1, s2, s3, s4, s5. cbn [nth].
    split; [reflexivity|].
    repeat split; [apply H0|apply H1|apply H2|apply H3|apply H4|apply H5]; lra.
Qed.

End DiversifyValues.

(** ** The diversifier: the similarity tests and the recursion *)

Section DiversifyChecks.
Import Py utils_json_v12.
Context `{RT : PyRuntime} `{RNG : PyRandom}.

#[local] Arguments insert : simpl never.
#[local] Arguments lookup : simpl never.
#[local] Arguments union : simpl never.
#[local] Arguments empty : simpl never.

(** A dict in which the 34 diet keys are present. *)
Definition has_meal_numbers (d : gmap string pyval) : Prop :=
  forall m k, m ∈ meals -> k ∈ mkeys -> is_Some (d !! (m ++ "_meal_" ++ k)).

Lemma item_Some (d : gmap string pyval) (k : string) (v : pyval) :
  d !! k = Some v -> item d k = Ok v.
Proof. intros H. unfold item. rewrite H. reflexivity. Qed.

Lemma mapM_item_Ok (d : gmap string pyval) (pre : string) (keys : list string) :
  (forall k, k ∈ keys -> is_Some (d !! (pre ++ k))) ->
  exists l, mapM (fun k => item d (pre ++ k)) keys = Ok l.
Proof.
  induction keys as [|k keys IH]; intros H.
  - exists []. reflexivity.
  - destruct (H k ltac:(left)) as [v Hv].
    destruct IH as [l Hl]. { intros k' Hk'. apply H. right. exact Hk'. }
    exists (v :: l).
    change (mapM (fun k => item d (pre ++ k)) (k :: keys))
      with (y ← item d (pre ++ k); r ← mapM (fun k => item d (pre ++ k)) keys; mret (y :: r)).
    rewrite (item_Some d _ v Hv).
    cbn [mbind result_bind]. rewrite Hl. reflexivity.
Qed.

Lemma inner_fold_Ok (d : gmap string pyval) (tol : Q) (m : string)
    (kf : list (string * pyval)) (b : bool) :
  (forall k r, (k, r) ∈ kf -> is_Some (d !! (m ++ "_meal_" ++ k))) ->
  exists b',
    foldl (fun (acc : result bool) kf =>
             b ← acc;
             if b : bool then
               v ← item d (m ++ "_meal_" ++ fst kf);
               Ok (negb (Qlt_bool tol (Qabs (_f v 0.0 - _f (snd kf) 0.0))))
             else Ok false)
          (Ok b) kf = Ok b'.
Proof.
  revert b. induction kf as [|[k r] kf IH]; intros b H.
  - exists b. reflexivity.
  - cbn [foldl mbind result_bind fst snd].
    destruct (H k r ltac:(left)) as [v Hv].
    assert (H' : forall k r, (k, r) ∈ kf -> is_Some (d !! (m ++ "_meal_" ++ k))).
    { intros k' r' Hk'. apply (H k' r'). right. exact Hk'. }
    destruct b.
    + rewrite (item_Some d _ v Hv). cbn [mbind result_bind]. apply IH, H'.
    + apply IH, H'.
Qed.

Lemma zip_fst_mem {A B} (l : list A) (l' : list B) (a : A) (b : B) :
  (a, b) ∈ zip l l' -> a ∈ l.
Proof.
  revert l'. induction l as [|x l IH]; intros [|y l'] H; cbn in H;
    try (apply elem_of_nil in H; contradiction).
  apply elem_of_cons in H as [[= -> ->]|H]; [left | right; eapply IH, H].
Qed.

(** With distinct names in the first two slots the identity test is negative. *)
Lemma all_meals_identical_false (d : gmap string pyval) (tol : Q) (n1 n2 : string) :
  has_meal_numbers d ->
  d !! "1st_meal" = Some (PStr n1) -> d !! "2nd_meal" = Some (PStr n2) -> n1 <> n2 ->
  _all_meals_identical d tol = Ok false.
Proof.
  intros Hd H1 H2 Hne. unfold _all_meals_identical.
  destruct (mapM_item_Ok d "1st_meal_" mkeys) as [first ->].
  { intros k Hk. apply (Hd "1st" k); [left | exact Hk]. }
  cbn [mbind result_bind tl meals foldl].
  destruct (inner_fold_Ok d tol "2nd" (zip mkeys first) true) as [b2 ->].
  { intros k r Hk. apply (Hd "2nd" k); [right; left | eapply zip_fst_mem, Hk]. }
  destruct (inner_fold_Ok d tol "3rd" (zip mkeys first) b2) as [b3 ->].
  { intros k r Hk. apply (Hd "3rd" k); [right; right; left | eapply zip_fst_mem, Hk]. }
  destruct (inner_fold_Ok d tol "4th" (zip mkeys first) b3) as [b4 ->].
  { intros k r Hk. apply (Hd "4th" k); [right; right; right; left | eapply zip_fst_mem, Hk]. }
  destruct b4; cbn [negb]; [|reflexivity].
  cbn [mbind result_bind negb existsb tl meals]. cbv [String.append].
  unfold get2. rewrite H1, H2. cbn [default from_option id py_str].
  assert (E : String.eqb n2 n1 = false) by (apply String.eqb_neq; congruence).
  rewrite E. reflexivity.
Qed.

Lemma diet_map_has_numbers (T : list Q) (N : list string) (S : list (list Q))
    (obj : gmap string pyval) :
  has_meal_numbers (diet_map T N S ∪ obj).
Proof.
  intros m k Hm Hk.
  apply list_elem_of_lookup in Hm as [i Hi].
  apply list_elem_of_lookup in Hk as [j Hj].
  eexists. apply lookup_union_Some_l. apply (diet_map_meal T N S i j m k Hi Hj).
Qed.

Lemma diet_map_union_name (T : list Q) (N : list string) (S : list (list Q))
    (obj : gmap string pyval) (i : nat) (m : string) :
  meals !! i = Some m ->
  (diet_map T N S ∪ obj) !! (m ++ "_meal") = Some (PStr (nth i N "")).
Proof. intros H. apply lookup_union_Some_l, diet_map_name, H. Qed.

Lemma diet_map_union_total (T : list Q) (N : list string) (S : list (list Q))
    (obj : gmap string pyval) (j : nat) (k : string) :
  totals !! j = Some k ->
  (diet_map T N S ∪ obj) !! k = Some (PFloat (nth j T 0%Q)).
Proof. intros H. apply lookup_union_Some_l, diet_map_total, H. Qed.


Lemma window_first_two (off : Z) :
  (0 <= off <= 8)%Z -> nth 0 (window off) "" <> nth 1 (window off) "".
Proof.
  intros Hoff.
  assert (Hc : (off = 0 \/ off = 1 \/ off = 2 \/ off = 3 \/ off = 4 \/ off = 5 \/
               off = 6 \/ off = 7 \/ off = 8)%Z) by lia.
  destruct Hc as [->|[->|[->|[->|[->|[->|[->|[->| ->]]]]]]]]; vm_compute; discriminate.
Qed.

Lemma pass_not_identical (T : list Q) (N : list string) (S : list (list Q))
    (obj : gmap string pyval) (tol : Q) :
  pass_ok T N S -> _all_meals_identical (diet_map T N S ∪ obj) tol = Ok false.
Proof.
  intros (_ & (off & Hoff & ->) & _).
  apply (all_meals_identical_false _ tol (nth 0 (window off) "") (nth 1 (window off) "")).
  - apply diet_map_has_numbers.
  - apply (diet_map_union_name T _ S obj 0 "1st" eq_refl).
  - apply (diet_map_union_name T _ S obj 1 "2nd" eq_refl).
  - apply window_first_two, Hoff.
Qed.

(** The comparison with last week reads only keys that the pass wrote. *)
Lemma get2_union_l (u obj : gmap string pyval) (k : string) (dflt v : pyval) :
  u !! k = Some v -> get2 (u ∪ obj) k dflt = get2 u k dflt.
Proof.
  intros H. unfold get2. rewrite (lookup_union_Some_l u obj k v H), H. reflexivity.
Qed.

Lemma same_names_frame (T : list Q) (N : list string) (S : list (list Q))
    (obj b : gmap string pyval) :
  same_names (diet_map T N S ∪ obj) b = same_names (diet_map T N S) b.
Proof.
  unfold same_names. cbn [forallb meals].
  rewrite (get2_union_l _ obj _ _ _ (diet_map_name T N S 0 "1st" eq_refl)).
  rewrite (get2_union_l _ obj _ _ _ (diet_map_name T N S 1 "2nd" eq_refl)).
  rewrite (get2_union_l _ obj _ _ _ (diet_map_name T N S 2 "3rd" eq_refl)).
  rewrite (get2_union_l _ obj _ _ _ (diet_map_name T N S 3 "4th" eq_refl)).
  reflexivity.
Qed.

Lemma close_totals_frame (T : list Q) (N : list string) (S : list (list Q))
    (obj b : gmap string pyval) (tol : Q) :
  close_totals (diet_map T N S ∪ obj) b tol = close_totals (diet_map T N S) b tol.
Proof.
  unfold close_totals. cbn [forallb totals].
  rewrite (get2_union_l _ obj _ _ _ (diet_map_total T N S 0 _ eq_refl)).
  rewrite (get2_union_l _ obj _ _ _ (diet_map_total T N S 1 _ eq_refl)).
  rewrite (get2_union_l _ obj _ _ _ (diet_map_total T N S 2 _ eq_refl)).
  rewrite (get2_union_l _ obj _ _ _ (diet_map_total T N S 3 _ eq_refl)).
  rewrite (get2_union_l _ obj _ _ _ (diet_map_total T N S 4 _ eq_refl)).
  rewrite (get2_union_l _ obj _ _ _ (diet_map_total T N S 5 _ eq_refl)).
  reflexivity.
Qed.

Lemma same_names_refl (T : list Q) (N : list string) (S : list (list Q))
    (obj : gmap string pyval) :
  same_names (diet_map T N S ∪ obj) (diet_map T N S ∪ obj) = true.
Proof.
  unfold same_names. cbn [forallb meals].
  rewrite !String.eqb_refl. reflexivity.
Qed.

Lemma diet_map_nonempty (T : list Q) (N : list string) (S : list (list Q))
    (obj : gmap string pyval) :
  truthy (PDict (diet_map T N S ∪ obj)) = true.
Proof.
  cbn [truthy].
  destruct (map_to_list (diet_map T N S ∪ obj)) as [|x l] eqn:E; [|reflexivity].
  apply map_to_list_empty_iff in E.
  pose proof (diet_map_union_name T N S obj 0 "1st" eq_refl) as H.
  rewrite E, lookup_empty in H. discriminate H.
Qed.

Lemma diet_map_dom (T T' : list Q) (N N' : list string) (S S' : list (list Q)) :
  dom (diet_map T N S) = dom (diet_map T' N' S').
Proof.
  unfold diet_map, set_meals, set_names, set_totals.
  cbn [foldl zip zip_with seq length fst snd meals mkeys totals].
  rewrite !dom_insert_L. reflexivity.
Qed.

(** A later pass overwrites every key of an earlier one. *)
Lemma diet_map_absorb (T T' : list Q) (N N' : list string) (S S' : list (list Q))
    (obj : gmap string pyval) :
  diet_map T' N' S' ∪ (diet_map T N S ∪ obj) = diet_map T' N' S' ∪ obj.
Proof.
  apply map_eq. intros i. rewrite !lookup_union.
  destruct (diet_map T' N' S' !! i) as [v|] eqn:E.
  - rewrite !union_Some_l. reflexivity.
  - assert (E' : diet_map T N S !! i = None).
    { apply not_elem_of_dom. rewrite (diet_map_dom T T' N N' S S').
      apply not_elem_of_dom, E. }
    rewrite E'. rewrite !(left_id_L None (∪)). reflexivity.
Qed.

Lemma pass_shape (obj : gmap string pyval) (pid week_id : string)
    (persona : gmap string pyval) (nonce : Z) (o : gmap string pyval) :
  diversify_pass obj pid week_id persona nonce = Ok o ->
  exists T N S,
    diversify_pass ∅ pid week_id persona nonce = Ok (diet_map T N S) /\
    o = diet_map T N S ∪ obj /\ pass_ok T N S.
Proof.
  rewrite pass_frame.
  destruct (diversify_pass ∅ pid week_id persona nonce) as [u|e] eqn:E;
    cbn [mbind result_bind]; [|discriminate].
  intros [= <-].
  apply pass_inv in E as (T & N & S & -> & Hok).
  exists T, N, S. auto.
Qed.

Lemma diversify_unfold (fuel : nat) (obj : gmap string pyval) (pid week_id : string)
    (persona : gmap string pyval) (last : last_week) (nonce : Z) :
  diversify_meals (Datatypes.S fuel) obj pid week_id persona last nonce =
  (o ← diversify_pass obj pid week_id persona nonce;
   ident ← _all_meals_identical o tol_default;
   if ident || _similar_overview o (last_week_value o last) tol_default
   then diversify_meals fuel o pid week_id persona last (nonce + 1)
   else Ok o).
Proof. reflexivity. Qed.

(** The result of a call is the last pass overlaid on the input. *)
Lemma diversify_shape (fuel : nat) (obj : gmap string pyval) (pid week_id : string)
    (persona : gmap string pyval) (last : last_week) (nonce : Z) (r : gmap string pyval) :
  diversify_meals fuel obj pid week_id persona last nonce = Ok r ->
  exists T N S,
    r = diet_map T N S ∪ obj /\ pass_ok T N S /\
    _similar_overview r (last_week_value r last) tol_default = false.
Proof.
  revert obj nonce. induction fuel as [|fuel IH]; intros obj nonce; [discriminate|].
  rewrite diversify_unfold.
  destruct (diversify_pass obj pid week_id persona nonce) as [o|e] eqn:E;
    cbn [mbind result_bind]; [|discriminate].
  apply pass_shape in E as (T & N & S & _ & -> & Hok).
  rewrite (pass_not_identical T N S obj tol_default Hok).
  cbn [mbind result_bind orb].
  destruct (_similar_overview (diet_map T N S ∪ obj) _ _) eqn:Esim.
  - intros H. apply IH in H as (T' & N' & S' & -> & Hok' & Hsim).
    exists T', N', S'. rewrite diet_map_absorb in *. auto.
  - intros [= <-]. exists T, N, S. auto.
Qed.

(** The whole call, like a pass, is an overlay on its input. *)
Lemma diversify_frame (fuel : nat) (obj : gmap string pyval) (pid week_id : string)
    (persona : gmap string pyval) (last : last_week) (nonce : Z) :
  diversify_meals fuel obj pid week_id persona last nonce =
  (u ← diversify_meals fuel ∅ pid week_id persona last nonce; Ok (u ∪ obj)).
Proof.
  revert obj nonce. induction fuel as [|fuel IH]; intros obj nonce; [reflexivity|].
  rewrite !diversify_unfold, (pass_frame obj).
  destruct (diversify_pass ∅ pid week_id persona nonce) as [u|e] eqn:E;
    cbn [mbind result_bind]; [|reflexivity].
  apply pass_inv in E as (T & N & S & -> & Hok).
  rewrite (pass_not_identical T N S obj tol_default Hok).
  pose proof (pass_not_identical T N S ∅ tol_default Hok) as H0.
  rewrite (right_id_L ∅ (∪)) in H0. rewrite H0.
  cbn [mbind result_bind orb].
  assert (Hsim : _similar_overview (diet_map T N S ∪ obj)
                   (last_week_value (diet_map T N S ∪ obj) last) tol_default =
                 _similar_overview (diet_map T N S)
                   (last_week_value (diet_map T N S) last) tol_default).
  { destruct last as [| |b]; cbn [last_week_value _similar_overview].
    - reflexivity.
    - rewrite (diet_map_nonempty T N S obj), (same_names_refl T N S obj).
      pose proof (diet_map_nonempty T N S ∅) as H1.
      pose proof (same_names_refl T N S ∅) as H2.
      rewrite (right_id_L ∅ (∪)) in H1, H2. rewrite H1, H2. reflexivity.
    - rewrite same_names_frame, close_totals_frame. reflexivity. }
  rewrite Hsim.
  destruct (_similar_overview (diet_map T N S) _ _); [|reflexivity].
  rewrite (IH (diet_map T N S ∪ obj)), (IH (diet_map T N S)).
  destruct (diversify_meals fuel ∅ pid week_id persona last (nonce + 1)) as [v|e];
    cbn [mbind result_bind]; [|reflexivity].
  rewrite (assoc_L (∪)). reflexivity.
Qed.

End DiversifyChecks.

(** ** Totals against the sum of the four meals *)

Section SplitGap.
Import Py utils_json_v12.
#[local] Open Scope Q_scope.





End SplitGap.

(** ** The diet-shape normalizer *)

Section EnsureFacts.
Import Py utils_json_v12.
Context `{RT : PyRuntime}.

#[local] Arguments insert : simpl never.
#[local] Arguments lookup : simpl never.
#[local] Arguments union : simpl never.
#[local] Arguments empty : simpl never.

(** The values [ensure_diet_shape] computes from its input [x]. *)
Definition ens_coerced (x : gmap string pyval) (j : nat) : Q :=
  _f (get2 x (nth j totals "") (PFloat 0.0)) 0.0.

Definition ens_name (x : gmap string pyval) (i : nat) : string :=
  _ensure_meal_label (get x (nth i meals "" ++ "_meal")) i.

Definition ens_macro (x : gmap string pyval) (i j : nat) : Q :=
  match x !! (nth i meals "" ++ "_meal_" ++ nth j mkeys "") with
  | Some v => _f v 0.0
  | None => 0.0%Q
  end.

Definition ens_sum (x : gmap string pyval) (j : nat) : Q :=
  (0 + ens_macro x 0 j + ens_macro x 1 j + ens_macro x 2 j + ens_macro x 3 j)%Q.

Definition ens_total (x : gmap string pyval) (j : nat) : Q :=
  if Qeq_bool (ens_coerced x j) 0 then ens_sum x j else ens_coerced x j.

Definition ens_note (x : gmap string pyval) : gmap string pyval :=
  if negb (truthy (get x "Note"))
  then <["Note" := PStr "Saudi-inspired plan. Adjust portions if training load changes."]> x
  else x.

Definition ens_names (x : gmap string pyval) : list string :=
  map (ens_name x) (seq 0 4).

Definition ens_macros (x : gmap string pyval) : list (list Q) :=
  map (fun j => map (fun i => ens_macro x i j) (seq 0 4)) (seq 0 6).

Definition ens_coerceds (x : gmap string pyval) : list Q := map (ens_coerced x) (seq 0 6).
Definition ens_totals (x : gmap string pyval) : list Q := map (ens_total x) (seq 0 6).

Lemma lookup_insert_neb (m : gmap string pyval) (k k' : string) (v : pyval) :
  String.eqb k k' = false -> <[k:=v]> m !! k' = m !! k'.
Proof. intros H. apply lookup_insert_ne. apply String.eqb_neq, H. Qed.

Lemma lookup_insert_same (m : gmap string pyval) (k : string) (v : pyval) :
  <[k:=v]> m !! k = Some v.
Proof. apply lookup_insert_eq. Qed.

Ltac through_inserts :=
  repeat first
    [ rewrite lookup_insert_same
    | rewrite lookup_insert_neb by reflexivity ].

(** The first loop: every total is coerced to a float. *)
Lemma totals_loop (x : gmap string pyval) :
  foldl (fun obj k => <[k := PFloat (_f (get2 obj k (PFloat 0.0)) 0.0)]> obj) x totals =
  set_totals (ens_coerceds x) x.
Proof.
  unfold set_totals, ens_coerceds, ens_coerced, get2.
  cbn [foldl totals zip zip_with seq length fst snd map nth].
  through_inserts. reflexivity.
Qed.

Lemma append_inj_l (m a b : string) : m ++ a = m ++ b -> a = b.
Proof.
  induction m as [|c m IH]; cbn [String.append]; intros H; [exact H|].
  injection H as H. apply IH, H.
Qed.

Lemma pull_read (o x : gmap string pyval) (full pre lbl : string) :
  o !! full = x !! full ->
  hd "" (split_on "_" full) = pre ->
  o !! (pre ++ "_meal") = Some (PStr lbl) ->
  _pull_nested_meal_num o full 0.0 =
  match x !! full with Some v => _f v 0.0 | None => 0.0%Q end.
Proof.
  intros Ho Hp Hn. unfold _pull_nested_meal_num. rewrite Ho.
  destruct (x !! full); [reflexivity|].
  rewrite Hp. unfold get. rewrite Hn. reflexivity.
Qed.

(** The inner loop of the second loop reads, for every key it writes, the
    value the input had under that key. *)
Lemma inner_loop (m lbl : string) (x : gmap string pyval) (ks : list string) :
  forall o : gmap string pyval,
  (forall k, k ∈ ks -> o !! (m ++ "_meal_" ++ k) = x !! (m ++ "_meal_" ++ k)) ->
  o !! (m ++ "_meal") = Some (PStr lbl) ->
  (forall k, k ∈ ks -> hd "" (split_on "_" (m ++ "_meal_" ++ k)) = m) ->
  (forall k, k ∈ ks -> m ++ "_meal_" ++ k <> m ++ "_meal") ->
  NoDup ks ->
  foldl (fun obj mk =>
           <[m ++ "_meal_" ++ mk :=
               PFloat (_pull_nested_meal_num obj (m ++ "_meal_" ++ mk) 0.0)]> obj) o ks =
  foldl (fun obj mk =>
           <[m ++ "_meal_" ++ mk :=
               PFloat (match x !! (m ++ "_meal_" ++ mk) with
                       | Some v => _f v 0.0
                       | None => 0.0%Q
                       end)]> obj) o ks.
Proof.
  induction ks as [|k ks IH]; intros o Hx Hn Hp Hne Hnd; [reflexivity|].
  cbn [foldl].
  rewrite (pull_read o x _ m lbl (Hx k ltac:(left)) (Hp k ltac:(left)) Hn).
  apply NoDup_cons in Hnd as [Hk Hnd].
  apply IH.
  - intros k' Hk'. rewrite lookup_insert_ne; [apply Hx; right; exact Hk'|].
    intros E. apply append_inj_l, append_inj_l in E. subst k'. contradiction.
  - rewrite lookup_insert_ne; [exact Hn|]. apply Hne. left.
  - intros k' Hk'. apply Hp. right. exact Hk'.
  - intros k' Hk'. apply Hne. right. exact Hk'.
  - exact Hnd.
Qed.

(** One meal of the second loop, over a dict whose keys for that meal are
    still those of [x]. *)
Lemma shape_meal_overlay (C x : gmap string pyval) (i : nat) (m : string) :
  meals !! i = Some m ->
  C !! (m ++ "_meal") = None ->
  (forall k, k ∈ mkeys -> C !! (m ++ "_meal_" ++ k) = None) ->
  shape_meal (C ∪ x) i m =
  foldl (fun obj jk => <[m ++ "_meal_" ++ snd jk := PFloat (ens_macro x i (fst jk))]> obj)
        (<[m ++ "_meal" := PStr (ens_name x i)]> C)
        (zip (seq 0 (length mkeys)) mkeys) ∪ x.
Proof.
  intros Hm Hn Hk. unfold shape_meal.
  assert (Hget : get (C ∪ x) (m ++ "_meal") = get x (m ++ "_meal")).
  { unfold get. rewrite (lookup_union_r C x _ Hn). reflexivity. }
  rewrite Hget.
  rewrite (inner_loop m (_ensure_meal_label (get x (m ++ "_meal")) i) x mkeys).
  - do 4 (destruct i as [|i];
          [injection Hm as <-; unfold ens_macro, ens_name;
           cbn [foldl mkeys zip zip_with seq length fst snd nth meals];
           rewrite <- !insert_union_l; reflexivity|]).
    discriminate Hm.
  - intros k Hin. rewrite lookup_insert_ne.
    + apply (lookup_union_r C x), Hk, Hin.
    + apply list_elem_of_lookup_2 in Hm.
      repeat (apply elem_of_cons in Hm as [->|Hm]);
        [| | | |apply elem_of_nil in Hm; contradiction];
        repeat (apply elem_of_cons in Hin as [->|Hin]);
        try (apply elem_of_nil in Hin; contradiction); discriminate.
  - apply lookup_insert_eq.
  - intros k Hin. apply list_elem_of_lookup_2 in Hm.
    repeat (apply elem_of_cons in Hm as [->|Hm]);
      [| | | |apply elem_of_nil in Hm; contradiction];
      repeat (apply elem_of_cons in Hin as [->|Hin]);
      try (apply elem_of_nil in Hin; contradiction); vm_compute; reflexivity.
  - intros k Hin. apply list_elem_of_lookup_2 in Hm.
    repeat (apply elem_of_cons in Hm as [->|Hm]);
      [| | | |apply elem_of_nil in Hm; contradiction];
      repeat (apply elem_of_cons in Hin as [->|Hin]);
      try (apply elem_of_nil in Hin; contradiction); discriminate.
  - apply (bool_decide_unpack _). vm_compute. reflexivity.
Qed.

(** The dict after the first [n] meals of the second loop, as an overlay;
    the values written are left abstract so that lookups can be computed. *)
Definition chain_ens (n : nat) (Tv Nv : nat -> pyval) (Mv : nat -> nat -> pyval)
  : gmap string pyval :=
  foldl (fun obj im =>
           foldl (fun obj jk => <[snd im ++ "_meal_" ++ snd jk := Mv (fst im) (fst jk)]> obj)
                 (<[snd im ++ "_meal" := Nv (fst im)]> obj)
                 (zip (seq 0 (length mkeys)) mkeys))
        (foldl (fun obj it => <[snd it := Tv (fst it)]> obj)
               ∅ (zip (seq 0 (length totals)) totals))
        (take n (zip (seq 0 (length meals)) meals)).

Lemma chain_ens_fresh (n i : nat) (m : string) (Tv Nv : nat -> pyval)
    (Mv : nat -> nat -> pyval) :
  (n <= i)%nat -> meals !! i = Some m ->
  chain_ens n Tv Nv Mv !! (m ++ "_meal") = None /\
  (forall k, k ∈ mkeys -> chain_ens n Tv Nv Mv !! (m ++ "_meal_" ++ k) = None).
Proof.
  intros Hle Hm.
  do 4 (destruct i as [|i];
        [injection Hm as <-;
         assert (Hn : (n = 0 \/ n = 1 \/ n = 2 \/ n = 3)%nat) by lia;
         destruct Hn as [->|[->|[->| ->]]]; try lia;
         (split; [vm_compute; reflexivity|]);
         intros k Hin;
         repeat (apply elem_of_cons in Hin as [->|Hin]);
         try (apply elem_of_nil in Hin; contradiction); vm_compute; reflexivity|]).
  discriminate Hm.
Qed.

Definition ens_chain (n : nat) (C : list Q) (N : list string) (M : list (list Q))
  : gmap string pyval :=
  chain_ens n (fun j => PFloat (nth j C 0%Q)) (fun i => PStr (nth i N ""))
            (fun i j => PFloat (nth i (nth j M []) 0%Q)).

Lemma ens_chain_fresh (n i : nat) (m : string) (C : list Q) (N : list string)
    (M : list (list Q)) :
  (n <= i)%nat -> meals !! i = Some m ->
  ens_chain n C N M !! (m ++ "_meal") = None /\
  (forall k, k ∈ mkeys -> ens_chain n C N M !! (m ++ "_meal_" ++ k) = None).
Proof. apply chain_ens_fresh. Qed.

Lemma chain_ens_total (Tv Nv : nat -> pyval) (Mv : nat -> nat -> pyval) (j : nat) (k : string) :
  totals !! j = Some k -> chain_ens 4 Tv Nv Mv !! k = Some (Tv j).
Proof.
  intros H.
  do 6 (destruct j as [|j]; [injection H as <-; vm_compute; reflexivity|]).
  discriminate H.
Qed.

Lemma chain_ens_name (Tv Nv : nat -> pyval) (Mv : nat -> nat -> pyval) (i : nat) (m : string) :
  meals !! i = Some m -> chain_ens 4 Tv Nv Mv !! (m ++ "_meal") = Some (Nv i).
Proof.
  intros H.
  do 4 (destruct i as [|i]; [injection H as <-; vm_compute; reflexivity|]).
  discriminate H.
Qed.

Lemma chain_ens_meal (Tv Nv : nat -> pyval) (Mv : nat -> nat -> pyval)
    (i j : nat) (m k : string) :
  meals !! i = Some m -> mkeys !! j = Some k ->
  chain_ens 4 Tv Nv Mv !! (m ++ "_meal_" ++ k) = Some (Mv i j).
Proof.
  intros Hm Hk.
  do 4 (destruct i as [|i];
        [injection Hm as <-;
         do 6 (destruct j as [|j]; [injection Hk as <-; vm_compute; reflexivity|]);
         discriminate Hk|]).
  discriminate Hm.
Qed.

Lemma ens_chain_total (C : list Q) (N : list string) (M : list (list Q)) (j : nat) (k : string) :
  totals !! j = Some k -> ens_chain 4 C N M !! k = Some (PFloat (nth j C 0%Q)).
Proof. apply chain_ens_total. Qed.

Lemma ens_chain_name (C : list Q) (N : list string) (M : list (list Q)) (i : nat) (m : string) :
  meals !! i = Some m -> ens_chain 4 C N M !! (m ++ "_meal") = Some (PStr (nth i N "")).
Proof. apply chain_ens_name. Qed.

Lemma ens_chain_meal (C : list Q) (N : list string) (M : list (list Q))
    (i j : nat) (m k : string) :
  meals !! i = Some m -> mkeys !! j = Some k ->
  ens_chain 4 C N M !! (m ++ "_meal_" ++ k) = Some (PFloat (nth i (nth j M []) 0%Q)).
Proof. apply (chain_ens_meal _ _ (fun i j => PFloat (nth i (nth j M []) 0%Q))). Qed.

Lemma ens_chain_other (C : list Q) (N : list string) (M : list (list Q)) :
  ens_chain 4 C N M !! "Note" = None.
Proof. vm_compute. reflexivity. Qed.

Lemma shape_meal_chain (n : nat) (m : string) (x : gmap string pyval) :
  meals !! n = Some m ->
  shape_meal (ens_chain n (ens_coerceds x) (ens_names x) (ens_macros x) ∪ x) n m =
  ens_chain (Datatypes.S n) (ens_coerceds x) (ens_names x) (ens_macros x) ∪ x.
Proof.
  intros Hm.
  destruct (ens_chain_fresh n n m (ens_coerceds x) (ens_names x) (ens_macros x)
              (le_n _) Hm) as [Hn Hk].
  rewrite (shape_meal_overlay _ x n m Hm Hn Hk).
  do 4 (destruct n as [|n]; [injection Hm as <-; reflexivity|]).
  discriminate Hm.
Qed.

(** After the two loops the 34 diet keys hold the coerced values. *)
Lemma loops_overlay (x : gmap string pyval) :
  foldl (fun obj im => shape_meal obj (fst im) (snd im))
        (foldl (fun obj k => <[k := PFloat (_f (get2 obj k (PFloat 0.0)) 0.0)]> obj) x totals)
        (zip (seq 0 (length meals)) meals) =
  ens_chain 4 (ens_coerceds x) (ens_names x) (ens_macros x) ∪ x.
Proof.
  rewrite totals_loop.
  assert (E : set_totals (ens_coerceds x) x = set_totals (ens_coerceds x) ∅ ∪ x).
  { rewrite <- set_totals_union, empty_union_obj. reflexivity. }
  rewrite E. clear E.
  change (set_totals (ens_coerceds x) ∅)
    with (ens_chain 0 (ens_coerceds x) (ens_names x) (ens_macros x)).
  cbn [foldl zip zip_with seq length meals fst snd].
  rewrite (shape_meal_chain 0 "1st" x eq_refl).
  rewrite (shape_meal_chain 1 "2nd" x eq_refl).
  rewrite (shape_meal_chain 2 "3rd" x eq_refl).
  rewrite (shape_meal_chain 3 "4th" x eq_refl).
  reflexivity.
Qed.

(** The 34 keys of the flat diet schema. *)
Definition diet_keys : list string :=
  totals ++ map (fun m => m ++ "_meal") meals ++
  flat_map (fun m => map (fun k => m ++ "_meal_" ++ k) mkeys) meals.

Lemma ens_chain_outside (C : list Q) (N : list string) (M : list (list Q)) (k : string) :
  k ∉ diet_keys -> ens_chain 4 C N M !! k = None.
Proof.
  intros H. unfold ens_chain, chain_ens.
  cbn [foldl zip zip_with seq length fst snd meals mkeys totals take].
  cbv [diet_keys totals meals mkeys flat_map map app String.append] in H.
  cbv [String.append].
  repeat (apply not_elem_of_cons in H as [? H]).
  rewrite !lookup_insert_ne by congruence.
  apply lookup_empty.
Qed.

Lemma sum_items (o : gmap string pyval) (mm : string) (m1 m2 m3 m4 : Q) :
  o !! ("1st_meal_" ++ mm) = Some (PFloat m1) ->
  o !! ("2nd_meal_" ++ mm) = Some (PFloat m2) ->
  o !! ("3rd_meal_" ++ mm) = Some (PFloat m3) ->
  o !! ("4th_meal_" ++ mm) = Some (PFloat m4) ->
  _sum o mm = Ok (0 + m1 + m2 + m3 + m4)%Q.
Proof.
  intros H1 H2 H3 H4. unfold _sum, item.
  cbn [foldl meals]. cbn [mbind result_bind].
  change ("1st" ++ "_meal_" ++ mm) with ("1st_meal_" ++ mm).
  change ("2nd" ++ "_meal_" ++ mm) with ("2nd_meal_" ++ mm).
  change ("3rd" ++ "_meal_" ++ mm) with ("3rd_meal_" ++ mm).
  change ("4th" ++ "_meal_" ++ mm) with ("4th_meal_" ++ mm).
  rewrite H1. cbn [mbind result_bind py_num].
  rewrite H2. cbn [mbind result_bind py_num].
  rewrite H3. cbn [mbind result_bind py_num].
  rewrite H4. reflexivity.
Qed.

(** One of the six conditional assignments of the third step. *)
Lemma fill_total_step (o : gmap string pyval) (tk mm : string) (c m1 m2 m3 m4 : Q) :
  o !! tk = Some (PFloat c) ->
  o !! ("1st_meal_" ++ mm) = Some (PFloat m1) ->
  o !! ("2nd_meal_" ++ mm) = Some (PFloat m2) ->
  o !! ("3rd_meal_" ++ mm) = Some (PFloat m3) ->
  o !! ("4th_meal_" ++ mm) = Some (PFloat m4) ->
  exists o',
    fill_total tk mm o = Ok o' /\
    o' !! tk = Some (PFloat (if Qeq_bool c 0 then (0 + m1 + m2 + m3 + m4)%Q else c)) /\
    (forall k, k <> tk -> o' !! k = o !! k).
Proof.
  intros Ht H1 H2 H3 H4. unfold fill_total.
  rewrite (item_Some o tk _ Ht). cbn [mbind result_bind eq_zero].
  destruct (Qeq_bool c 0).
  - rewrite (sum_items o mm m1 m2 m3 m4 H1 H2 H3 H4). cbn [mbind result_bind].
    eexists. split; [reflexivity|]. split.
    + apply lookup_insert_eq.
    + intros k Hk. apply lookup_insert_ne. congruence.
  - exists o. auto.
Qed.

(** What the normalizer returns, key by key. *)
Definition ensured (x r : gmap string pyval) : Prop :=
  (forall j k, totals !! j = Some k -> r !! k = Some (PFloat (ens_total x j))) /\
  (forall i m, meals !! i = Some m -> r !! (m ++ "_meal") = Some (PStr (ens_name x i))) /\
  (forall i j m k, meals !! i = Some m -> mkeys !! j = Some k ->
     r !! (m ++ "_meal_" ++ k) = Some (PFloat (ens_macro x i j))) /\
  r !! "Note" = ens_note x !! "Note" /\
  (forall k, k ∉ diet_keys -> k <> "Note" -> r !! k = x !! k).

Ltac back :=
  repeat match goal with
         | H : forall k, k <> _ -> ?o !! k = _ |- ?o !! _ = _ => rewrite H by discriminate
         end.

Ltac fill_step o tk mm j o' T A HT HM :=
  let H := fresh in
  destruct (fill_total_step o tk mm _ _ _ _ _
              ltac:(back; exact (HT j _ eq_refl))
              ltac:(back; exact (HM 0%nat j _ _ eq_refl eq_refl))
              ltac:(back; exact (HM 1%nat j _ _ eq_refl eq_refl))
              ltac:(back; exact (HM 2%nat j _ _ eq_refl eq_refl))
              ltac:(back; exact (HM 3%nat j _ _ eq_refl eq_refl))) as (o' & H & T & A);
  rewrite H; clear H; cbn [mbind result_bind].

Lemma ensure_spec (x : gmap string pyval) :
  exists r, ensure_diet_shape x = Ok r /\ ensured x r.
Proof.
  unfold ensure_diet_shape. rewrite loops_overlay.
  set (E := ens_chain 4 (ens_coerceds x) (ens_names x) (ens_macros x)).
  assert (HT : forall j k, totals !! j = Some k ->
                 (E ∪ x) !! k = Some (PFloat (ens_coerced x j))).
  { intros j k H. apply lookup_union_Some_l.
    unfold E. rewrite (ens_chain_total _ _ _ j k H).
    do 6 (destruct j as [|j]; [reflexivity|]). discriminate H. }
  assert (HN : forall i m, meals !! i = Some m ->
                 (E ∪ x) !! (m ++ "_meal") = Some (PStr (ens_name x i))).
  { intros i m H. apply lookup_union_Some_l.
    unfold E. rewrite (ens_chain_name _ _ _ i m H).
    do 4 (destruct i as [|i]; [reflexivity|]). discriminate H. }
  assert (HM : forall i j m k, meals !! i = Some m -> mkeys !! j = Some k ->
                 (E ∪ x) !! (m ++ "_meal_" ++ k) = Some (PFloat (ens_macro x i j))).
  { intros i j m k Hm Hk. apply lookup_union_Some_l.
    unfold E. rewrite (ens_chain_meal _ _ _ i j m k Hm Hk).
    do 4 (destruct i as [|i];
          [do 6 (destruct j as [|j]; [reflexivity|]); discriminate Hk|]).
    discriminate Hm. }
  assert (HNote : (E ∪ x) !! "Note" = x !! "Note").
  { apply lookup_union_r, ens_chain_other. }
  assert (HO : forall k, k ∉ diet_keys -> (E ∪ x) !! k = x !! k).
  { intros k H. apply lookup_union_r, ens_chain_outside, H. }
  set (o := E ∪ x) in *. clearbody o. clear E.
  fill_step o "Total_kcal_target_kcal" "kcal_target_kcal" 0%nat o0 T0 A0 HT HM.
  fill_step o0 "Total_carbs_g" "carbs_g" 1%nat o1 T1 A1 HT HM.
  fill_step o1 "Total_fat_g" "fat_g" 2%nat o2 T2 A2 HT HM.
  fill_step o2 "Total_protein_g" "protein_g" 3%nat o3 T3 A3 HT HM.
  fill_step o3 "Total_fiber_g" "fiber_g" 4%nat o4 T4 A4 HT HM.
  fill_step o4 "Total_sodium_mg" "sodium_mg" 5%nat o5 T5 A5 HT HM.
  assert (Hn5 : get o5 "Note" = get x "Note").
  { unfold get. f_equal. back. exact HNote. }
  rewrite Hn5.
  eexists. split; [reflexivity|].
  assert (Hfin : forall k, k <> "Note" ->
            (if negb (truthy (get x "Note"))
             then <["Note" := PStr "Saudi-inspired plan. Adjust portions if training load changes."]> o5
             else o5) !! k = o5 !! k).
  { intros k Hk. destruct (negb _); [|reflexivity]. apply lookup_insert_ne. congruence. }
  split; [|split; [|split; [|split]]].
  - intros j k H. rewrite Hfin.
    + do 6 (destruct j as [|j];
            [injection H as <-; back;
             first [exact T0 | exact T1 | exact T2 | exact T3 | exact T4 | exact T5]|]).
      discriminate H.
    + intros ->. do 6 (destruct j as [|j]; [discriminate H|]). discriminate H.
  - intros i m H. rewrite Hfin.
    + pose proof (HN _ _ H) as G.
      do 4 (destruct i as [|i]; [injection H as <-; back; exact G|]).
      discriminate H.
    + do 4 (destruct i as [|i]; [injection H as <-; discriminate|]). discriminate H.
  - intros i j m k Hm Hk. rewrite Hfin.
    + pose proof (HM _ _ _ _ Hm Hk) as G.
      do 4 (destruct i as [|i];
            [injection Hm as <-;
             do 6 (destruct j as [|j]; [injection Hk as <-; back; exact G|]);
             discriminate Hk|]).
      discriminate Hm.
    + do 4 (destruct i as [|i];
            [injection Hm as <-;
             do 6 (destruct j as [|j]; [injection Hk as <-; discriminate|]);
             discriminate Hk|]).
      discriminate Hm.
  - unfold ens_note. destruct (negb (truthy (get x "Note"))).
    + rewrite !lookup_insert_eq. reflexivity.
    + back. exact HNote.
  - intros k Hk Hne. rewrite (Hfin k Hne).
    assert (Hk' := Hk).
    cbv [diet_keys totals meals mkeys flat_map map app String.append] in Hk'.
    repeat (apply not_elem_of_cons in Hk' as [? Hk']).
    rewrite A5, A4, A3, A2, A1, A0 by congruence.
    apply HO, Hk.
Qed.

End EnsureFacts.

Section EnsureIdempotent.
Import Py utils_json_v12.
Context `{RT : PyRuntime}.

#[local] Arguments insert : simpl never.
#[local] Arguments lookup : simpl never.
#[local] Arguments union : simpl never.
#[local] Arguments empty : simpl never.

Lemma diet_keys_cases (k : string) :
  k ∈ diet_keys ->
  (exists j, totals !! j = Some k) \/
  (exists i m, meals !! i = Some m /\ k = m ++ "_meal") \/
  (exists i j m mk, meals !! i = Some m /\ mkeys !! j = Some mk /\ k = m ++ "_meal_" ++ mk).
Proof.
  intros H.
  cbv [diet_keys totals meals mkeys flat_map map app String.append] in H.
  repeat (apply elem_of_cons in H as [->|H]);
    try (apply elem_of_nil in H; destruct H);
    first
      [ left;
        solve [ (exists 0%nat + exists 1%nat + exists 2%nat + exists 3%nat + exists 4%nat
                 + exists 5%nat); reflexivity ]
      | right; left;
        solve [ (exists 0%nat + exists 1%nat + exists 2%nat + exists 3%nat);
                eexists; split; reflexivity ]
      | right; right;
        solve [ (exists 0%nat + exists 1%nat + exists 2%nat + exists 3%nat);
                (exists 0%nat + exists 1%nat + exists 2%nat + exists 3%nat + exists 4%nat
                 + exists 5%nat);
                do 2 eexists; split; [reflexivity | split; reflexivity] ] ].
Qed.

Lemma note_not_diet_key : "Note" ∉ diet_keys.
Proof. apply (bool_decide_unpack _). vm_compute. reflexivity. Qed.


Lemma pool_label (i : nat) (m : string) :
  meals !! i = Some m ->
  let n := nth (i mod length SAUDI_MEAL_NAMES) SAUDI_MEAL_NAMES "" in
  strip n = n /\ String.eqb n "" = false.
Proof.
  intros H.
  do 4 (destruct i as [|i]; [split; vm_compute; reflexivity|]).
  discriminate H.
Qed.


Lemma ens_note_truthy (x : gmap string pyval) :
  truthy (get (ens_note x) "Note") = true.
Proof.
  unfold ens_note. destruct (truthy (get x "Note")) eqn:E; cbn [negb].
  - exact E.
  - unfold get. rewrite lookup_insert_same. reflexivity.
Qed.



End EnsureIdempotent.

(** ** The diversifier: what a call returns *)

Section DiversifyResults.
Import Py utils_json_v12.
Context `{RT : PyRuntime} `{RNG : PyRandom}.

#[local] Arguments insert : simpl never.
#[local] Arguments lookup : simpl never.
#[local] Arguments union : simpl never.
#[local] Arguments empty : simpl never.

Lemma result_is_ok {A} (x : result A) :
  match x with Ok _ => true | Raise _ => false end = true -> exists r, x = Ok r.
Proof. destruct x as [r|e]; [eauto | discriminate]. Qed.

Lemma diversify_fuel_mono (fuel : nat) (obj : gmap string pyval) (pid week_id : string)
    (persona : gmap string pyval) (last : last_week) (nonce : Z) (r : gmap string pyval) :
  diversify_meals fuel obj pid week_id persona last nonce = Ok r ->
  diversify_meals (S fuel) obj pid week_id persona last nonce = Ok r.
Proof.
  revert obj nonce. induction fuel as [|fuel IH]; intros obj nonce; [discriminate|].
  rewrite (diversify_unfold fuel), (diversify_unfold (S fuel)).
  destruct (diversify_pass obj pid week_id persona nonce) as [o|e];
    cbn [mbind result_bind]; [|discriminate].
  destruct (_all_meals_identical o tol_default) as [b|e];
    cbn [mbind result_bind]; [|discriminate].
  destruct (b || _similar_overview o (last_week_value o last) tol_default); [apply IH | auto].
Qed.

(** A rejected pass leaves no trace: the call continues as the call with
    the next nonce would. *)
Lemma diversify_rejected (fuel : nat) (obj : gmap string pyval) (pid week_id : string)
    (persona : gmap string pyval) (last : last_week) (nonce : Z) (o : gmap string pyval) :
  diversify_pass obj pid week_id persona nonce = Ok o ->
  _similar_overview o (last_week_value o last) tol_default = true ->
  diversify_meals (S fuel) obj pid week_id persona last nonce =
  diversify_meals fuel obj pid week_id persona last (nonce + 1).
Proof.
  intros E Hsim. rewrite diversify_unfold, E. cbn [mbind result_bind].
  apply pass_shape in E as (T & N & S & _ & -> & Hok).
  rewrite (pass_not_identical T N S obj tol_default Hok).
  cbn [mbind result_bind orb]. rewrite Hsim.
  rewrite (diversify_frame fuel (diet_map T N S ∪ obj)), (diversify_frame fuel obj).
  destruct (diversify_meals fuel ∅ pid week_id persona last (nonce + 1)) as [v|e] eqn:E2;
    cbn [mbind result_bind]; [|reflexivity].
  apply diversify_shape in E2 as (T' & N' & S' & -> & _ & _).
  rewrite (right_id_L ∅ (∪)), diet_map_absorb. reflexivity.
Qed.

(** Running the call again on its own result changes nothing. *)
Lemma diversify_rerun (fuel : nat) (obj : gmap string pyval) (pid week_id : string)
    (persona : gmap string pyval) (last : last_week) (nonce : Z) (r : gmap string pyval) :
  diversify_meals fuel obj pid week_id persona last nonce = Ok r ->
  diversify_meals fuel r pid week_id persona last nonce = Ok r.
Proof.
  rewrite (diversify_frame fuel obj), (diversify_frame fuel r).
  destruct (diversify_meals fuel ∅ pid week_id persona last nonce) as [u|e];
    cbn [mbind result_bind]; [|discriminate].
  intros [= <-]. rewrite (assoc_L (∪)), (idemp_L (∪)). reflexivity.
Qed.

Lemma f_float (q d : Q) : _f (PFloat q) d = q.
Proof. reflexivity. Qed.

Lemma not_similar (T : list Q) (N : list string) (S : list (list Q))
    (obj b : gmap string pyval) :
  pass_ok T N S ->
  _similar_overview (diet_map T N S ∪ obj) (Some b) tol_default = false ->
  same_names (diet_map T N S ∪ obj) b = false /\
  close_totals (diet_map T N S ∪ obj) b tol_default = false.
Proof.
  intros Hok. cbn [_similar_overview].
  destruct (truthy (PDict b)) eqn:Eb; cbn [negb].
  - intros H. apply orb_false_iff in H. exact H.
  - intros _. cbn [truthy] in Eb.
    destruct (map_to_list b) as [|x l] eqn:E; [|discriminate].
    apply map_to_list_empty_iff in E. subst b.
    destruct Hok as (HT & (off & Hoff & EN) & _). subst N.
    split.
    + unfold same_names. cbn [forallb meals].
      unfold get2 at 1 2.
      rewrite (diet_map_union_name T _ S obj 0 "1st" eq_refl), lookup_empty.
      cbn [default from_option id py_str].
      destruct (window_nodup off Hoff) as (_ & Hlen & Hne).
      destruct (window off) as [|n0 w]; [discriminate Hlen|].
      apply Forall_cons in Hne as [Hn0 _]. cbn [nth].
      apply String.eqb_neq in Hn0. rewrite Hn0. reflexivity.
    + destruct HT as (kcal & c & f & p & fiber & sodium & ET & (K1 & K2) & _). subst T.
      unfold close_totals. cbn [forallb totals].
      unfold get2 at 1 2.
      rewrite (diet_map_union_total _ _ S obj 0 _ eq_refl), lookup_empty.
      cbn [default from_option id nth]. rewrite f_float.
      assert (Hq : Qle_bool (Qabs (kcal - _f (PInt 0) 0.0)) tol_default = false).
      { apply Qle_bool_false. change (_f (PInt 0) 0.0) with (inject_Z 0).
        change (inject_Z 0) with 0%Q. unfold tol_default.
        assert (G : (kcal - 0 <= Qabs (kcal - 0))%Q) by apply Qle_Qabs.
        lra. }
      rewrite Hq. reflexivity.
Qed.

End DiversifyResults.

Section DiversifyGap.
Import Py utils_json_v12.
Context `{RT : PyRuntime} `{RNG : PyRandom}.
#[local] Open Scope Q_scope.




End DiversifyGap.

(** ** The weekly simulators *)

Section RoundTwo.
Import Py.
#[local] Open Scope Q_scope.

Definition hundredths (q : Q) : Prop := exists z : Z, (q == inject_Z z / 100).

Lemma round_nd_hundredths (x : Q) : hundredths (round_nd 2 x).
Proof. exists (round_half_even (x * pow10 2)). reflexivity. Qed.

Lemma round_nd_2_near (x : Q) :
  - (1#200) <= round_nd 2 x - x /\ round_nd 2 x - x <= 1#200.
Proof.
  pose proof (round_nd_near 2 x) as H.
  apply Qabs_Qle_condition in H.
  assert (E : (1#2) / pow10 2 == 1#200) by reflexivity.
  rewrite E in H. exact H.
Qed.

Lemma round_nd_2_ge (q x : Q) : hundredths q -> q <= x -> q <= round_nd 2 x.
Proof.
  intros [z Hz] H. rewrite Hz in *. exact (round_nd_ge 2 z x H).
Qed.

Lemma round_nd_2_le (q x : Q) : hundredths q -> x <= q -> round_nd 2 x <= q.
Proof.
  intros [z Hz] H. rewrite Hz in *. exact (round_nd_le 2 z x H).
Qed.

Lemma cent_gap (n : Z) (g : Q) :
  (g == inject_Z n * (1#100)) -> - (2#100) < g -> g < 2#100 ->
  - (1#100) <= g /\ g <= 1#100.
Proof.
  intros Hg Hlo Hhi. rewrite Hg in *.
  assert (H1 : inject_Z (-2) < inject_Z n) by (change (inject_Z (-2)) with (-2 # 1); lra).
  assert (H2 : inject_Z n < inject_Z 2) by (change (inject_Z 2) with (2 # 1); lra).
  rewrite <- Zlt_Qlt in H1, H2.
  assert (C : (n = -1 \/ n = 0 \/ n = 1)%Z) by lia.
  destruct C as [E | [E | E]]; subst n; split; vm_compute; discriminate.
Qed.

(** A rounded difference against the difference of the rounded values. *)
Lemma three_roundings (x y z : Q) :
  x == y - z ->
  Qabs (round_nd 2 x - (round_nd 2 y - round_nd 2 z)) <= 1#100.
Proof.
  intros E.
  destruct (round_nd_hundredths x) as [a Ha].
  destruct (round_nd_hundredths y) as [b Hb].
  destruct (round_nd_hundredths z) as [c Hc].
  pose proof (round_nd_2_near x) as [X1 X2].
  pose proof (round_nd_2_near y) as [Y1 Y2].
  pose proof (round_nd_2_near z) as [Z1 Z2].
  apply Qabs_Qle_condition.
  apply (cent_gap (a - b + c)).
  - rewrite Ha, Hb, Hc. unfold Z.sub. rewrite !inject_Z_plus, inject_Z_opp. field.
  - lra.
  - lra.
Qed.


(** Each delta is within one hundredth of the difference of the logged
    post and pre values. *)
Definition deltas_consistent (log : WeeklyLog) : Prop :=
  Qabs (delta_weight_kg log - (Post_weight_kg log - Pre_weight_kg log)) <= 1#100 /\
  Qabs (delta_muscle_kg log - (Post_muscle_kg log - Pre_muscle_kg log)) <= 1#100 /\
  Qabs (delta_fat_pct log - (Post_fat_pct log - Pre_fat_pct log)) <= 1#100.

End RoundTwo.

Section GeneratorFacts.
Import Py.
Context `{RT : PyRuntime} `{RNG : PyRandom}.

Lemma index_ok {A} (arr : list A) (i : Z) :
  (0 <= i < Z.of_nat (length arr))%Z -> exists x, index arr i = Ok x /\ arr !! Z.to_nat i = Some x.
Proof.
  intros Hi. unfold index.
  replace (i <? 0)%Z with false by (symmetry; apply Z.ltb_ge; lia).
  replace ((0 <=? i)%Z && (i <? Z.of_nat (length arr))%Z) with true
    by (symmetry; apply andb_true_iff; split; [apply Z.leb_le | apply Z.ltb_lt]; lia).
  destruct (arr !! Z.to_nat i) as [x|] eqn:E.
  - now exists x.
  - apply lookup_ge_None in E. lia.
Qed.

Lemma pick_ok {A} (arr : list A) (g : rng) :
  arr <> [] -> exists x g', pick arr g = Ok (x, g') /\ x ∈ arr.
Proof.
  intros Hne. unfold pick.
  assert (L : (0 < Z.of_nat (length arr))%Z) by (destruct arr; [congruence | cbn [length]; lia]).
  destruct (randrange_ok 0 (Z.of_nat (length arr)) g L) as (k & g' & E & Hk).
  rewrite E. cbn [mbind result_bind].
  destruct (index_ok arr k Hk) as (x & Ex & Lx).
  rewrite Ex. cbn [mbind result_bind].
  exists x, g'. split; [reflexivity|].
  eapply list_elem_of_lookup_2; exact Lx.
Qed.

End GeneratorFacts.

Section Week1Facts.
Import Py utils_sim_dual.
Context `{RT : PyRuntime} `{RNG : PyRandom}.
#[local] Open Scope Q_scope.

Ltac lit z := exists z; reflexivity.
















End Week1Facts.

Section FallbackFacts.
Import Py claude_client_v12.
Context `{RT : PyRuntime} `{RNG : PyRandom}.
#[local] Open Scope Q_scope.

Ltac lit z := exists z; reflexivity.

(** What [simulate_week_with_claude_fallback] guarantees about a log it returns. *)
Definition fallback_ok (persona : gmap string pyval) (log : WeeklyLog) : Prop :=
  deltas_consistent log /\
  (5 <= Post_fat_pct log /\ Post_fat_pct log <= 60) /\
  (forall a : Q,
     float_or persona "Adherence_propensity" 0.65 = Ok a -> 0 <= a -> a <= 1 ->
     -0.43 <= delta_weight_kg log /\ delta_weight_kg log <= 0.32 /\
     -0.02 <= delta_muscle_kg log /\ delta_muscle_kg log <= 0.2).

Ltac draw H :=
  match type of H with
  | context [uniform ?a ?b ?g] =>
      let U1 := fresh "U" in let U2 := fresh "U" in
      pose proof (uniform_bounds a b g ltac:(lra)) as [U1 U2];
      destruct (uniform a b g) as [? ?]; cbn [fst] in U1, U2
  end.

Ltac bound H :=
  match type of H with
  | context [@mbind _ _ _ _ _ ?r] =>
      destruct r; cbn [mbind result_bind] in H; [|discriminate H]
  end.

Lemma fallback_log (pre_w pre_m pre_f dW dM post_f adher : Q) (persona : gmap string pyval)
    (d t fb nt : string) (daily sleep : Q) :
  float_or persona "Adherence_propensity" 0.65 = Ok adher ->
  (0 <= adher -> adher <= 1 -> -0.43 <= dW /\ dW <= 0.32 /\ -0.02 <= dM /\ dM <= 0.2) ->
  5 <= post_f -> post_f <= 60 ->
  fallback_ok persona
    {| Date := d; Time_ := t; free_text_feedback := fb; notes := nt;
       daily_avg_kcal := daily;
       Pre_weight_kg := round_nd 2 pre_w; Pre_muscle_kg := round_nd 2 pre_m;
       Pre_fat_pct := round_nd 2 pre_f;
       Post_weight_kg := round_nd 2 (pre_w + dW); Post_muscle_kg := round_nd 2 (pre_m + dM);
       Post_fat_pct := round_nd 2 post_f;
       delta_weight_kg := round_nd 2 dW; delta_muscle_kg := round_nd 2 dM;
       delta_fat_pct := round_nd 2 (post_f - pre_f);
       sleep_avg_hours := sleep |}.
Proof.
  intros Ea B F1 F2. unfold fallback_ok, deltas_consistent.
  cbn [Pre_weight_kg Pre_muscle_kg Pre_fat_pct Post_weight_kg Post_muscle_kg Post_fat_pct
       delta_weight_kg delta_muscle_kg delta_fat_pct].
  split; [|split].
  - split; [|split]; apply three_roundings; ring.
  - split; [apply round_nd_2_ge | apply round_nd_2_le]; try assumption; [lit 500%Z | lit 6000%Z].
  - intros a Ea' A0 A1. rewrite Ea in Ea'. injection Ea' as <-.
    destruct (B A0 A1) as (B1 & B2 & B3 & B4).
    repeat split; [apply round_nd_2_ge | apply round_nd_2_le | apply round_nd_2_ge
                   | apply round_nd_2_le]; try assumption;
      [lit (-43)%Z | lit 32%Z | lit (-2)%Z | lit 20%Z].
Qed.

Lemma post_f_range (x : Q) : 5 <= fmax 5.0 (fmin x 60.0) /\ fmax 5.0 (fmin x 60.0) <= 60.
Proof.
  pose proof (fmax_lub_l 5.0 (fmin x 60.0)).
  split; [lra|].
  pose proof (fmin_glb_r x 60.0).
  destruct (fmax_cases 5.0 (fmin x 60.0)) as [E|E]; rewrite E; lra.
Qed.

Lemma fallback_spec (now : string * string) (persona diet : gmap string pyval)
    (workouts_ids : list string) (pid week_id : string) (salt : Z) (log : WeeklyLog) :
  simulate_week_with_claude_fallback now persona diet workouts_ids pid week_id salt = Ok log ->
  fallback_ok persona log.
Proof.
  unfold simulate_week_with_claude_fallback. destruct now as [date_str time_str].
  intros H.
  destruct (float_or persona "Weight_kg" 75.0) as [pre_w|]; cbn [mbind result_bind] in H;
    [|discriminate H].
  destruct (float_or persona "Muscle_mass_kg" 30.0) as [pre_m|]; cbn [mbind result_bind] in H;
    [|discriminate H].
  destruct (float_or persona "Fat_percent" 25.0) as [pre_f|]; cbn [mbind result_bind] in H;
    [|discriminate H].
  destruct (float_or persona "Adherence_propensity" 0.65) as [adher|] eqn:Ea;
    cbn [mbind result_bind] in H; [|discriminate H].
  destruct (py_int _) as [days|]; cbn [mbind result_bind] in H; [|discriminate H].
  destruct (float_or diet "Total_kcal_target_kcal" 2000.0) as [kcal|];
    cbn [mbind result_bind] in H; [|discriminate H].
  destruct (uniform (-60) 60 _) as [u0 g0].
  destruct (lower_or_empty persona "Primary_goal") as [goal|]; cbn [mbind result_bind] in H;
    [|discriminate H].
  destruct (contains "fat" goal); [|destruct (contains "muscle" goal)];
    draw H; draw H;
    (destruct (float_or persona "Sleep_hours" 7.0) as [sleep0|]; cbn [mbind result_bind] in H;
       [|discriminate H]);
    (destruct (uniform (-0.25) 0.25 _) as [u3 g3]);
    (destruct (_mk_feedback _ _ _ _ _ _) as [fb|]; cbn [mbind result_bind] in H;
       [|discriminate H]);
    (destruct (_mk_notes _ _ _ _ _) as [nt|]; cbn [mbind result_bind] in H;
       [|discriminate H]);
    injection H as <-;
    (apply (fallback_log _ _ _ _ _ _ adher); [exact Ea | intros A0 A1; repeat split; lra
                                              | apply post_f_range | apply post_f_range]).
Qed.

End FallbackFacts.

Section SimulatorClaims.
Import Py claude_client_v12 utils_sim_dual Toy.
#[local] Open Scope Q_scope.


Definition lean : gmap string pyval := <["Fat_percent" := PFloat 3.0]> ∅.




End SimulatorClaims.

(** ** The meal builder *)

Section MealFacts.
Import Py acegpt_client.
Context `{RT : PyRuntime} `{RNG : PyRandom}.

Lemma amount_ok (a b lo hi : Z) (g : rng) :
  (a <= b)%Z -> exists x g', amount a b lo hi g = Ok (x, g').
Proof.
  intros H. unfold amount, randint.
  destruct (randrange_ok a (b + 1) g ltac:(lia)) as (k & g' & E & _).
  rewrite E. cbn [mbind result_bind]. eauto.
Qed.

Ltac step :=
  match goal with
  | |- context [_pick ?g ?L] =>
      let x := fresh "x" in let g' := fresh "g" in let E := fresh "E" in
      destruct (pick_ok L g ltac:(discriminate)) as (x & g' & E & _);
      change (_pick g L) with (pick L g); rewrite E; clear E; cbn [mbind result_bind]
  | |- context [amount ?a ?b ?lo ?hi ?g] =>
      let x := fresh "n" in let g' := fresh "g" in let E := fresh "E" in
      destruct (amount_ok a b lo hi g ltac:(lia)) as (x & g' & E);
      rewrite E; clear E; cbn [mbind result_bind]
  end.

Lemma compose_breakfast_ok (g : rng) : exists r, _compose_breakfast g = Ok r.
Proof.
  unfold _compose_breakfast. do 3 step.
  destruct (mem _ SPREADS); repeat step; eauto.
Qed.

Lemma compose_lunch_ok (g : rng) : exists r, _compose_lunch g = Ok r.
Proof. unfold _compose_lunch. repeat step. eauto. Qed.

Lemma compose_snack_ok (g : rng) : exists r, _compose_snack g = Ok r.
Proof. unfold _compose_snack. repeat step. eauto. Qed.

Lemma compose_dinner_ok (g : rng) : exists r, _compose_dinner g = Ok r.
Proof.
  unfold _compose_dinner. destruct (rnd_random g) as [coin g0].
  destruct (Qlt_bool coin 0.5).
  - repeat step. eauto.
  - do 7 step. destruct (mem _ BREADS); repeat step; eauto.
Qed.

Lemma compose_slot_ok (slot_idx : Z) (g : rng) : exists r, compose_slot slot_idx g = Ok r.
Proof.
  unfold compose_slot.
  destruct (slot_idx =? 1)%Z; [apply compose_breakfast_ok|].
  destruct (slot_idx =? 2)%Z; [apply compose_lunch_ok|].
  destruct (slot_idx =? 3)%Z; [apply compose_snack_ok | apply compose_dinner_ok].
Qed.

(** The plausibility band of a slot. *)
Definition in_band (m : macros) : bool := Qle_bool 250 (kcal m) && Qle_bool (kcal m) 1200.

(** The composition of attempt [a] of a slot. *)
Definition attempt_of (slot_idx : Z) (persona_id : string) (a : Z)
  : result (string * list item_t) :=
  compose_slot slot_idx (_rng_for persona_id slot_idx a).

Definition rejected (slot_idx : Z) (persona_id : string) (a : Z) : Prop :=
  exists t items, attempt_of slot_idx persona_id a = Ok (t, items) /\
                  in_band (_sum_macros items) = false.

(** The text [_ensure_unique] returns for [t]. *)
Definition unique_text (t text : string) : Prop :=
  text = t \/ text = t ++ " [u:" ++ md5_hex6 t ++ "]".

Lemma ensure_unique_text (t : string) (used : gset string) :
  unique_text t (fst (_ensure_unique t used)).
Proof.
  unfold _ensure_unique, unique_text.
  destruct (bool_decide (t ∈ used)); cbn [fst]; auto.
Qed.

Definition accepted (slot_idx : Z) (persona_id : string) (a : Z) (text : string) (m : macros)
  : Prop :=
  exists t items, attempt_of slot_idx persona_id a = Ok (t, items) /\
                  m = _sum_macros items /\ unique_text t text.

Lemma compose_attempts_spec (n : nat) (a0 slot_idx : Z) (persona_id : string)
    (used : gset string) :
  exists found used',
    compose_attempts n a0 slot_idx persona_id used = Ok (found, used') /\
    match found with
    | Some (text, m) =>
        exists a, (a0 <= a < a0 + Z.of_nat n)%Z /\
                  accepted slot_idx persona_id a text m /\ in_band m = true /\
                  forall b, (a0 <= b < a)%Z -> rejected slot_idx persona_id b
    | None => forall b, (a0 <= b < a0 + Z.of_nat n)%Z -> rejected slot_idx persona_id b
    end.
Proof.
  revert a0 used; induction n as [|n IH]; intros a0 used.
  - exists None, used. split; [reflexivity|]. intros b Hb. lia.
  - cbn [compose_attempts].
    destruct (compose_slot_ok slot_idx (_rng_for persona_id slot_idx a0)) as [[t items] E].
    rewrite E. cbn [mbind result_bind].
    pose proof (ensure_unique_text t used) as U.
    destruct (_ensure_unique t used) as [text used1]. cbn [fst] in U.
    assert (Em : exists m, m = _sum_macros items) by eauto.
    destruct Em as [m Em]. rewrite <- Em.
    change (Qle_bool 250 (kcal m) && Qle_bool (kcal m) 1200) with (in_band m).
    destruct (in_band m) eqn:B.
    + exists (Some (text, m)), used1. split; [reflexivity|].
      exists a0. split; [lia|]. split; [|split; [exact B|intros b Hb; lia]].
      exists t, items. auto.
    + destruct (IH (a0 + 1)%Z used1) as (found & used' & E' & K).
      exists found, used'. split; [exact E'|].
      assert (R0 : rejected slot_idx persona_id a0) by (exists t, items; subst m; auto).
      destruct found as [[text' m']|].
      * destruct K as (a & Ha & Acc & Bm & Rej).
        exists a. split; [lia|]. split; [exact Acc|]. split; [exact Bm|].
        intros b Hb. destruct (Z.eq_dec b a0) as [->|Hne]; [exact R0 | apply Rej; lia].
      * intros b Hb. destruct (Z.eq_dec b a0) as [->|Hne]; [exact R0 | apply K; lia].
Qed.

(** [_compose_meal] always returns: the first attempt in 0..11 whose
    reconciled kcal is inside the band, or, when all twelve are outside,
    the composition of attempt 999. *)
Lemma compose_meal_spec (slot_idx : Z) (persona_id : string) (used : gset string) :
  exists text m used',
    _compose_meal slot_idx persona_id used = Ok (text, m, used') /\
    exists a, accepted slot_idx persona_id a text m /\
      (((0 <= a < 12)%Z /\ in_band m = true /\
        forall b, (0 <= b < a)%Z -> rejected slot_idx persona_id b) \/
       (a = 999%Z /\ forall b, (0 <= b < 12)%Z -> rejected slot_idx persona_id b)).
Proof.
  unfold _compose_meal.
  destruct (compose_attempts_spec 12 0 slot_idx persona_id used) as (found & used1 & E & K).
  rewrite E. cbn [mbind result_bind].
  destruct found as [[text m]|].
  - destruct K as (a & Ha & Acc & Bm & Rej).
    exists text, m, used1. split; [reflexivity|].
    exists a. split; [exact Acc|]. left. split; [lia|]. split; [exact Bm|exact Rej].
  - destruct (compose_slot_ok slot_idx (_rng_for persona_id slot_idx 999)) as [[t items] E9].
    rewrite E9. cbn [mbind result_bind].
    pose proof (ensure_unique_text t used1) as U.
    destruct (_ensure_unique t used1) as [text used2]. cbn [fst] in U.
    exists text, (_sum_macros items), used2. split; [reflexivity|].
    exists 999%Z. split; [exists t, items; auto|].
    right. split; [reflexivity|]. intros b Hb. apply K. lia.
Qed.

End MealFacts.

Section MealClaims.
Import Py acegpt_client Toy.
#[local] Open Scope Q_scope.

(** C7.  [_compose_meal] always returns a meal, and the meal's kcal is the
    4/4/9 figure of its summed and rounded macro grams, rounded to one
    decimal; the kcal column of the table does not enter it: 100 g of
    dates, 282 kcal in the table, are reconciled to 313.6 kcal. *)
Theorem compose_meal_kcal_reconciled `{RT : PyRuntime} `{RNG : PyRandom}
    (slot_idx : Z) (persona_id : string) (used : gset string) :
  (exists text m used',
     _compose_meal slot_idx persona_id used = Ok (text, m, used') /\
     kcal m = round_nd 1 (4.0 * carb m + 4.0 * prot m + 9.0 * fat m)) /\
  (kcal <$> nutr_lookup NUTR "dates") = Some 282 /\
  kcal (_sum_macros [("dates", 100%Z, "g")]) == 313.6.
Proof.
  split; [|split; [reflexivity | vm_compute; reflexivity]].
  destruct (compose_meal_spec slot_idx persona_id used)
    as (text & m & used' & E & a & (t & items & _ & Em & _) & _).
  exists text, m, used'. split; [exact E|]. rewrite Em. reflexivity.
Qed.

(** C8, as the code has it.  [_compose_meal] never raises.  It returns the
    first of the attempts 0..11 whose reconciled kcal lies in [250, 1200],
    all earlier attempts being outside the band; when all twelve are
    outside, it composes the slot once more from the stream of attempt 999
    and returns that composition whatever its kcal. *)
Theorem compose_meal_retry `{RT : PyRuntime} `{RNG : PyRandom}
    (slot_idx : Z) (persona_id : string) (used : gset string) :
  exists text m used',
    _compose_meal slot_idx persona_id used = Ok (text, m, used') /\
    exists a, accepted slot_idx persona_id a text m /\
      (((0 <= a < 12)%Z /\ in_band m = true /\
        forall b, (0 <= b < a)%Z -> rejected slot_idx persona_id b) \/
       (a = 999%Z /\ forall b, (0 <= b < 12)%Z -> rejected slot_idx persona_id b)).
Proof. apply compose_meal_spec. Qed.

(** C8, the statement of the specification fails: with every attempt
    outside the band, the meal returned is not the twelfth attempt's (135 g
    of samoon, 1613.5 kcal) but a thirteenth composition, drawn from
    attempt 999 (138 g of samoon, 1622 kcal). *)
Lemma compose_meal_fallback_is_fresh :
  exists text m used t11 items11 t999 items999,
    _compose_meal (RNG := Heavy.heavy_rng) 1 "P01" ∅ = Ok (text, m, used) /\
    attempt_of (RNG := Heavy.heavy_rng) 1 "P01" 11 = Ok (t11, items11) /\
    attempt_of (RNG := Heavy.heavy_rng) 1 "P01" 999 = Ok (t999, items999) /\
    t11 = "07:30–09:30 — Breakfast: samoon (135 g), peanut butter (120 g), dates (120 g), laban (250 ml)"%string /\
    t999 = "07:30–09:30 — Breakfast: samoon (138 g), peanut butter (120 g), dates (120 g), laban (250 ml)"%string /\
    text = (t999 ++ " [u:" ++ md5_hex6 t999 ++ "]")%string /\
    kcal (_sum_macros items11) == 1613.5 /\
    kcal m == 1622 /\ m = _sum_macros items999 /\ in_band m = false.
Proof.
  destruct (compose_meal_spec (RNG := Heavy.heavy_rng) 1 "P01" ∅) as (text & m & used & E & _).
  exists text, m, used.
  assert (P : Some (text, m) =
              match _compose_meal (RNG := Heavy.heavy_rng) 1 "P01" ∅ with
              | Ok (t, m, _) => Some (t, m)
              | Raise _ => None
              end) by (rewrite E; reflexivity).
  vm_compute in P. injection P as -> ->.
  do 4 eexists. split; [exact E|].
  split; [vm_compute; reflexivity|]. split; [vm_compute; reflexivity|].
  repeat split.
Qed.

End MealClaims.

Section WeekFacts.
Import Py datetime utils_time_dual iso_weeks.
#[local] Open Scope Z_scope.

Lemma upto_spec (f : Z -> bool) (n : nat) (z k : Z) :
  upto n z f = true -> z <= k < z + Z.of_nat n -> f k = true.
Proof.
  revert z; induction n as [|n IH]; intros z H Hk; [lia|].
  cbn [upto] in H. apply andb_true_iff in H as [H1 H2].
  destruct (Z.eq_dec k z) as [->|Hne]; [exact H1|].
  apply (IH (z + 1)); [exact H2 | lia].
Qed.

Lemma is_leap_shift (y : Z) : _is_leap (y + 400) = _is_leap y.
Proof.
  unfold _is_leap.
  replace ((y + 400) mod 4) with (y mod 4)
    by (replace (y + 400) with (y + 100 * 4) by lia; now rewrite Z_mod_plus_full).
  replace ((y + 400) mod 100) with (y mod 100)
    by (replace (y + 400) with (y + 4 * 100) by lia; now rewrite Z_mod_plus_full).
  replace ((y + 400) mod 400) with (y mod 400)
    by (replace (y + 400) with (y + 1 * 400) by lia; now rewrite Z_mod_plus_full).
  reflexivity.
Qed.

Lemma days_before_year_shift (y : Z) :
  _days_before_year (y + 400) = _days_before_year y + 146097.
Proof.
  unfold _days_before_year.
  replace (y + 400 - 1) with (y - 1 + 400) by lia.
  replace ((y - 1 + 400) / 4) with ((y - 1) / 4 + 100)
    by (replace (y - 1 + 400) with (y - 1 + 100 * 4) by lia; now rewrite Z_div_plus_full).
  replace ((y - 1 + 400) / 100) with ((y - 1) / 100 + 4)
    by (replace (y - 1 + 400) with (y - 1 + 4 * 100) by lia; now rewrite Z_div_plus_full).
  replace ((y - 1 + 400) / 400) with ((y - 1) / 400 + 1)
    by (replace (y - 1 + 400) with (y - 1 + 1 * 400) by lia; now rewrite Z_div_plus_full).
  lia.
Qed.

Lemma ymd2ord_shift (y m d : Z) : _ymd2ord (y + 400) m d = _ymd2ord y m d + 146097.
Proof.
  unfold _ymd2ord, _days_before_month.
  rewrite days_before_year_shift, is_leap_shift. lia.
Qed.

Definition shift_date (d : date) : date := mk_date (year d + 400) (month d) (day d).

Lemma ord2ymd_shift (n : Z) : _ord2ymd (n + 146097) = shift_date (_ord2ymd n).
Proof.
  unfold _ord2ymd.
  replace (n + 146097 - 1) with (n - 1 + 1 * _DI400Y) by (unfold _DI400Y; lia).
  rewrite Z_div_plus_full, Z_mod_plus_full by (unfold _DI400Y; lia).
  set (r := (n - 1) mod _DI400Y).
  set (q := (n - 1) / _DI400Y).
  destruct ((r mod _DI100Y mod _DI4Y / 365 =? 4) || (r / _DI100Y =? 4)).
  - unfold shift_date; cbn [year month day]. f_equal. lia.
  - destruct (_ <? _); unfold shift_date; cbn [year month day]; f_equal; lia.
Qed.

Lemma toordinal_shift (d : date) : toordinal (shift_date d) = toordinal d + 146097.
Proof. unfold toordinal, shift_date; cbn [year month day]. apply ymd2ord_shift. Qed.

Lemma isoweek1monday_shift (y : Z) : _isoweek1monday (y + 400) = _isoweek1monday y + 146097.
Proof.
  unfold _isoweek1monday. rewrite ymd2ord_shift.
  replace ((_ymd2ord y 1 1 + 146097 + 6) mod 7) with ((_ymd2ord y 1 1 + 6) mod 7)
    by (replace (_ymd2ord y 1 1 + 146097 + 6) with (_ymd2ord y 1 1 + 6 + 20871 * 7) by lia;
        now rewrite Z_mod_plus_full).
  destruct (_ <? _); lia.
Qed.

Lemma has_week_53_shift (y : Z) : has_week_53 (y + 400) = has_week_53 y.
Proof.
  unfold has_week_53. rewrite ymd2ord_shift, is_leap_shift.
  replace ((_ymd2ord y 1 1 + 146097) mod 7) with (_ymd2ord y 1 1 mod 7)
    by (replace (_ymd2ord y 1 1 + 146097) with (_ymd2ord y 1 1 + 20871 * 7) by lia;
        now rewrite Z_mod_plus_full).
  reflexivity.
Qed.

Lemma weeks_in_year_shift (y : Z) : weeks_in_year (y + 400) = weeks_in_year y.
Proof. unfold weeks_in_year. now rewrite has_week_53_shift. Qed.

Lemma isocalendar_shift (d : date) :
  isocalendar (shift_date d) =
  let '(y, w, wd) := isocalendar d in (y + 400, w, wd).
Proof.
  unfold isocalendar. rewrite toordinal_shift.
  change (year (shift_date d)) with (year d + 400).
  replace (year d + 400 - 1) with (year d - 1 + 400) by lia.
  replace (year d + 400 + 1) with (year d + 1 + 400) by lia.
  rewrite !isoweek1monday_shift.
  replace (toordinal d + 146097 - (_isoweek1monday (year d) + 146097))
    with (toordinal d - _isoweek1monday (year d)) by lia.
  replace (toordinal d + 146097 - (_isoweek1monday (year d - 1) + 146097))
    with (toordinal d - _isoweek1monday (year d - 1)) by lia.
  replace (_isoweek1monday (year d + 1) + 146097 <=? toordinal d + 146097)
    with (_isoweek1monday (year d + 1) <=? toordinal d)
    by (destruct (Z.leb_spec (_isoweek1monday (year d + 1)) (toordinal d));
        symmetry; [apply Z.leb_le | apply Z.leb_gt]; lia).
  destruct (_ <? 0); [cbv beta iota; f_equal; f_equal; lia|].
  destruct (_ && _); cbv beta iota; f_equal; f_equal; lia.
Qed.

Lemma week_ok_shift (y w : Z) : week_ok (y + 400) w = week_ok y w.
Proof.
  unfold week_ok.
  rewrite isoweek1monday_shift.
  replace (_isoweek1monday y + 146097 + (w - 1) * 7)
    with (_isoweek1monday y + (w - 1) * 7 + 146097) by lia.
  set (o := _isoweek1monday y + (w - 1) * 7).
  replace (o + 146097 + 7) with (o + 7 + 146097) by lia.
  rewrite !ord2ymd_shift, toordinal_shift, isocalendar_shift.
  replace (toordinal (_ord2ymd o) + 146097 =? o + 146097) with (toordinal (_ord2ymd o) =? o)
    by (destruct (Z.eqb_spec (toordinal (_ord2ymd o)) o);
        symmetry; [apply Z.eqb_eq | apply Z.eqb_neq]; lia).
  destruct (isocalendar (_ord2ymd (o + 7))) as [[y' w'] d'].
  unfold iso_succ. rewrite weeks_in_year_shift.
  destruct (w <? weeks_in_year y).
  - replace (y' + 400 =? y + 400) with (y' =? y); [reflexivity|].
    destruct (Z.eqb_spec y' y); symmetry; [apply Z.eqb_eq | apply Z.eqb_neq]; lia.
  - replace (y' + 400 =? y + 400 + 1) with (y' =? y + 1); [reflexivity|].
    destruct (Z.eqb_spec y' (y + 1)); symmetry; [apply Z.eqb_eq | apply Z.eqb_neq]; lia.
Qed.

Lemma year_ok_shift (y : Z) : year_ok (y + 400) = year_ok y.
Proof.
  unfold year_ok. rewrite weeks_in_year_shift.
  generalize (Z.to_nat (weeks_in_year y)) 1.
  induction n as [|n IH]; intros z; [reflexivity|].
  cbn [upto]. now rewrite week_ok_shift, IH.
Qed.

Lemma first_period : upto 400 1 year_ok = true.
Proof. vm_compute. reflexivity. Qed.

Lemma year_ok_all (y : Z) : 1 <= y -> year_ok y = true.
Proof.
  intros Hy.
  assert (G : forall k : nat, forall y0, 1 <= y0 <= 400 ->
            year_ok (y0 + 400 * Z.of_nat k) = true).
  { induction k as [|k IH]; intros y0 H0.
    - replace (y0 + 400 * Z.of_nat 0) with y0 by lia.
      apply (upto_spec year_ok 400 1); [exact first_period | lia].
    - replace (y0 + 400 * Z.of_nat (S k)) with (y0 + 400 * Z.of_nat k + 400) by lia.
      rewrite year_ok_shift. now apply IH. }
  pose proof (Z.div_mod (y - 1) 400 ltac:(lia)) as E.
  pose proof (Z.mod_pos_bound (y - 1) 400 ltac:(lia)) as B.
  assert (0 <= (y - 1) / 400) by (apply Z.div_pos; lia).
  replace y with ((y - 1) mod 400 + 1 + 400 * Z.of_nat (Z.to_nat ((y - 1) / 400))) by lia.
  apply G. lia.
Qed.

Lemma weeks_in_year_cases (y : Z) : weeks_in_year y = 52 \/ weeks_in_year y = 53.
Proof. unfold weeks_in_year. destruct (has_week_53 y); auto. Qed.

Lemma week_ok_all (y w : Z) : 1 <= y -> 1 <= w <= weeks_in_year y -> week_ok y w = true.
Proof.
  intros Hy Hw. pose proof (year_ok_all y Hy) as H. unfold year_ok in H.
  apply (upto_spec _ _ 1 w) in H; [exact H|].
  destruct (weeks_in_year_cases y) as [E|E]; rewrite E in *; lia.
Qed.

Lemma split_on_no_sep (sep : ascii) (s : string) :
  forallb (fun c => negb (Ascii.eqb c sep)) (list_ascii_of_string s) = true ->
  split_on sep s = [s].
Proof.
  induction s as [|c s IH]; intros H; [reflexivity|].
  cbn [list_ascii_of_string forallb] in H. apply andb_true_iff in H as [H1 H2].
  cbn [split_on]. destruct (Ascii.eqb c sep); [discriminate|].
  now rewrite IH.
Qed.

Lemma split_on_app (sep : ascii) (a b : string) :
  forallb (fun c => negb (Ascii.eqb c sep)) (list_ascii_of_string a) = true ->
  split_on sep (a ++ String sep b) = a :: split_on sep b.
Proof.
  induction a as [|c a IH]; intros H.
  - change ("" ++ String sep b) with (String sep b).
    cbn [split_on]. now rewrite Ascii.eqb_refl.
  - cbn [list_ascii_of_string forallb] in H. apply andb_true_iff in H as [H1 H2].
    change (String c a ++ String sep b) with (String c (a ++ String sep b)).
    cbn [split_on]. destruct (Ascii.eqb c sep); [discriminate|].
    now rewrite IH.
Qed.

Lemma numbers_checked : upto (Z.to_nat 10001) 0 num_ok = true.
Proof. vm_compute. reflexivity. Qed.

Lemma num_ok_small (z : Z) : 0 <= z <= 10000 -> num_ok z = true.
Proof. intros H. apply (upto_spec num_ok (Z.to_nat 10001) 0); [exact numbers_checked | lia]. Qed.

Lemma parse_label (y w : Z) :
  0 <= y <= 10000 -> 0 <= w <= 10000 -> parse_week_id (week_label y w) = Ok (y, w).
Proof.
  intros Hy Hw.
  pose proof (num_ok_small y Hy) as Ny. pose proof (num_ok_small w Hw) as Nw.
  unfold num_ok in Ny, Nw.
  apply andb_true_iff in Ny as [Ny1 Ny2]. apply andb_true_iff in Nw as [Nw1 Nw2].
  unfold parse_week_id, week_label.
  change ("Week_" ++ str_of_Z y ++ "_" ++ str_of_Z w)
    with ("Week" ++ String "_" (str_of_Z y ++ String "_" (str_of_Z w))).
  rewrite split_on_app by reflexivity.
  rewrite split_on_app by exact Ny2.
  rewrite split_on_no_sep by exact Nw2.
  cbn [length Nat.eqb negb orb nth String.eqb Ascii.eqb Bool.eqb].
  change (String.eqb "Week" "Week") with true. cbn [negb].
  unfold py_int.
  destruct (int_of_str (str_of_Z y)) as [y'|]; [|discriminate].
  destruct (int_of_str (str_of_Z w)) as [w'|]; [|discriminate].
  apply Z.eqb_eq in Ny1, Nw1. subst. reflexivity.
Qed.

Lemma days_before_year_mono (y : Z) :
  1 <= y <= 9998 -> 0 <= _days_before_year y <= 3651329.
Proof. intros H. unfold _days_before_year. Z.div_mod_to_equations. lia. Qed.

Lemma isoweek1monday_bounds (y : Z) :
  _days_before_year y - 2 <= _isoweek1monday y <= _days_before_year y + 4.
Proof.
  unfold _isoweek1monday, _ymd2ord, _days_before_month. cbn [nth Z.to_nat Pos.to_nat Pos.iter_op Init.Nat.add Z.ltb Z.compare Pos.compare Pos.compare_cont andb].
  change (nth (Z.to_nat 1) _DAYS_BEFORE_MONTH 0) with 0.
  pose proof (Z.mod_pos_bound (_days_before_year y + (0 + 0) + 1 + 6) 7 ltac:(lia)).
  destruct (_ <? _) eqn:E; [apply Z.ltb_lt in E | apply Z.ltb_ge in E]; lia.
Qed.

Lemma last_year_monday : _isoweek1monday 9999 = 3651698.
Proof. vm_compute. reflexivity. Qed.

Lemma monday_in_range (y w : Z) :
  valid_week y w -> y < 9999 \/ w < 52 ->
  0 < _isoweek1monday y + (w - 1) * 7 + 7 <= _MAXORDINAL.
Proof.
  intros [Hy Hw] Hlast.
  pose proof (weeks_in_year_cases y) as C.
  pose proof (isoweek1monday_bounds y) as B.
  unfold _MAXORDINAL.
  destruct (Z.eq_dec y 9999) as [E|Hne].
  - pose proof last_year_monday as L. rewrite <- E in L. lia.
  - pose proof (days_before_year_mono y ltac:(lia)). lia.
Qed.

Lemma week_in_range (y w : Z) :
  1 <= w <= weeks_in_year y ->
  negb ((0 <? w) && (w <? 53)) && negb ((w =? 53) && has_week_53 y) = false.
Proof.
  unfold weeks_in_year. intros Hw.
  destruct (Z.ltb_spec w 53) as [L|L].
  - replace (0 <? w) with true by (symmetry; apply Z.ltb_lt; lia). reflexivity.
  - destruct (has_week_53 y); [|lia].
    replace (w =? 53) with true by (symmetry; apply Z.eqb_eq; lia).
    now rewrite andb_false_r.
Qed.

Lemma monday_of_week (y w : Z) :
  valid_week y w ->
  fromisocalendar y w 1 = Ok (_ord2ymd (_isoweek1monday y + (w - 1) * 7)).
Proof.
  intros [Hy Hw]. unfold fromisocalendar, MINYEAR, MAXYEAR.
  replace ((1 <=? y) && (y <=? 9999)) with true
    by (symmetry; apply andb_true_iff; split; apply Z.leb_le; lia).
  rewrite (week_in_range y w Hw).
  cbn [negb Z.ltb Z.compare Pos.compare Pos.compare_cont andb].
  replace ((w - 1) * 7 + (1 - 1)) with ((w - 1) * 7) by lia.
  reflexivity.
Qed.

Lemma week_monday_label (y w : Z) :
  valid_week y w ->
  week_monday (week_label y w) = Ok (_ord2ymd (_isoweek1monday y + (w - 1) * 7)).
Proof.
  intros V. unfold week_monday.
  rewrite (parse_label y w) by (destruct V as [Hy Hw];
    pose proof (weeks_in_year_cases y); lia).
  exact (monday_of_week y w V).
Qed.

Lemma add_week (o : Z) :
  toordinal (_ord2ymd o) = o -> 0 < o + 7 <= _MAXORDINAL ->
  add_days (_ord2ymd o) 7 = Ok (_ord2ymd (o + 7)).
Proof.
  intros E R. unfold add_days, fromordinal. rewrite E.
  replace ((0 <? o + 7) && (o + 7 <=? _MAXORDINAL)) with true; [reflexivity|].
  symmetry; apply andb_true_iff; split; [apply Z.ltb_lt | apply Z.leb_le]; lia.
Qed.

Lemma next_week_id_eq (l : string) (mon nxt : date) (y w d : Z) :
  week_monday l = Ok mon -> add_days mon 7 = Ok nxt -> isocalendar nxt = (y, w, d) ->
  next_week_id l = Ok (week_label y w).
Proof.
  intros H1 H2 H3. unfold next_week_id. rewrite H1. cbn [mbind result_bind].
  rewrite H2. cbn [mbind result_bind]. rewrite H3. reflexivity.
Qed.

Lemma week_ok_inv (y w : Z) :
  week_ok y w = true ->
  toordinal (_ord2ymd (_isoweek1monday y + (w - 1) * 7)) = _isoweek1monday y + (w - 1) * 7 /\
  exists d, isocalendar (_ord2ymd (_isoweek1monday y + (w - 1) * 7 + 7)) =
            (fst (iso_succ (y, w)), snd (iso_succ (y, w)), d).
Proof.
  unfold week_ok. intros K. apply andb_true_iff in K as [K1 K2]. apply Z.eqb_eq in K1.
  split; [exact K1|].
  destruct (isocalendar _) as [[y' w'] d'].
  destruct (iso_succ (y, w)) as [a b].
  apply andb_true_iff in K2 as [K2 K3]. apply Z.eqb_eq in K2, K3. subst.
  now exists d'.
Qed.

Lemma iso_step (y w : Z) :
  valid_week y w -> y < 9999 \/ w < 52 ->
  next_week_id (week_label y w) = Ok (label (iso_succ (y, w))).
Proof.
  intros V Hlast.
  pose proof (monday_in_range y w V Hlast) as R.
  pose proof (week_monday_label y w V) as M.
  destruct V as [Hy Hw].
  destruct (week_ok_inv y w (week_ok_all y w ltac:(lia) Hw)) as [K1 [d K2]].
  exact (next_week_id_eq _ _ _ _ _ _ M (add_week _ K1 R) K2).
Qed.






Lemma iso_succ_valid (y w : Z) :
  valid_week y w -> y < 9999 ->
  valid_week (fst (iso_succ (y, w))) (snd (iso_succ (y, w))) /\
  fst (iso_succ (y, w)) <= y + 1.
Proof.
  intros [Hy Hw] Hl. unfold iso_succ, valid_week.
  destruct (Z.ltb_spec w (weeks_in_year y)); cbn [fst snd].
  - lia.
  - pose proof (weeks_in_year_cases (y + 1)). lia.
Qed.

Lemma advance_spec (n : nat) (y w : Z) (seq : list string) :
  valid_week y w -> y + Z.of_nat n <= 9999 ->
  advance n (week_label y w) seq = Ok (seq ++ map label (iso_from n (iso_succ (y, w))))%list.
Proof.
  revert y w seq; induction n as [|n IH]; intros y w seq V B.
  - cbn [advance iso_from map]. now rewrite app_nil_r.
  - cbn [advance]. rewrite iso_step by (try exact V; lia). cbn [mbind result_bind].
    destruct (iso_succ_valid y w V ltac:(lia)) as [V' B'].
    destruct (iso_succ (y, w)) as [y1 w1] eqn:E. cbn [fst snd] in V', B'.
    unfold label at 1. cbn [fst snd].
    rewrite IH by (try exact V'; lia).
    cbn [iso_from map]. rewrite <- app_assoc. reflexivity.
Qed.

End WeekFacts.

Section WeekClaims.
Import Py datetime utils_time_dual iso_weeks.
#[local] Open Scope Z_scope.




End WeekClaims.

(** ** The schema normalizer *)

Section SchemaFacts.
Import Py acegpt_client.
Context `{RT : PyRuntime}.

#[local] Arguments insert : simpl never.
#[local] Arguments lookup : simpl never.
#[local] Arguments union : simpl never.
#[local] Arguments empty : simpl never.





































End SchemaFacts.

Section DiversifyClaims.
Import Py utils_json_v12 Toy Samples.

(** C10.  A call of [diversify_meals] that returns has written four
    consecutive entries of the pool as meal names, from an offset in
    [0, 8]; the pool has 13 pairwise distinct entries, so the four names
    are non-empty and pairwise distinct. *)
Theorem diversify_names_distinct `{RT : PyRuntime} `{RNG : PyRandom}
    (fuel : nat) (obj : gmap string pyval) (pid week_id : string)
    (persona : gmap string pyval) (last : last_week) (nonce : Z) (r : gmap string pyval) :
  diversify_meals fuel obj pid week_id persona last nonce = Ok r ->
  exists (off : Z) (names : list string),
    (0 <= off <= 8)%Z /\
    names = take 4 (drop (Z.to_nat off) SAUDI_MEAL_NAMES) /\
    map (fun m => r !! (m ++ "_meal")) meals = map (fun n => Some (PStr n)) names /\
    length names = 4%nat /\ NoDup names /\ Forall (fun n => n <> "") names /\
    length SAUDI_MEAL_NAMES = 13%nat /\ NoDup SAUDI_MEAL_NAMES.
Proof.
  intros E.
  apply diversify_shape in E as (T & N & S & -> & (_ & (off & Hoff & ->) & _) & _).
  destruct (window_nodup off Hoff) as (Hnd & Hlen & Hne).
  exists off, (window off). split; [exact Hoff|]. split; [reflexivity|].
  split.
  { cbn [map meals].
    rewrite (diet_map_union_name T _ S obj 0 "1st" eq_refl),
            (diet_map_union_name T _ S obj 1 "2nd" eq_refl),
            (diet_map_union_name T _ S obj 2 "3rd" eq_refl),
            (diet_map_union_name T _ S obj 3 "4th" eq_refl).
    destruct (window off) as [|n0 [|n1 [|n2 [|n3 [|n4 w]]]]]; try discriminate Hlen.
    reflexivity. }
  split; [exact Hlen|]. split; [exact Hnd|]. split; [exact Hne|].
  split; [reflexivity|]. apply (bool_decide_unpack _). vm_compute. reflexivity.
Qed.

Lemma diversify_names_distinct_witness :
  exists r,
    diversify_meals (RNG := toy_rng) 5 ∅ "P01" "2025-W46" persona1 LastNone 0 = Ok r /\
    exists (off : Z) (names : list string),
      (0 <= off <= 8)%Z /\
      names = take 4 (drop (Z.to_nat off) SAUDI_MEAL_NAMES) /\
      map (fun m => r !! (m ++ "_meal")) meals = map (fun n => Some (PStr n)) names /\
      length names = 4%nat /\ NoDup names /\ Forall (fun n => n <> "") names /\
      length SAUDI_MEAL_NAMES = 13%nat /\ NoDup SAUDI_MEAL_NAMES.
Proof.
  destruct (result_is_ok
              (diversify_meals (RNG := toy_rng) 5 ∅ "P01" "2025-W46" persona1 LastNone 0))
    as [r E]; [vm_compute; reflexivity|].
  exists r. split; [exact E|].
  exact (diversify_names_distinct 5 ∅ "P01" "2025-W46" persona1 LastNone 0 r E).
Defined.

(** C3.  A result of [diversify_meals] is not a plan of four identical
    meals: its first two names differ.  It shares neither its four names
    nor its six totals (within 1e-6) with last week's plan, and a call whose
    last week is the very object being rewritten never returns.  A pass that
    is identical or similar is not returned: the call goes on with
    [nonce + 1], one level deeper, and nothing but the depth the
    interpreter allows bounds this. *)
Theorem diversify_result_differs `{RT : PyRuntime} `{RNG : PyRandom}
    (fuel : nat) (obj : gmap string pyval) (pid week_id : string)
    (persona : gmap string pyval) (last : last_week) (nonce : Z) (r : gmap string pyval) :
  diversify_meals fuel obj pid week_id persona last nonce = Ok r ->
  _all_meals_identical r tol_default = Ok false /\
  (exists n1 n2, r !! "1st_meal" = Some (PStr n1) /\ r !! "2nd_meal" = Some (PStr n2) /\
                 n1 <> n2) /\
  (forall b, last_week_value r last = Some b ->
             same_names r b = false /\ close_totals r b tol_default = false) /\
  last <> LastSame /\
  (forall fuel' o,
     diversify_pass obj pid week_id persona nonce = Ok o ->
     _all_meals_identical o tol_default = Ok true \/
     _similar_overview o (last_week_value o last) tol_default = true ->
     diversify_meals (S fuel') obj pid week_id persona last nonce =
     diversify_meals fuel' o pid week_id persona last (nonce + 1)).
Proof.
  intros E.
  apply diversify_shape in E as (T & N & S & -> & Hok & Hsim).
  split; [apply pass_not_identical, Hok|].
  split.
  { destruct Hok as (_ & (off & Hoff & ->) & _).
    exists (nth 0 (window off) ""), (nth 1 (window off) "").
    split; [apply (diet_map_union_name T _ S obj 0 "1st" eq_refl)|].
    split; [apply (diet_map_union_name T _ S obj 1 "2nd" eq_refl)|].
    apply window_first_two, Hoff. }
  split.
  { intros b Hb. rewrite Hb in Hsim. apply not_similar; assumption. }
  split.
  { intros ->. cbn [last_week_value _similar_overview] in Hsim.
    rewrite (diet_map_nonempty T N S obj), (same_names_refl T N S obj) in Hsim.
    discriminate Hsim. }
  intros fuel' o Eo Hrej.
  rewrite diversify_unfold, Eo. cbn [mbind result_bind].
  apply pass_shape in Eo as (T' & N' & S' & _ & -> & Hok').
  rewrite (pass_not_identical T' N' S' obj tol_default Hok') in *.
  cbn [mbind result_bind orb].
  destruct Hrej as [Hrej|Hrej]; [discriminate Hrej|].
  rewrite Hrej. reflexivity.
Qed.

Lemma diversify_result_differs_witness :
  exists r,
    diversify_meals (RNG := toy_rng) 5 ∅ "P01" "2025-W46" persona1 (LastOther last_week1) 0
      = Ok r /\
    _all_meals_identical r tol_default = Ok false /\
    (exists n1 n2, r !! "1st_meal" = Some (PStr n1) /\ r !! "2nd_meal" = Some (PStr n2) /\
                   n1 <> n2) /\
    (forall b, last_week_value r (LastOther last_week1) = Some b ->
               same_names r b = false /\ close_totals r b tol_default = false) /\
    LastOther last_week1 <> LastSame /\
    (forall fuel' o,
       diversify_pass (RNG := toy_rng) ∅ "P01" "2025-W46" persona1 0 = Ok o ->
       _all_meals_identical o tol_default = Ok true \/
       _similar_overview o (last_week_value o (LastOther last_week1)) tol_default = true ->
       diversify_meals (RNG := toy_rng) (S fuel') ∅ "P01" "2025-W46" persona1 (LastOther last_week1) 0 =
       diversify_meals (RNG := toy_rng) fuel' o "P01" "2025-W46" persona1 (LastOther last_week1) (0 + 1)).
Proof.
  destruct (result_is_ok
              (diversify_meals (RNG := toy_rng) 5 ∅ "P01" "2025-W46" persona1
                 (LastOther last_week1) 0))
    as [r E]; [vm_compute; reflexivity|].
  exists r. split; [exact E|].
  exact (diversify_result_differs 5 ∅ "P01" "2025-W46" persona1 (LastOther last_week1) 0 r E).
Defined.

(** C4, as the code has it.  The result depends on the arguments alone,
    and calling again on the rewritten plan returns the same plan.  The
    nonce does not always show in the result: when the pass of [nonce] is
    rejected for being similar to last week, the call returns what the call
    with [nonce + 1] returns. *)
Theorem diversify_rerun_and_nonce `{RT : PyRuntime} `{RNG : PyRandom}
    (fuel : nat) (obj : gmap string pyval) (pid week_id : string)
    (persona : gmap string pyval) (last : last_week) (nonce : Z) (r : gmap string pyval) :
  diversify_meals fuel obj pid week_id persona last nonce = Ok r ->
  diversify_meals fuel r pid week_id persona last nonce = Ok r /\
  (forall fuel' o,
     diversify_pass obj pid week_id persona nonce = Ok o ->
     _similar_overview o (last_week_value o last) tol_default = true ->
     diversify_meals (S fuel') obj pid week_id persona last nonce =
     diversify_meals fuel' obj pid week_id persona last (nonce + 1)).
Proof.
  intros E. split; [apply (diversify_rerun fuel obj), E|].
  intros fuel' o Eo Hsim. apply (diversify_rejected fuel' obj _ _ _ _ _ o); assumption.
Qed.

Lemma diversify_rerun_and_nonce_witness :
  exists r,
    diversify_meals (RNG := toy_rng) 5 ∅ "P01" "2025-W46" persona1 (LastOther last_week1) 0
      = Ok r /\
    diversify_meals (RNG := toy_rng) 5 r "P01" "2025-W46" persona1 (LastOther last_week1) 0
      = Ok r /\
    (forall fuel' o,
       diversify_pass (RNG := toy_rng) ∅ "P01" "2025-W46" persona1 0 = Ok o ->
       _similar_overview o (last_week_value o (LastOther last_week1)) tol_default = true ->
       diversify_meals (RNG := toy_rng) (S fuel') ∅ "P01" "2025-W46" persona1 (LastOther last_week1) 0 =
       diversify_meals (RNG := toy_rng) fuel' ∅ "P01" "2025-W46" persona1 (LastOther last_week1) (0 + 1)).
Proof.
  destruct (result_is_ok
              (diversify_meals (RNG := toy_rng) 5 ∅ "P01" "2025-W46" persona1
                 (LastOther last_week1) 0))
    as [r E]; [vm_compute; reflexivity|].
  exists r. split; [exact E|].
  exact (diversify_rerun_and_nonce 5 ∅ "P01" "2025-W46" persona1 (LastOther last_week1) 0 r E).
Defined.

(** C4, the nonce-sensitivity of the specification fails: last week's plan
    has the names of the first window, the pass of nonce 0 is rejected, and
    the calls with nonce 0 and nonce 1 return the same plan. *)
Lemma diversify_nonce_not_visible :
  exists r,
    diversify_meals (RNG := toy_rng) 5 ∅ "P01" "2025-W46" persona1 (LastOther last_week1) 0
      = Ok r /\
    diversify_meals (RNG := toy_rng) 5 ∅ "P01" "2025-W46" persona1 (LastOther last_week1) 1
      = Ok r.
Proof.
  destruct (result_is_ok (diversify_pass (RNG := toy_rng) ∅ "P01" "2025-W46" persona1 0))
    as [o Eo]; [vm_compute; reflexivity|].
  assert (Hsim : _similar_overview o (Some last_week1) tol_default = true).
  { assert (P : _similar_overview o (Some last_week1) tol_default =
                match diversify_pass (RNG := toy_rng) ∅ "P01" "2025-W46" persona1 0 with
                | Ok o => _similar_overview o (Some last_week1) tol_default
                | Raise _ => false
                end) by (rewrite Eo; reflexivity).
    rewrite P. vm_compute. reflexivity. }
  destruct (result_is_ok
              (diversify_meals (RNG := toy_rng) 4 ∅ "P01" "2025-W46" persona1
                 (LastOther last_week1) 1))
    as [r E]; [vm_compute; reflexivity|].
  exists r. split.
  - rewrite (diversify_rejected 4 ∅ "P01" "2025-W46" persona1 (LastOther last_week1) 0 o Eo Hsim).
    exact E.
  - apply diversify_fuel_mono, E.
Qed.

End DiversifyClaims.

Section NormalizerClaims.
Import Py utils_json_v12 acegpt_client Toy Samples Samples2.
#[local] Open Scope Q_scope.







End NormalizerClaims.

(** * Further properties of the code *)

(** ** The diversifier *)

Section DiversifyMore.
Import Py utils_json_v12.
Context `{RT : PyRuntime} `{RNG : PyRandom}.

#[local] Arguments insert : simpl never.
#[local] Arguments lookup : simpl never.
#[local] Arguments union : simpl never.
#[local] Arguments empty : simpl never.

Lemma diet_map_outside (T : list Q) (N : list string) (S : list (list Q)) (k : string) :
  k ∉ diet_keys -> diet_map T N S !! k = None.
Proof.
  intros H. unfold diet_map, set_meals, set_names, set_totals.
  cbn [foldl zip zip_with seq length fst snd meals mkeys totals].
  cbv [diet_keys totals meals mkeys flat_map map app String.append] in H.
  cbv [String.append].
  repeat (apply not_elem_of_cons in H as [? H]).
  rewrite !lookup_insert_ne by congruence.
  apply lookup_empty.
Qed.


#[local] Open Scope Q_scope.







End DiversifyMore.

Section DiversifyOutcomes.
Import Py utils_json_v12.
Context `{RT : PyRuntime} `{RNG : PyRandom}.

#[local] Arguments insert : simpl never.
#[local] Arguments lookup : simpl never.
#[local] Arguments union : simpl never.
#[local] Arguments empty : simpl never.

Ltac step_split j s g :=
  rewrite !(split_total_names_totals _ _ _ j _ _ eq_refl);
  cbn [mbind result_bind];
  destruct (_split _ _) as [s g].

Lemma window_indexed (off : Z) :
  (0 <= off <= 8)%Z ->
  mapM (fun i => index SAUDI_MEAL_NAMES (off + Z.of_nat i)) (seq 0 4) = Ok (window off).
Proof.
  intros Hoff.
  assert (Hc : (off = 0 \/ off = 1 \/ off = 2 \/ off = 3 \/ off = 4 \/ off = 5 \/
               off = 6 \/ off = 7 \/ off = 8)%Z) by lia.
  destruct Hc as [E|[E|[E|[E|[E|[E|[E|[E|E]]]]]]]]; subst off; vm_compute; reflexivity.
Qed.

Lemma re_totals_returns (obj persona : gmap string pyval) (rnd : rng) (goal : string) :
  py_lower (por (get persona "Primary_goal") (PStr "")) = Ok goal ->
  exists o g, _re_totals_with_jitter obj persona rnd = Ok (o, g).
Proof.
  intros E. unfold _re_totals_with_jitter. rewrite E. cbn [mbind result_bind].
  destruct (_jitter _ _ _) as [kcal rnd1].
  destruct (if contains "muscle" goal then _ else _) as [[p f] rnd2].
  destruct (uniform 24 36 rnd2) as [u1 rnd3].
  destruct (uniform _ _ rnd3) as [u2 rnd4].
  eauto.
Qed.


(** A pass raises only when the goal cannot be lower-cased. *)
Lemma pass_returns (pid week_id : string) (persona : gmap string pyval) (nonce : Z)
    (goal : string) :
  py_lower (por (get persona "Primary_goal") (PStr "")) = Ok goal ->
  exists u, diversify_pass ∅ pid week_id persona nonce = Ok u.
Proof.
  intros Eg. unfold diversify_pass.
  destruct (re_totals_returns ∅ persona
              (Random (_sha_seed (pid ++ "|" ++ week_id ++ "|diet|" ++ str_of_Z nonce)))
              goal Eg) as (o & rnd1 & E).
  rewrite E. cbn [mbind result_bind fst snd].
  apply re_totals_shape in E as (T & ->).
  change (Z.of_nat (length SAUDI_MEAL_NAMES) - 4)%Z with 9%Z.
  destruct (randrange_ok 0 9 rnd1 ltac:(lia)) as (off & rnd2 & -> & Hoff).
  cbn [mbind result_bind].
  rewrite (window_indexed off ltac:(lia)). cbn [mbind result_bind fst snd].
  change (foldl (fun obj it => <[snd it ++ "_meal" := PStr (nth (fst it) (window off) "")]> obj)
                ?o _)
    with (set_names (window off) o).
  step_split 0%nat s0 g0. step_split 1%nat s1 g1. step_split 2%nat s2 g2.
  step_split 3%nat s3 g3. step_split 4%nat s4 g4. step_split 5%nat s5 g5.
  cbn [mbind result_bind]. eauto.
Qed.

Lemma diversify_two_outcomes (fuel : nat) (obj : gmap string pyval) (pid week_id : string)
    (persona : gmap string pyval) (last : last_week) (nonce : Z) (goal : string) :
  py_lower (por (get persona "Primary_goal") (PStr "")) = Ok goal ->
  (exists r, diversify_meals fuel obj pid week_id persona last nonce = Ok r) \/
  diversify_meals fuel obj pid week_id persona last nonce = Raise RecursionError.
Proof.
  intros Eg. revert obj nonce. induction fuel as [|fuel IH]; intros obj nonce; [right; reflexivity|].
  rewrite diversify_unfold, pass_frame.
  destruct (pass_returns pid week_id persona nonce goal Eg) as [u E].
  rewrite E. cbn [mbind result_bind].
  apply pass_inv in E as (T & N & S & -> & Hok).
  rewrite (pass_not_identical T N S obj tol_default Hok).
  cbn [mbind result_bind orb].
  destruct (_similar_overview _ _ _); [apply IH | left; eauto].
Qed.


End DiversifyOutcomes.

Section DiversifyExtras.
Import Py utils_json_v12 Toy Samples.
#[local] Open Scope Q_scope.

#[local] Arguments insert : simpl never.
#[local] Arguments lookup : simpl never.
#[local] Arguments union : simpl never.
#[local] Arguments empty : simpl never.



(** X2.  [diversify_meals] reads nothing of the plan it is given: its result
    is the plan it returns for the empty dict, laid over the input.  The 34
    total, name and meal fields come from the call alone, every other key
    of the input is kept, and any other input plan gets the same 34 fields. *)
Theorem diversify_overlays_input `{RT : PyRuntime} `{RNG : PyRandom}
    (fuel : nat) (obj : gmap string pyval) (pid week_id : string)
    (persona : gmap string pyval) (last : last_week) (nonce : Z) (r : gmap string pyval) :
  diversify_meals fuel obj pid week_id persona last nonce = Ok r ->
  exists u,
    diversify_meals fuel ∅ pid week_id persona last nonce = Ok u /\
    r = u ∪ obj /\
    (forall k, k ∈ diet_keys -> r !! k = u !! k /\ is_Some (u !! k)) /\
    (forall k, k ∉ diet_keys -> r !! k = obj !! k) /\
    (forall obj', diversify_meals fuel obj' pid week_id persona last nonce = Ok (u ∪ obj')).
Proof.
  intros E. rewrite (diversify_frame fuel obj) in E.
  destruct (diversify_meals fuel ∅ pid week_id persona last nonce) as [u|e] eqn:Eu;
    cbn [mbind result_bind] in E; [|discriminate E].
  injection E as <-. exists u. split; [reflexivity|]. split; [reflexivity|].
  pose proof Eu as Eu'.
  apply diversify_shape in Eu' as (T & N & S & Hu & _ & _).
  rewrite (right_id_L ∅ (∪)) in Hu. subst u.
  split; [|split].
  - intros k Hk.
    assert (Hs : is_Some (diet_map T N S !! k)).
    { destruct (diet_keys_cases k Hk)
        as [(j & Hj)|[(i & m & Hm & ->)|(i & j & m & mk & Hm & Hmk & ->)]].
      - rewrite (diet_map_total T N S j k Hj). eauto.
      - rewrite (diet_map_name T N S i m Hm). eauto.
      - rewrite (diet_map_meal T N S i j m mk Hm Hmk). eauto. }
    split; [|exact Hs]. destruct Hs as [v Hv].
    rewrite Hv. apply lookup_union_Some_l, Hv.
  - intros k Hk. apply lookup_union_r, diet_map_outside, Hk.
  - intros obj'. rewrite (diversify_frame fuel obj'), Eu. reflexivity.
Qed.

Lemma diversify_overlays_input_witness :
  exists r,
    diversify_meals (RNG := toy_rng) 5 last_week1 "P01" "2025-W46" persona1 LastNone 0 = Ok r /\
    exists u,
      diversify_meals (RNG := toy_rng) 5 ∅ "P01" "2025-W46" persona1 LastNone 0 = Ok u /\
      r = u ∪ last_week1 /\
      (forall k, k ∈ diet_keys -> r !! k = u !! k /\ is_Some (u !! k)) /\
      (forall k, k ∉ diet_keys -> r !! k = last_week1 !! k) /\
      (forall obj', diversify_meals (RNG := toy_rng) 5 obj' "P01" "2025-W46" persona1
                      LastNone 0 = Ok (u ∪ obj')).
Proof.
  destruct (result_is_ok
              (diversify_meals (RNG := toy_rng) 5 last_week1 "P01" "2025-W46" persona1
                 LastNone 0))
    as [r E]; [vm_compute; reflexivity|].
  exists r. split; [exact E|].
  exact (diversify_overlays_input 5 last_week1 "P01" "2025-W46" persona1 LastNone 0 r E).
Defined.




End DiversifyExtras.

(** ** The weekly simulators, further properties *)

Section RoundAgain.
Import Py.
#[local] Open Scope Q_scope.

Lemma Qle_bool_eq (a b c d : Q) : a == c -> b == d -> Qle_bool a b = Qle_bool c d.
Proof.
  intros E1 E2.
  destruct (Qle_bool a b) eqn:H1, (Qle_bool c d) eqn:H2; try reflexivity.
  - apply Qle_bool_iff in H1. rewrite E1, E2 in H1. apply Qle_bool_iff in H1. congruence.
  - apply Qle_bool_iff in H2. rewrite <- E1, <- E2 in H2. apply Qle_bool_iff in H2. congruence.
Qed.

Lemma round_half_even_eq (p q : Q) : p == q -> round_half_even p = round_half_even q.
Proof.
  intros E. unfold round_half_even, Qlt_bool.
  rewrite (Qfloor_comp _ _ E).
  assert (E2 : p - inject_Z (Qfloor q) == q - inject_Z (Qfloor q)) by (rewrite E; reflexivity).
  rewrite (Qle_bool_eq _ _ _ _ (Qeq_refl (1#2)) E2).
  rewrite (Qle_bool_eq _ _ _ _ E2 (Qeq_refl (1#2))).
  reflexivity.
Qed.

Lemma round_nd_fixed (n : nat) (x : Q) : round_nd n (round_nd n x) = round_nd n x.
Proof.
  unfold round_nd at 1 3. f_equal. f_equal.
  unfold round_nd.
  rewrite (round_half_even_eq _ (inject_Z (round_half_even (x * pow10 n)))).
  - apply round_half_even_Z.
  - pose proof (pow10_pos n). field. lra.
Qed.

End RoundAgain.

Section Week1More.
Import Py utils_sim_dual.
Context `{RT : PyRuntime} `{RNG : PyRandom}.
#[local] Open Scope Q_scope.

Ltac lit z := exists z; reflexivity.




End Week1More.

Section FallbackMore.
Import Py claude_client_v12 year_orchestrator_v12.
Context `{RT : PyRuntime} `{RNG : PyRandom}.
#[local] Open Scope Q_scope.

Ltac lit z := exists z; reflexivity.

Ltac bound H :=
  match type of H with
  | context [@mbind _ _ _ _ _ ?r] =>
      destruct r; cbn [mbind result_bind] in H; [|discriminate H]
  end.

(** What a log of the fallback is made of. *)
Lemma fallback_inv (now : string * string) (persona diet : gmap string pyval)
    (workouts_ids : list string) (pid week_id : string) (salt : Z) (log : WeeklyLog) :
  simulate_week_with_claude_fallback now persona diet workouts_ids pid week_id salt = Ok log ->
  exists pre_w pre_m pre_f adher kcal sleep0 u0 u3 : Q,
    (float_or persona "Weight_kg" 75.0 = Ok pre_w /\
     float_or persona "Muscle_mass_kg" 30.0 = Ok pre_m /\
     float_or persona "Fat_percent" 25.0 = Ok pre_f /\
     float_or persona "Adherence_propensity" 0.65 = Ok adher /\
     float_or diet "Total_kcal_target_kcal" 2000.0 = Ok kcal /\
     float_or persona "Sleep_hours" 7.0 = Ok sleep0) /\
    (-60 <= u0 /\ u0 <= 60 /\ -0.25 <= u3 /\ u3 <= 0.25) /\
    (Date log = fst now /\ Time_ log = snd now) /\
    (Pre_weight_kg log = round_nd 2 pre_w /\ Pre_muscle_kg log = round_nd 2 pre_m /\
     Pre_fat_pct log = round_nd 2 pre_f) /\
    daily_avg_kcal log = round_nd 1 (kcal * (0.82 + 0.38 * adher) + u0) /\
    sleep_avg_hours log = round_nd 2 (sleep0 + (0.2 * (adher - 0.5)) + u3) /\
    (round_nd 2 (Post_weight_kg log) = Post_weight_kg log /\
     round_nd 2 (Post_muscle_kg log) = Post_muscle_kg log /\
     round_nd 2 (Post_fat_pct log) = Post_fat_pct log) /\
    _mk_feedback pid week_id persona diet workouts_ids salt = Ok (free_text_feedback log) /\
    _mk_notes pid week_id persona diet salt = Ok (notes log).
Proof.
  unfold simulate_week_with_claude_fallback. destruct now as [date_str time_str].
  intros H.
  destruct (float_or persona "Weight_kg" 75.0) as [pre_w|]; cbn [mbind result_bind] in H;
    [|discriminate H].
  destruct (float_or persona "Muscle_mass_kg" 30.0) as [pre_m|]; cbn [mbind result_bind] in H;
    [|discriminate H].
  destruct (float_or persona "Fat_percent" 25.0) as [pre_f|]; cbn [mbind result_bind] in H;
    [|discriminate H].
  destruct (float_or persona "Adherence_propensity" 0.65) as [adher|] eqn:Ea;
    cbn [mbind result_bind] in H; [|discriminate H].
  destruct (py_int _) as [days|]; cbn [mbind result_bind] in H; [|discriminate H].
  destruct (float_or diet "Total_kcal_target_kcal" 2000.0) as [kcal|];
    cbn [mbind result_bind] in H; [|discriminate H].
  pose proof (uniform_bounds (-60) 60 (_rng pid week_id salt) ltac:(lra)) as [U1 U2].
  destruct (uniform (-60) 60 _) as [u0 g0]. cbn [fst] in U1, U2.
  destruct (lower_or_empty persona "Primary_goal") as [goal|]; cbn [mbind result_bind] in H;
    [|discriminate H].
  exists pre_w, pre_m, pre_f, adher, kcal.
  destruct (contains "fat" goal); [|destruct (contains "muscle" goal)];
    (destruct (uniform _ _ g0) as [u1 g1]);
    (destruct (uniform _ _ g1) as [u2 g2]);
    (destruct (float_or persona "Sleep_hours" 7.0) as [sleep0|]; cbn [mbind result_bind] in H;
       [|discriminate H]);
    (pose proof (uniform_bounds (-0.25) 0.25 g2 ltac:(lra)) as [U3 U4]);
    (destruct (uniform (-0.25) 0.25 g2) as [u3 g3]); cbn [fst] in U3, U4;
    (destruct (_mk_feedback _ _ _ _ _ _) as [fb|]; cbn [mbind result_bind] in H;
       [|discriminate H]);
    (destruct (_mk_notes _ _ _ _ _) as [nt|]; cbn [mbind result_bind] in H;
       [|discriminate H]);
    injection H as <-;
    exists sleep0, u0, u3;
    cbn [Date Time_ notes free_text_feedback daily_avg_kcal sleep_avg_hours
         Pre_weight_kg Pre_muscle_kg Pre_fat_pct Post_weight_kg Post_muscle_kg Post_fat_pct
         fst snd];
    (split; [repeat split; reflexivity|]);
    (split; [repeat split; assumption|]);
    (split; [split; reflexivity|]);
    (split; [repeat split; reflexivity|]);
    (split; [reflexivity|]);
    (split; [reflexivity|]);
    (split; [repeat split; apply round_nd_fixed|]);
    split; reflexivity.
Qed.

End FallbackMore.

Section FallbackRaises.
Import Py claude_client_v12.
Context `{RT : PyRuntime} `{RNG : PyRandom}.
#[local] Open Scope Q_scope.




End FallbackRaises.

Section SimulatorExtras.
Import Py claude_client_v12 utils_sim_dual year_orchestrator_v12 Toy Samples3.
#[local] Open Scope Q_scope.



(** X7.  The yearly loop turns the fallback's log into the next persona
    through [build_updated_persona] and tags it with the persona's ID.  A
    fallback log made from that persona starts at the fat percentage the
    previous log ended with, and at its weight and muscle mass unless that
    value is exactly 0, which the fallback replaces by its default of 75 kg
    or 30 kg. *)
Theorem fallback_carries_over `{RT : PyRuntime} `{RNG : PyRandom}
    (now now' : string * string) (persona diet diet' : gmap string pyval)
    (workouts_ids workouts_ids' : list string) (pid week_id pid' week_id' : string)
    (salt salt' : Z) (log log' : WeeklyLog) :
  simulate_week_with_claude_fallback now persona diet workouts_ids pid week_id salt = Ok log ->
  simulate_week_with_claude_fallback now'
    (<["ID" := PStr pid']> (build_updated_persona persona (weekly_log_dict log)))
    diet' workouts_ids' pid' week_id' salt' = Ok log' ->
  Pre_fat_pct log' = Post_fat_pct log /\
  (~ Post_weight_kg log == 0 -> Pre_weight_kg log' = Post_weight_kg log) /\
  (Post_weight_kg log == 0 -> Pre_weight_kg log' == 75) /\
  (~ Post_muscle_kg log == 0 -> Pre_muscle_kg log' = Post_muscle_kg log) /\
  (Post_muscle_kg log == 0 -> Pre_muscle_kg log' == 30).
Proof.
  intros E E'.
  pose proof (fallback_spec _ _ _ _ _ _ _ _ E) as (_ & (F1 & F2) & _).
  apply fallback_inv in E
    as (? & ? & ? & ? & ? & ? & ? & ? & _ & _ & _ & _ & _ & _ & (R1 & R2 & R3) & _).
  apply fallback_inv in E'
    as (w & m & f & ? & ? & ? & ? & ? & (Ew & Em & Ef & _) & _ & _ & (P1 & P2 & P3) & _).
  unfold float_or, get2 in Ew, Em, Ef.
  change (<["ID" := PStr pid']> (build_updated_persona persona (weekly_log_dict log))
            !! "Weight_kg"%string)
    with (Some (PFloat (Post_weight_kg log))) in Ew.
  change (<["ID" := PStr pid']> (build_updated_persona persona (weekly_log_dict log))
            !! "Muscle_mass_kg"%string)
    with (Some (PFloat (Post_muscle_kg log))) in Em.
  change (<["ID" := PStr pid']> (build_updated_persona persona (weekly_log_dict log))
            !! "Fat_percent"%string)
    with (Some (PFloat (Post_fat_pct log))) in Ef.
  cbn [default from_option id] in Ew, Em, Ef.
  unfold por in Ew, Em, Ef. cbn [truthy] in Ew, Em, Ef.
  rewrite P1, P2, P3.
  split; [|split; [|split; [|split]]].
  - destruct (Qeq_bool (Post_fat_pct log) 0) eqn:Z.
    + apply Qeq_bool_iff in Z. rewrite Z in F1. lra.
    + cbn [negb py_float] in Ef. injection Ef as <-. exact R3.
  - intros Hz. destruct (Qeq_bool (Post_weight_kg log) 0) eqn:Z.
    + apply Qeq_bool_iff in Z. contradiction.
    + cbn [negb py_float] in Ew. injection Ew as <-. exact R1.
  - intros Hz. apply Qeq_bool_iff in Hz. rewrite Hz in Ew.
    cbn [negb py_float] in Ew. injection Ew as <-. reflexivity.
  - intros Hz. destruct (Qeq_bool (Post_muscle_kg log) 0) eqn:Z.
    + apply Qeq_bool_iff in Z. contradiction.
    + cbn [negb py_float] in Em. injection Em as <-. exact R2.
  - intros Hz. apply Qeq_bool_iff in Hz. rewrite Hz in Em.
    cbn [negb py_float] in Em. injection Em as <-. reflexivity.
Qed.

Lemma fallback_carries_over_witness :
  exists log log',
    simulate_week_with_claude_fallback (RNG := toy_rng) ("2025-11-10", "09:00:00") lean ∅ []
      "P01" "Week_2025_46" 0 = Ok log /\
    simulate_week_with_claude_fallback (RNG := toy_rng) ("2025-11-17", "09:00:00")
      (<["ID" := PStr "P01"]> (build_updated_persona lean (weekly_log_dict log))) ∅ []
      "P01" "Week_2025_47" 0 = Ok log' /\
    Pre_fat_pct log' = Post_fat_pct log /\
    (~ Post_weight_kg log == 0 -> Pre_weight_kg log' = Post_weight_kg log) /\
    (Post_weight_kg log == 0 -> Pre_weight_kg log' == 75) /\
    (~ Post_muscle_kg log == 0 -> Pre_muscle_kg log' = Post_muscle_kg log) /\
    (Post_muscle_kg log == 0 -> Pre_muscle_kg log' == 30).
Proof.
  eexists. eexists.
  split; [vm_compute; reflexivity|]. split; [vm_compute; reflexivity|].
  apply (fallback_carries_over (RNG := toy_rng) ("2025-11-10", "09:00:00")
           ("2025-11-17", "09:00:00") lean ∅ ∅ [] [] "P01" "Week_2025_46" "P01"
           "Week_2025_47" 0 0);
    vm_compute; reflexivity.
Defined.





End SimulatorExtras.

(** ** Week identifiers, further properties *)

Section MondayFacts.
Import Py datetime utils_time_dual iso_weeks year_orchestrator_v12 iso_mondays.
#[local] Open Scope Z_scope.

Lemma monday_ok_shift (y w : Z) : monday_ok (y + 400) w = monday_ok y w.
Proof.
  unfold monday_ok, monday. cbn [fst snd].
  rewrite isoweek1monday_shift.
  replace (_isoweek1monday y + 146097 + (w - 1) * 7)
    with (_isoweek1monday y + (w - 1) * 7 + 146097) by lia.
  rewrite ord2ymd_shift, isocalendar_shift.
  destruct (isocalendar _) as [[y' w'] d'].
  replace (y' + 400 =? y + 400) with (y' =? y); [reflexivity|].
  destruct (Z.eqb_spec y' y); symmetry; [apply Z.eqb_eq | apply Z.eqb_neq]; lia.
Qed.

Lemma year_len_ok_shift (y : Z) : year_len_ok (y + 400) = year_len_ok y.
Proof.
  unfold year_len_ok.
  replace (y + 400 + 1) with (y + 1 + 400) by lia.
  rewrite !isoweek1monday_shift, weeks_in_year_shift.
  destruct (Z.eqb_spec (_isoweek1monday (y + 1)) (_isoweek1monday y + 7 * weeks_in_year y));
    [apply Z.eqb_eq | apply Z.eqb_neq]; lia.
Qed.

Lemma year_mondays_ok_shift (y : Z) : year_mondays_ok (y + 400) = year_mondays_ok y.
Proof.
  unfold year_mondays_ok. rewrite weeks_in_year_shift, year_len_ok_shift. f_equal.
  generalize (Z.to_nat (weeks_in_year y)) 1.
  induction n as [|n IH]; intros z; [reflexivity|].
  cbn [upto]. now rewrite monday_ok_shift, IH.
Qed.

Lemma first_period_mondays : upto 400 1 year_mondays_ok = true.
Proof. vm_compute. reflexivity. Qed.

Lemma year_mondays_ok_all (y : Z) : 1 <= y -> year_mondays_ok y = true.
Proof.
  intros Hy.
  assert (G : forall k : nat, forall y0, 1 <= y0 <= 400 ->
            year_mondays_ok (y0 + 400 * Z.of_nat k) = true).
  { induction k as [|k IH]; intros y0 H0.
    - replace (y0 + 400 * Z.of_nat 0) with y0 by lia.
      apply (upto_spec year_mondays_ok 400 1); [exact first_period_mondays | lia].
    - replace (y0 + 400 * Z.of_nat (S k)) with (y0 + 400 * Z.of_nat k + 400) by lia.
      rewrite year_mondays_ok_shift. now apply IH. }
  pose proof (Z.div_mod (y - 1) 400 ltac:(lia)) as E.
  pose proof (Z.mod_pos_bound (y - 1) 400 ltac:(lia)) as B.
  assert (0 <= (y - 1) / 400) by (apply Z.div_pos; lia).
  replace y with ((y - 1) mod 400 + 1 + 400 * Z.of_nat (Z.to_nat ((y - 1) / 400))) by lia.
  apply G. lia.
Qed.

Lemma monday_ok_inv (y w : Z) :
  monday_ok y w = true -> isocalendar (_ord2ymd (monday (y, w))) = (y, w, 1).
Proof.
  unfold monday_ok. destruct (isocalendar _) as [[y' w'] d']. intros K.
  apply andb_true_iff in K as [K K3]. apply andb_true_iff in K as [K1 K2].
  apply Z.eqb_eq in K1. apply Z.eqb_eq in K2. apply Z.eqb_eq in K3.
  subst y' w' d'. reflexivity.
Qed.

Lemma year_mondays_ok_inv (y : Z) :
  year_mondays_ok y = true ->
  upto (Z.to_nat (weeks_in_year y)) 1 (monday_ok y) = true /\ year_len_ok y = true.
Proof. unfold year_mondays_ok. intros H. apply andb_true_iff in H. exact H. Qed.

Lemma monday_is_monday (y w : Z) :
  valid_week y w -> isocalendar (_ord2ymd (monday (y, w))) = (y, w, 1).
Proof.
  intros [Hy Hw].
  destruct (year_mondays_ok_inv y (year_mondays_ok_all y ltac:(lia))) as [H _].
  assert (R : 1 <= w < 1 + Z.of_nat (Z.to_nat (weeks_in_year y)))
    by (destruct (weeks_in_year_cases y) as [E|E]; rewrite E in *; lia).
  exact (monday_ok_inv y w (upto_spec _ _ 1 w H R)).
Qed.

Lemma year_len_ok_inv (y : Z) :
  year_len_ok y = true -> _isoweek1monday (y + 1) = _isoweek1monday y + 7 * weeks_in_year y.
Proof. unfold year_len_ok. intros H. apply Z.eqb_eq in H. exact H. Qed.

Lemma year_length (y : Z) :
  1 <= y -> _isoweek1monday (y + 1) = _isoweek1monday y + 7 * weeks_in_year y.
Proof.
  intros Hy.
  destruct (year_mondays_ok_inv y (year_mondays_ok_all y Hy)) as [_ H].
  exact (year_len_ok_inv y H).
Qed.

Lemma monday_succ (y w : Z) :
  valid_week y w -> monday (iso_succ (y, w)) = monday (y, w) + 7.
Proof.
  intros [Hy Hw]. unfold iso_succ, monday.
  destruct (Z.ltb_spec w (weeks_in_year y)); cbn [fst snd]; [lia|].
  rewrite (year_length y) by lia. lia.
Qed.

Lemma monday_ordinal (y w : Z) :
  valid_week y w -> toordinal (_ord2ymd (monday (y, w))) = monday (y, w).
Proof.
  intros [Hy Hw].
  destruct (week_ok_inv y w (week_ok_all y w ltac:(lia) Hw)) as [K _].
  unfold monday. cbn [fst snd]. exact K.
Qed.

End MondayFacts.

Section SequenceFacts.
Import Py datetime utils_time_dual iso_weeks year_orchestrator_v12 iso_mondays.
#[local] Open Scope Z_scope.

Lemma split_label (y w : Z) :
  0 <= y <= 10000 -> 0 <= w <= 10000 ->
  split_on "_" (week_label y w) = ["Week"; str_of_Z y; str_of_Z w]%string /\
  py_int (PStr (str_of_Z y)) = Ok y /\ py_int (PStr (str_of_Z w)) = Ok w.
Proof.
  intros Hy Hw.
  pose proof (num_ok_small y Hy) as Ny. pose proof (num_ok_small w Hw) as Nw.
  unfold num_ok in Ny, Nw.
  apply andb_true_iff in Ny as [Ny1 Ny2]. apply andb_true_iff in Nw as [Nw1 Nw2].
  split; [|split].
  - unfold week_label.
    change ("Week_" ++ str_of_Z y ++ "_" ++ str_of_Z w)%string
      with ("Week" ++ String "_" (str_of_Z y ++ String "_" (str_of_Z w)))%string.
    rewrite split_on_app by reflexivity.
    rewrite split_on_app by exact Ny2.
    rewrite split_on_no_sep by exact Nw2. reflexivity.
  - unfold py_int. destruct (int_of_str (str_of_Z y)) as [y'|]; [|discriminate].
    apply Z.eqb_eq in Ny1. now subst.
  - unfold py_int. destruct (int_of_str (str_of_Z w)) as [w'|]; [|discriminate].
    apply Z.eqb_eq in Nw1. now subst.
Qed.

Lemma week_to_monday_label (y w : Z) :
  valid_week y w -> _week_to_monday (week_label y w) = Ok (_ord2ymd (monday (y, w))).
Proof.
  intros V. pose proof V as [Hy Hw]. pose proof (weeks_in_year_cases y) as C.
  destruct (split_label y w ltac:(lia) ltac:(lia)) as (E1 & E2 & E3).
  unfold _week_to_monday. rewrite E1, E2. cbn [mbind result_bind]. rewrite E3.
  cbn [mbind result_bind]. exact (monday_of_week y w V).
Qed.

Lemma pads_checked : upto 100 0 pad_ok = true.
Proof. vm_compute. reflexivity. Qed.

Lemma split_padded (y w : Z) :
  0 <= y <= 10000 -> 0 <= w <= 99 ->
  split_on "_" (padded_label (y, w)) = ["Week"; str_of_Z y; format_02d w]%string /\
  py_int (PStr (format_02d w)) = Ok w.
Proof.
  intros Hy Hw.
  pose proof (num_ok_small y Hy) as Ny. unfold num_ok in Ny.
  apply andb_true_iff in Ny as [Ny1 Ny2].
  pose proof (upto_spec pad_ok 100 0 w pads_checked ltac:(lia)) as Nw. unfold pad_ok in Nw.
  apply andb_true_iff in Nw as [Nw1 Nw2].
  split.
  - unfold padded_label. cbn [fst snd].
    change ("Week_" ++ str_of_Z y ++ "_" ++ format_02d w)%string
      with ("Week" ++ String "_" (str_of_Z y ++ String "_" (format_02d w)))%string.
    rewrite split_on_app by reflexivity.
    rewrite split_on_app by exact Ny2.
    rewrite split_on_no_sep by exact Nw2. reflexivity.
  - unfold py_int. destruct (int_of_str (format_02d w)) as [w'|]; [|discriminate].
    apply Z.eqb_eq in Nw1. now subst.
Qed.

Lemma parse_padded (y w : Z) :
  0 <= y <= 10000 -> 0 <= w <= 99 -> parse_week_id (padded_label (y, w)) = Ok (y, w).
Proof.
  intros Hy Hw.
  destruct (split_padded y w Hy Hw) as [E1 E2].
  destruct (split_label y 0 Hy ltac:(lia)) as (_ & E3 & _).
  unfold parse_week_id. rewrite E1.
  cbn [length Nat.eqb negb orb nth].
  change (String.eqb "Week" "Week") with true. cbn [negb].
  rewrite E3. cbn [mbind result_bind]. rewrite E2. reflexivity.
Qed.

Lemma length_append (a b : string) :
  String.length (a ++ b) = (String.length a + String.length b)%nat.
Proof.
  induction a as [|c a IH]; [reflexivity|].
  change (S (String.length (a ++ b)) = S (String.length a + String.length b)).
  now rewrite IH.
Qed.

Lemma padded_differs (y w : Z) : 0 <= w < 10 -> padded_label (y, w) <> week_label y w.
Proof.
  intros Hw E. apply (f_equal String.length) in E.
  unfold padded_label, week_label in E. cbn [fst snd] in E.
  rewrite !length_append in E.
  assert (L : String.length (format_02d w) = S (String.length (str_of_Z w))).
  { assert (C : w = 0 \/ w = 1 \/ w = 2 \/ w = 3 \/ w = 4 \/ w = 5 \/ w = 6 \/ w = 7 \/
                w = 8 \/ w = 9) by lia.
    repeat (destruct C as [->|C]; [reflexivity|]). subst w. reflexivity. }
  rewrite L in E. lia.
Qed.

Lemma padded_same (y w : Z) : 10 <= w <= 99 -> padded_label (y, w) = week_label y w.
Proof.
  intros Hw. unfold padded_label, week_label, format_02d. cbn [fst snd].
  pose proof (upto_spec (fun z => (z <? 10) || negb (String.length (str_of_Z z) <? 2)%nat)
                100 0 w ltac:(vm_compute; reflexivity) ltac:(lia)) as H.
  cbv beta in H. apply orb_true_iff in H as [H|H]; [apply Z.ltb_lt in H; lia|].
  apply negb_true_iff in H. rewrite H. reflexivity.
Qed.

Lemma iso_iter_succ (n : nat) (a : Z * Z) : iso_iter (S n) a = iso_succ (iso_iter n a).
Proof. revert a; induction n as [|n IH]; intros a; [reflexivity|]. cbn [iso_iter] in *. now rewrite IH. Qed.

Lemma iso_iter_valid (n : nat) (y w : Z) :
  valid_week y w -> y + Z.of_nat n <= 9999 ->
  valid_week (fst (iso_iter n (y, w))) (snd (iso_iter n (y, w))) /\
  fst (iso_iter n (y, w)) <= y + Z.of_nat n.
Proof.
  induction n as [|n IH]; intros V B; [cbn [iso_iter fst snd]; split; [exact V | lia]|].
  rewrite iso_iter_succ. destruct (IH V ltac:(lia)) as [V' B'].
  destruct (iso_iter n (y, w)) as [y1 w1]. cbn [fst snd] in V', B'.
  destruct (iso_succ_valid y1 w1 V' ltac:(lia)) as [V2 B2]. split; [exact V2 | lia].
Qed.

Lemma iso_iter_monday (n : nat) (y w : Z) :
  valid_week y w -> y + Z.of_nat n <= 9999 ->
  monday (iso_iter n (y, w)) = monday (y, w) + 7 * Z.of_nat n.
Proof.
  induction n as [|n IH]; intros V B; [cbn [iso_iter]; lia|].
  rewrite iso_iter_succ.
  destruct (iso_iter_valid n y w V ltac:(lia)) as [V' _].
  specialize (IH V ltac:(lia)).
  destruct (iso_iter n (y, w)) as [y1 w1]. cbn [fst snd] in V'.
  rewrite (monday_succ y1 w1 V'), IH. lia.
Qed.

Lemma monday_positive (y w : Z) : valid_week y w -> 0 < monday (y, w).
Proof.
  intros [Hy Hw]. unfold monday. cbn [fst snd].
  destruct (Z.eq_dec y 1) as [->|Hne].
  - change (_isoweek1monday 1) with 1. lia.
  - pose proof (isoweek1monday_bounds y) as B.
    assert (365 <= _days_before_year y)
      by (unfold _days_before_year; Z.div_mod_to_equations; lia).
    lia.
Qed.

Lemma week_loop_spec (k : nat) (j : nat) (y w : Z) (weeks : list string) :
  valid_week y w -> y + Z.of_nat j + Z.of_nat k < 9999 ->
  week_loop (_ord2ymd (monday (y, w))) (Z.of_nat j) k weeks =
    Ok (weeks ++ map padded_label (iso_from k (iso_iter j (y, w))))%list.
Proof.
  revert j weeks; induction k as [|k IH]; intros j weeks V B.
  - cbn [week_loop iso_from map]. now rewrite app_nil_r.
  - cbn [week_loop].
    destruct (iso_iter_valid j y w V ltac:(lia)) as [Vj Bj].
    pose proof (iso_iter_monday j y w V ltac:(lia)) as Mj.
    destruct (iso_iter j (y, w)) as [y1 w1] eqn:Ej. cbn [fst snd] in Vj, Bj.
    pose proof (monday_positive y1 w1 Vj) as P.
    pose proof (monday_in_range y1 w1 Vj ltac:(lia)) as R.
    change (_isoweek1monday y1 + (w1 - 1) * 7) with (monday (y1, w1)) in R.
    unfold add_days, fromordinal. rewrite (monday_ordinal y w V), <- Mj.
    replace ((0 <? monday (y1, w1)) && (monday (y1, w1) <=? _MAXORDINAL)) with true
      by (symmetry; apply andb_true_iff; split; [apply Z.ltb_lt | apply Z.leb_le]; lia).
    cbn [mbind result_bind].
    unfold _week_from_date. rewrite (monday_is_monday y1 w1 Vj).
    change ("Week_" ++ str_of_Z y1 ++ "_" ++ format_02d w1)%string with (padded_label (y1, w1)).
    replace (Z.of_nat j + 1) with (Z.of_nat (S j)) by lia.
    rewrite IH by (try exact V; lia).
    rewrite iso_iter_succ, Ej. cbn [iso_from map]. rewrite <- app_assoc. reflexivity.
Qed.

Lemma week_sequence_spec (y w : Z) (n : nat) (include_start : bool) :
  valid_week y w -> y + Z.of_nat n < 9998 ->
  week_sequence (week_label y w) (Z.of_nat n) include_start =
    Ok (map padded_label (iso_from n (if include_start then (y, w) else iso_succ (y, w)))).
Proof.
  intros V B. unfold week_sequence. rewrite (week_to_monday_label y w V).
  cbn [mbind result_bind]. rewrite Nat2Z.id.
  destruct include_start.
  - exact (week_loop_spec n 0 y w [] V ltac:(lia)).
  - exact (week_loop_spec n 1 y w [] V ltac:(lia)).
Qed.

Lemma week_id_sequence_spec (y w : Z) (n : nat) (include_start : bool) :
  valid_week y w -> y + Z.of_nat n <= 9999 ->
  week_id_sequence (week_label y w) (Z.of_nat n) include_start =
    Ok (map label (iso_from n (if include_start then (y, w) else iso_succ (y, w)))).
Proof.
  intros V B. unfold week_id_sequence.
  destruct n as [|n]; [reflexivity|].
  replace (Z.of_nat (S n) <=? 0) with false by (symmetry; apply Z.leb_gt; lia).
  destruct include_start.
  - replace (Z.to_nat (Z.of_nat (S n) - 1)) with n by lia.
    rewrite advance_spec by (try exact V; lia). reflexivity.
  - replace (Z.to_nat (Z.of_nat (S n) - 0)) with (S n) by lia.
    rewrite advance_spec by (try exact V; lia). reflexivity.
Qed.

Lemma iso_from_valid (n : nat) (y w : Z) :
  valid_week y w -> y + Z.of_nat n <= 9999 ->
  Forall (fun yw => valid_week (fst yw) (snd yw) /\ fst yw <= y + Z.of_nat n) (iso_from n (y, w)).
Proof.
  revert y w; induction n as [|n IH]; intros y w V B; cbn [iso_from]; constructor.
  - cbn [fst snd]. split; [exact V | lia].
  - destruct (iso_succ_valid y w V ltac:(lia)) as [V' B'].
    destruct (iso_succ (y, w)) as [y1 w1]. cbn [fst snd] in V', B'.
    eapply Forall_impl; [apply (IH y1 w1 V'); lia|].
    intros [a b] [Va Ba]. cbn [fst snd] in *. split; [exact Va | lia].
Qed.

Lemma advance_length (n : nat) (cur : string) (seq l : list string) :
  advance n cur seq = Ok l -> length l = (length seq + n)%nat /\ seq `prefix_of` l.
Proof.
  revert cur seq; induction n as [|n IH]; intros cur seq H.
  - cbn [advance] in H. injection H as <-. split; [lia | reflexivity].
  - cbn [advance] in H. destruct (next_week_id cur) as [c|e]; cbn [mbind result_bind] in H;
      [|discriminate H].
    apply IH in H as [H1 H2]. rewrite length_app in H1. cbn [length] in H1.
    split; [lia|]. etransitivity; [|exact H2]. now apply prefix_app_r.
Qed.

End SequenceFacts.

Section WeekExtras.
Import Py datetime utils_time_dual iso_weeks year_orchestrator_v12 iso_mondays.
#[local] Open Scope Z_scope.

(** X10.  For a valid ISO week, [week_monday] returns a date whose ISO
    calendar entry is day 1 of that very week, and the label parses back to
    the week.  The orchestrator's [_week_to_monday] returns the same date,
    and [_week_from_date] maps it to the zero-padded label, which
    [parse_week_id] reads as the same week. *)
Theorem week_monday_round_trip (y w : Z) :
  valid_week y w ->
  exists d : date,
    week_monday (week_label y w) = Ok d /\
    isocalendar d = (y, w, 1) /\
    parse_week_id (week_label y w) = Ok (y, w) /\
    _week_to_monday (week_label y w) = Ok d /\
    _week_from_date d = padded_label (y, w) /\
    parse_week_id (padded_label (y, w)) = Ok (y, w).
Proof.
  intros V. pose proof V as [Hy Hw]. pose proof (weeks_in_year_cases y) as C.
  exists (_ord2ymd (monday (y, w))).
  split; [exact (week_monday_label y w V)|].
  split; [exact (monday_is_monday y w V)|].
  split; [apply parse_label; lia|].
  split; [exact (week_to_monday_label y w V)|].
  split; [|apply parse_padded; lia].
  unfold _week_from_date. rewrite (monday_is_monday y w V). reflexivity.
Qed.

Lemma week_monday_round_trip_witness :
  valid_week 2026 1 /\
  exists d : date,
    week_monday (week_label 2026 1) = Ok d /\
    isocalendar d = (2026, 1, 1) /\
    parse_week_id (week_label 2026 1) = Ok (2026, 1) /\
    _week_to_monday (week_label 2026 1) = Ok d /\
    _week_from_date d = padded_label (2026, 1) /\
    parse_week_id (padded_label (2026, 1)) = Ok (2026, 1).
Proof.
  assert (V : valid_week 2026 1).
  { unfold valid_week. change (weeks_in_year 2026) with 53. lia. }
  split; [exact V|]. exact (week_monday_round_trip 2026 1 V).
Defined.

(** X11.  Whatever the start string, [week_id_sequence] returns the empty
    list for a total of 0 or less, and [[start]] unchecked for a total of 1
    with the start included.  A list it returns has exactly [total] entries
    and, when the start is included, begins with the start string; an
    exception of [next_week_id] on the start string is the exception of the
    whole call when at least one successor is needed. *)
Theorem week_id_sequence_shape (start : string) (total : Z) (include_start : bool) :
  (total <= 0 -> week_id_sequence start total include_start = Ok []) /\
  week_id_sequence start 1 true = Ok [start] /\
  (forall l, week_id_sequence start total include_start = Ok l ->
     length l = Z.to_nat total /\
     (include_start = true -> 0 < total -> head l = Some start)) /\
  (forall e, next_week_id start = Raise e ->
     (if include_start then 1 < total else 0 < total) ->
     week_id_sequence start total include_start = Raise e).
Proof.
  split; [|split; [|split]].
  - intros H. unfold week_id_sequence.
    replace (total <=? 0) with true by (symmetry; apply Z.leb_le; lia). reflexivity.
  - reflexivity.
  - intros l H. unfold week_id_sequence in H.
    destruct (Z.leb_spec total 0) as [L|L].
    + injection H as <-. split; [cbn [length]; lia|]. intros _ ?. lia.
    + apply advance_length in H as [H1 H2]. destruct include_start.
      * cbn [length] in H1. split; [lia|]. intros _ _.
        destruct H2 as [k ->]. reflexivity.
      * cbn [length] in H1. split; [lia|]. discriminate.
  - intros e He Ht. unfold week_id_sequence.
    replace (total <=? 0) with false by (symmetry; apply Z.leb_gt; destruct include_start; lia).
    destruct include_start.
    + destruct (Z.to_nat (total - 1)) as [|n] eqn:En; [lia|].
      cbn [advance]. rewrite He. reflexivity.
    + destruct (Z.to_nat (total - 0)) as [|n] eqn:En; [lia|].
      cbn [advance]. rewrite He. reflexivity.
Qed.

(** X12.  The orchestrator's [week_sequence] and [week_id_sequence] of
    [utils_time_dual] enumerate the same ISO weeks from a valid start week:
    the start (when included) and its successors, without gaps.  The first
    writes them zero-padded, the second unpadded; both spellings parse to
    the same week, and they are different strings exactly for the weeks
    1 to 9. *)
Theorem week_sequences_agree (y w : Z) (n : nat) (include_start : bool) :
  valid_week y w -> y + Z.of_nat n < 9998 ->
  exists l : list (Z * Z),
    l = iso_from n (if include_start then (y, w) else iso_succ (y, w)) /\
    week_sequence (week_label y w) (Z.of_nat n) include_start = Ok (map padded_label l) /\
    week_id_sequence (week_label y w) (Z.of_nat n) include_start = Ok (map label l) /\
    Forall (fun yw => parse_week_id (padded_label yw) = Ok yw /\
                      parse_week_id (label yw) = Ok yw /\
                      (padded_label yw = label yw <-> 10 <= snd yw)) l.
Proof.
  intros V B. eexists. split; [reflexivity|].
  split; [exact (week_sequence_spec y w n include_start V B)|].
  split; [apply (week_id_sequence_spec y w n include_start V); lia|].
  assert (V0 : valid_week (fst (if include_start then (y, w) else iso_succ (y, w)))
                          (snd (if include_start then (y, w) else iso_succ (y, w))) /\
               fst (if include_start then (y, w) else iso_succ (y, w)) <= y + 1).
  { destruct include_start; [cbn [fst snd]; split; [exact V | lia]|].
    apply iso_succ_valid; [exact V | lia]. }
  destruct (if include_start then (y, w) else iso_succ (y, w)) as [y0 w0].
  cbn [fst snd] in V0. destruct V0 as [V0 B0].
  eapply Forall_impl; [apply (iso_from_valid n y0 w0 V0); lia|].
  intros [a b] [[Ha Hb] _]. cbn [fst snd] in *.
  pose proof (weeks_in_year_cases a) as C.
  split; [apply parse_padded; lia|].
  split; [apply parse_label; lia|].
  unfold label. cbn [fst snd]. split.
  - intros E. destruct (Z.lt_ge_cases b 10) as [L|L]; [|exact L].
    exfalso. apply (padded_differs a b); [lia | exact E].
  - intros L. apply padded_same. lia.
Qed.

Lemma week_sequences_agree_witness :
  valid_week 2025 46 /\ 2025 + Z.of_nat 54 < 9998 /\
  exists l : list (Z * Z),
    l = iso_from 54 (iso_succ (2025, 46)) /\
    week_sequence START_WEEK_ID TOTAL_WEEKS INCLUDE_START_WEEK = Ok (map padded_label l) /\
    week_id_sequence START_WEEK_ID TOTAL_WEEKS INCLUDE_START_WEEK = Ok (map label l) /\
    Forall (fun yw => parse_week_id (padded_label yw) = Ok yw /\
                      parse_week_id (label yw) = Ok yw /\
                      (padded_label yw = label yw <-> 10 <= snd yw)) l.
Proof.
  assert (V : valid_week 2025 46).
  { unfold valid_week. change (weeks_in_year 2025) with 52. lia. }
  split; [exact V|]. split; [lia|].
  exact (week_sequences_agree 2025 46 54 false V ltac:(lia)).
Defined.

(** X13.  The orchestrator's [_week_to_monday] accepts every week id that
    [week_monday] accepts, with the same Monday, but does not look at the
    prefix: an id such as [Wk_2025_46] is a ValueError for [week_monday]
    and the Monday 2025-11-10 for the orchestrator. *)
Theorem week_to_monday_extends (week_id : string) :
  (forall d, week_monday week_id = Ok d -> _week_to_monday week_id = Ok d) /\
  (forall e, _week_to_monday week_id = Raise e -> exists e', week_monday week_id = Raise e') /\
  week_monday "Wk_2025_46" = Raise ValueError /\
  _week_to_monday "Wk_2025_46" = Ok (mk_date 2025 11 10).
Proof.
  assert (G : forall d, week_monday week_id = Ok d -> _week_to_monday week_id = Ok d).
  { intros d H. unfold week_monday, parse_week_id in H. unfold _week_to_monday.
    destruct (split_on "_" week_id) as [|a [|b [|c [|x r]]]];
      cbn [length Nat.eqb negb orb mbind result_bind] in H; try discriminate H.
    cbn [nth] in H.
    destruct (negb (String.eqb a "Week")); cbn [mbind result_bind] in H; [discriminate H|].
    destruct (py_int (PStr b)) as [yy|]; cbn [mbind result_bind] in H |- *; [|discriminate H].
    destruct (py_int (PStr c)) as [ww|]; cbn [mbind result_bind] in H |- *; [|discriminate H].
    exact H. }
  split; [exact G|]. split; [|split; vm_compute; reflexivity].
  intros e He. destruct (week_monday week_id) as [d|e'] eqn:E; [|eauto].
  rewrite (G d eq_refl) in He. discriminate He.
Qed.

End WeekExtras.

(** ** The plan of [call_acegpt] *)

Section PlanFacts.
Import Py acegpt_client acegpt_client_call.
Context `{RT : PyRuntime} `{RNG : PyRandom}.
#[local] Open Scope Q_scope.

#[local] Arguments insert : simpl never.
#[local] Arguments lookup : simpl never.
#[local] Arguments union : simpl never.
#[local] Arguments empty : simpl never.







(** The four composed meals, as [call_acegpt] writes them. *)
Definition meals_map (t1 t2 t3 t4 : string) (m1 m2 m3 m4 : macros) : gmap string pyval :=
  set_meal (set_meal (set_meal (set_meal ∅ (nth 0 MEAL_KEYS ("", [])) t1 m1)
                               (nth 1 MEAL_KEYS ("", [])) t2 m2)
                     (nth 2 MEAL_KEYS ("", [])) t3 m3)
           (nth 3 MEAL_KEYS ("", [])) t4 m4.



Lemma meals_map_name (t1 t2 t3 t4 : string) (m1 m2 m3 m4 : macros) (i : nat) :
  (i < 4)%nat ->
  meals_map t1 t2 t3 t4 m1 m2 m3 m4 !! fst (nth i MEAL_KEYS ("", [])) =
    Some (PStr (nth i [t1; t2; t3; t4] t1)).
Proof. intros Hi. do 4 (destruct i as [|i]; [reflexivity|]). lia. Qed.










End PlanFacts.

Section PlanMore.
Import Py acegpt_client acegpt_client_call.
Context `{RT : PyRuntime} `{RNG : PyRandom}.
#[local] Open Scope Q_scope.

#[local] Arguments insert : simpl never.
#[local] Arguments lookup : simpl never.
#[local] Arguments union : simpl never.
#[local] Arguments empty : simpl never.










End PlanMore.

Section ItemFacts.
Import Py acegpt_client acegpt_client_call.
Context `{RT : PyRuntime} `{RNG : PyRandom}.

(** An item of a composed meal: a name the table knows, an amount between
    20 and 380, in grams or millilitres. *)
Definition item_ok (it : item_t) : Prop :=
  is_Some (nutr_lookup NUTR (fst (fst it))) /\
  (20 <= snd (fst it) <= 380)%Z /\
  (snd it = "g" \/ snd it = "ml").

Definition known (name : string) : bool :=
  match nutr_lookup NUTR name with Some _ => true | None => false end.

Lemma known_in (L : list string) (x : string) :
  forallb known L = true -> x ∈ L -> is_Some (nutr_lookup NUTR x).
Proof.
  intros H Hx. apply list_elem_of_In in Hx.
  rewrite forallb_forall in H. specialize (H x Hx).
  unfold known in H. destruct (nutr_lookup NUTR x); [eauto | discriminate].
Qed.

Lemma amount_range (a b lo hi : Z) (g : rng) :
  (a <= b)%Z -> (lo <= a)%Z -> (b <= hi)%Z ->
  exists x g', amount a b lo hi g = Ok (x, g') /\ (a <= x <= b)%Z.
Proof.
  intros H Hlo Hhi. unfold amount, randint.
  destruct (randrange_ok a (b + 1) g ltac:(lia)) as (k & g' & E & Hk).
  rewrite E. cbn [mbind result_bind]. exists (_clamp_int k lo hi), g'.
  split; [reflexivity|]. unfold _clamp_int. lia.
Qed.

Ltac stepi :=
  match goal with
  | |- context [_pick ?g ?L] =>
      let x := fresh "x" in let g' := fresh "g" in let E := fresh "E" in
      let Hin := fresh "Hin" in
      destruct (pick_ok L g ltac:(discriminate)) as (x & g' & E & Hin);
      change (_pick g L) with (pick L g); rewrite E; clear E; cbn [mbind result_bind]
  | |- context [amount ?a ?b ?lo ?hi ?g] =>
      let x := fresh "n" in let g' := fresh "g" in let E := fresh "E" in
      let Hr := fresh "Hr" in
      destruct (amount_range a b lo hi g ltac:(lia) ltac:(lia) ltac:(lia))
        as (x & g' & E & Hr);
      rewrite E; clear E; cbn [mbind result_bind]
  end.

Ltac item_done :=
  eexists; split; [reflexivity|]; cbn [snd length]; split; [lia|];
  repeat (apply Forall_cons; split;
          [unfold item_ok; cbn [fst snd];
           split; [eapply known_in; [|eassumption]; reflexivity|];
           split; [lia | auto]|]);
  apply Forall_nil_2.

Definition items_ok (r : string * list item_t) : Prop :=
  (3 <= length (snd r) <= 4)%nat /\ Forall item_ok (snd r).

Lemma compose_breakfast_items (g : rng) :
  exists r, _compose_breakfast g = Ok r /\ items_ok r.
Proof.
  unfold _compose_breakfast, items_ok. do 3 stepi.
  destruct (mem _ SPREADS); repeat stepi; item_done.
Qed.

Lemma compose_lunch_items (g : rng) : exists r, _compose_lunch g = Ok r /\ items_ok r.
Proof. unfold _compose_lunch, items_ok. repeat stepi. item_done. Qed.

Lemma compose_snack_items (g : rng) : exists r, _compose_snack g = Ok r /\ items_ok r.
Proof. unfold _compose_snack, items_ok. repeat stepi. item_done. Qed.

Lemma compose_dinner_items (g : rng) : exists r, _compose_dinner g = Ok r /\ items_ok r.
Proof.
  unfold _compose_dinner, items_ok. destruct (rnd_random g) as [coin g0].
  destruct (Qlt_bool coin 0.5).
  - repeat stepi. item_done.
  - do 7 stepi. destruct (mem _ BREADS); repeat stepi; item_done.
Qed.

Lemma compose_slot_items (slot_idx : Z) (g : rng) :
  exists r, compose_slot slot_idx g = Ok r /\ items_ok r.
Proof.
  unfold compose_slot.
  destruct (slot_idx =? 1)%Z; [apply compose_breakfast_items|].
  destruct (slot_idx =? 2)%Z; [apply compose_lunch_items|].
  destruct (slot_idx =? 3)%Z; [apply compose_snack_items | apply compose_dinner_items].
Qed.

Lemma foldl_add_skip (l : list item_t) (name : string) (amt : Z) (unit : string)
    (acc : macros) :
  nutr_lookup NUTR name = None ->
  foldl add_item acc ((name, amt, unit) :: l) = foldl add_item acc l.
Proof. intros H. cbn [foldl]. unfold add_item at 2. rewrite H. reflexivity. Qed.

Lemma sum_macros_skip (l1 l2 : list item_t) (name : string) (amt : Z) (unit : string) :
  nutr_lookup NUTR name = None ->
  _sum_macros (l1 ++ (name, amt, unit) :: l2) = _sum_macros (l1 ++ l2).
Proof.
  intros H. unfold _sum_macros. rewrite !foldl_app, (foldl_add_skip l2 name amt unit _ H).
  reflexivity.
Qed.

End ItemFacts.

Section PlanExtras.
Import Py acegpt_client acegpt_client_call Toy.
#[local] Open Scope Q_scope.

#[local] Arguments insert : simpl never.
#[local] Arguments lookup : simpl never.
#[local] Arguments union : simpl never.
#[local] Arguments empty : simpl never.






(** X17.  Every meal [_compose_meal] returns is built from three or four
    items, each with a name in the nutrition table and an amount between
    20 and 380 g or ml, so that no item of a composed meal is left out of
    its macros; an item the table does not know would be skipped by
    [_sum_macros] without a trace. *)
Theorem composed_items_known `{RT : PyRuntime} `{RNG : PyRandom}
    (slot_idx : Z) (persona_id : string) (used : gset string) :
  (exists text m used' items,
     _compose_meal slot_idx persona_id used = Ok (text, m, used') /\
     m = _sum_macros items /\
     (3 <= length items <= 4)%nat /\
     Forall (fun it : item_t =>
               is_Some (nutr_lookup NUTR (fst (fst it))) /\
               (20 <= snd (fst it) <= 380)%Z /\
               (snd it = "g" \/ snd it = "ml")%string) items) /\
  (forall (l1 l2 : list item_t) (name : string) (amt : Z) (unit : string),
     nutr_lookup NUTR name = None ->
     _sum_macros (l1 ++ (name, amt, unit) :: l2) = _sum_macros (l1 ++ l2)).
Proof.
  split; [|intros; apply sum_macros_skip; assumption].
  destruct (compose_meal_spec slot_idx persona_id used)
    as (text & m & used' & E & a & (t & items & Ea & Em & _) & _).
  exists text, m, used', items. split; [exact E|]. split; [exact Em|].
  unfold attempt_of in Ea.
  destruct (compose_slot_items slot_idx (_rng_for persona_id slot_idx a)) as (r & Er & Hr).
  rewrite Ea in Er. injection Er as <-. exact Hr.
Qed.

(** X18.  [_ensure_unique] returns a text it has just registered and never
    removes one.  The text is new to the registry exactly when the meal
    text or its tagged form was not registered before: a text seen for the
    third time comes back as the same tagged string as the second time. *)
Theorem ensure_unique_registry `{RT : PyRuntime} (text : string) (used : gset string) :
  let tagged := (text ++ " [u:" ++ md5_hex6 text ++ "]")%string in
  let r := _ensure_unique text used in
  fst r ∈ snd r /\ used ⊆ snd r /\
  (text ∉ used -> fst r = text) /\
  (text ∈ used -> fst r = tagged) /\
  (fst r ∉ used <-> text ∉ used \/ tagged ∉ used) /\
  (text ∈ used -> fst (_ensure_unique text (snd r)) = fst r).
Proof.
  cbv zeta. unfold _ensure_unique.
  destruct (bool_decide (text ∈ used)) eqn:B; cbn [fst snd].
  - apply bool_decide_eq_true in B.
    split; [set_solver|]. split; [set_solver|]. split; [tauto|]. split; [tauto|].
    split; [tauto|]. intros _.
    rewrite bool_decide_eq_true_2 by set_solver. reflexivity.
  - apply bool_decide_eq_false in B.
    split; [set_solver|]. split; [set_solver|]. split; [tauto|]. split; [tauto|].
    split; [tauto|]. tauto.
Qed.

End PlanExtras.

(** ** The schema normalizer, further properties *)

Section SchemaMore.
Import Py acegpt_client.
Context `{RT : PyRuntime}.

#[local] Arguments insert : simpl never.
#[local] Arguments lookup : simpl never.
#[local] Arguments union : simpl never.
#[local] Arguments empty : simpl never.











End SchemaMore.

Section EnsureMore.
Import Py utils_json_v12 acegpt_client_v12.
Context `{RT : PyRuntime}.

#[local] Arguments insert : simpl never.
#[local] Arguments lookup : simpl never.
#[local] Arguments union : simpl never.
#[local] Arguments empty : simpl never.

Lemma ens_name_label (x : gmap string pyval) (i : nat) (m : string) :
  meals !! i = Some m ->
  ens_name x i <> "" /\ strip (ens_name x i) = ens_name x i.
Proof.
  intros H. destruct (pool_label i m H) as [P1 P2]. cbv zeta in P1, P2.
  unfold ens_name, _ensure_meal_label.
  destruct (get x _) as [| | | |s| |];
    try (split; [intros E; rewrite E in P2; discriminate P2 | exact P1]).
  destruct (String.eqb (strip s) "") eqn:E; cbn [negb].
  - split; [intros E'; rewrite E' in P2; discriminate P2 | exact P1].
  - split; [intros E'; rewrite E' in E; discriminate E | apply strip_idem].
Qed.

Lemma elem_lookup {A} (l : list A) (x : A) : x ∈ l -> exists i, l !! i = Some x.
Proof. apply list_elem_of_lookup_1. Qed.

Lemma ens_name_nested (x : gmap string pyval) (i : nat) (m : string)
    (nested : gmap string pyval) :
  meals !! i = Some m -> x !! (m ++ "_meal") = Some (PDict nested) ->
  ens_name x i = nth i SAUDI_MEAL_NAMES "".
Proof.
  intros Hm Hx. unfold ens_name, get.
  replace (nth i meals "") with m
    by (do 4 (destruct i as [|i]; [injection Hm as <-; reflexivity|]); discriminate Hm).
  rewrite Hx. cbn [default from_option id _ensure_meal_label].
  do 4 (destruct i as [|i]; [reflexivity|]). discriminate Hm.
Qed.

Lemma ens_macro_missing (x : gmap string pyval) (i j : nat) (m k : string) :
  meals !! i = Some m -> mkeys !! j = Some k -> x !! (m ++ "_meal_" ++ k) = None ->
  ens_macro x i j = 0.0%Q.
Proof.
  intros Hm Hk Hx. unfold ens_macro.
  replace (nth i meals "") with m
    by (do 4 (destruct i as [|i]; [injection Hm as <-; reflexivity|]); discriminate Hm).
  replace (nth j mkeys "") with k
    by (do 6 (destruct j as [|j]; [injection Hk as <-; reflexivity|]); discriminate Hk).
  rewrite Hx. reflexivity.
Qed.

End EnsureMore.

Section PipelineFacts.
Import Py utils_json_v12 acegpt_client_v12.
Context `{RT : PyRuntime} `{RNG : PyRandom}.

#[local] Arguments insert : simpl never.
#[local] Arguments lookup : simpl never.
#[local] Arguments union : simpl never.
#[local] Arguments empty : simpl never.

(** One attempt: the diversifier's plan for the empty dict, laid over the
    normalized reply. *)
Lemma shape_and_diversify_spec (fuel : nat) (raw persona : gmap string pyval)
    (pid week_id : string) (last : option (gmap string pyval)) (nonce : Z) :
  exists d, ensure_diet_shape raw = Ok d /\ ensured raw d /\
    shape_and_diversify fuel raw persona pid week_id last nonce =
      (u ← diversify_meals fuel ∅ pid week_id persona (last_of last) nonce; Ok (u ∪ d)).
Proof.
  destruct (ensure_spec raw) as (d & E & K).
  exists d. split; [exact E|]. split; [exact K|].
  unfold shape_and_diversify. rewrite E. cbn [mbind result_bind].
  apply diversify_frame.
Qed.

Lemma overlay_fields (u d : gmap string pyval) (fuel : nat) (pid week_id : string)
    (persona : gmap string pyval) (last : last_week) (nonce : Z) :
  diversify_meals fuel ∅ pid week_id persona last nonce = Ok u ->
  (forall k, k ∈ diet_keys -> (u ∪ d) !! k = u !! k) /\
  (forall k, k ∉ diet_keys -> (u ∪ d) !! k = d !! k).
Proof.
  intros Eu. apply diversify_shape in Eu as (T & N & S & Hu & _ & _).
  rewrite (right_id_L ∅ (∪)) in Hu. subst u. split.
  - intros k Hk.
    assert (Hs : is_Some (diet_map T N S !! k)).
    { destruct (diet_keys_cases k Hk)
        as [(j & Hj)|[(i & m & Hm & ->)|(i & j & m & mk & Hm & Hmk & ->)]].
      - rewrite (diet_map_total T N S j k Hj). eauto.
      - rewrite (diet_map_name T N S i m Hm). eauto.
      - rewrite (diet_map_meal T N S i j m mk Hm Hmk). eauto. }
    destruct Hs as [v Hv]. rewrite Hv. apply lookup_union_Some_l, Hv.
  - intros k Hk. apply lookup_union_r, diet_map_outside, Hk.
Qed.

Lemma ensured_note (x d : gmap string pyval) : ensured x d -> truthy (get d "Note") = true.
Proof.
  intros (_ & _ & _ & No & _). unfold get. rewrite No.
  apply ens_note_truthy.
Qed.

Lemma fallback_note (persona d : gmap string pyval) :
  ensured (_fallback persona) d -> d !! "Note"%string = Some (PStr "Fallback plan.").
Proof. intros (_ & _ & _ & No & _). rewrite No. reflexivity. Qed.

End PipelineFacts.

Section NormalizerExtras.
Import Py utils_json_v12 acegpt_client acegpt_client_v12 Toy Samples Samples3.
#[local] Open Scope Q_scope.

#[local] Arguments insert : simpl never.
#[local] Arguments lookup : simpl never.
#[local] Arguments union : simpl never.
#[local] Arguments empty : simpl never.




(** X21.  [ensure_diet_shape] returns, for every mapping, a plan in which
    the six totals and the 24 meal figures are floats, the four meal names
    are non-empty strings without blanks at either end, and the note is
    truthy; every other key of the input is passed through unchanged. *)
Theorem ensure_shape `{RT : PyRuntime} (x : gmap string pyval) :
  exists r,
    ensure_diet_shape x = Ok r /\
    (forall k, k ∈ totals -> exists q, r !! k = Some (PFloat q)) /\
    (forall m, m ∈ meals ->
       exists s, r !! (m ++ "_meal")%string = Some (PStr s) /\ s <> ""%string /\ strip s = s) /\
    (forall m k, m ∈ meals -> k ∈ mkeys ->
       exists q, r !! (m ++ "_meal_" ++ k)%string = Some (PFloat q)) /\
    truthy (get r "Note") = true /\
    (forall k, k ∉ diet_keys -> k <> "Note"%string -> r !! k = x !! k).
Proof.
  destruct (ensure_spec x) as (r & E & K).
  pose proof (ensured_note x r K) as Hn.
  destruct K as (T & N & M & _ & O).
  exists r. split; [exact E|].
  split; [intros k Hk; apply elem_lookup in Hk as [j Hj]; rewrite (T j k Hj); eauto|].
  split.
  { intros m Hm. apply elem_lookup in Hm as [i Hi]. rewrite (N i m Hi).
    destruct (ens_name_label x i m Hi) as [L1 L2]. eauto. }
  split.
  { intros m k Hm Hk. apply elem_lookup in Hm as [i Hi]. apply elem_lookup in Hk as [j Hj].
    rewrite (M i j m k Hi Hj). eauto. }
  split; [exact Hn | exact O].
Qed.

(** X22.  A meal given as a nested dict is lost: [ensure_diet_shape]
    replaces the dict by a name of the pool before it looks for the
    figures, so that a meal whose figures are only in the nested dict comes
    out with the pool name and six figures of 0.0, whatever the dict held. *)
Theorem ensure_drops_nested_meal `{RT : PyRuntime} (x nested : gmap string pyval)
    (i : nat) (m : string) :
  meals !! i = Some m ->
  x !! (m ++ "_meal")%string = Some (PDict nested) ->
  (forall k, k ∈ mkeys -> x !! (m ++ "_meal_" ++ k)%string = None) ->
  exists r,
    ensure_diet_shape x = Ok r /\
    r !! (m ++ "_meal")%string = Some (PStr (nth i SAUDI_MEAL_NAMES "")) /\
    forall k, k ∈ mkeys -> r !! (m ++ "_meal_" ++ k)%string = Some (PFloat 0.0).
Proof.
  intros Hm Hx Hflat.
  destruct (ensure_spec x) as (r & E & _ & N & M & _).
  exists r. split; [exact E|]. split.
  - rewrite (N i m Hm), (ens_name_nested x i m nested Hm Hx). reflexivity.
  - intros k Hk. pose proof (Hflat k Hk) as Hn.
    apply elem_lookup in Hk as [j Hj].
    rewrite (M i j m k Hm Hj), (ens_macro_missing x i j m k Hm Hj Hn). reflexivity.
Qed.

Lemma ensure_drops_nested_meal_witness :
  exists nested,
    meals !! 1%nat = Some "2nd"%string /\
    nested_plan !! ("2nd" ++ "_meal")%string = Some (PDict nested) /\
    nested !! "2nd_meal_kcal_target_kcal"%string = Some (PFloat 650.0) /\
    exists r,
      ensure_diet_shape (RT := toy_runtime) nested_plan = Ok r /\
      r !! ("2nd" ++ "_meal")%string = Some (PStr (nth 1 SAUDI_MEAL_NAMES "")) /\
      forall k, k ∈ mkeys -> r !! ("2nd" ++ "_meal_" ++ k)%string = Some (PFloat 0.0).
Proof.
  eexists. split; [reflexivity|]. split; [reflexivity|]. split; [reflexivity|].
  eapply (fun n => ensure_drops_nested_meal (RT := toy_runtime) nested_plan n 1 "2nd");
    [reflexivity | reflexivity |].
  intros k Hk. unfold mkeys in Hk.
  repeat (apply elem_of_cons in Hk as [->|Hk]; [reflexivity|]).
  apply elem_of_nil in Hk. destruct Hk.
Defined.

(** X23.  [get_diet_from_ace] returns exactly when the diversifier returns
    for the empty dict, and raises what it raises otherwise.  The six
    totals, four names and 24 meal figures of its result are those of the
    diversifier's plan for the empty dict: nothing of the endpoint's reply
    reaches them.  The note is truthy, and is the fallback's note when both
    attempts gave no reply. *)
Theorem get_diet_keeps_only_note `{RT : PyRuntime} `{RNG : PyRandom}
    (fuel : nat) (reply : nat -> option (gmap string pyval))
    (persona : gmap string pyval) (pid week_id : string)
    (last_week_diet : option (gmap string pyval)) (nonce : Z) :
  (forall u,
     diversify_meals fuel ∅ pid week_id persona (last_of last_week_diet) nonce = Ok u ->
     exists r,
       get_diet_from_ace fuel reply persona pid week_id last_week_diet nonce = Ok r /\
       (forall k, k ∈ diet_keys -> r !! k = u !! k) /\
       truthy (get r "Note") = true /\
       (reply 0%nat = None -> reply 1%nat = None ->
        r !! "Note"%string = Some (PStr "Fallback plan."))) /\
  (forall e,
     diversify_meals fuel ∅ pid week_id persona (last_of last_week_diet) nonce = Raise e ->
     get_diet_from_ace fuel reply persona pid week_id last_week_diet nonce = Raise e).
Proof.
  assert (G : forall raw u,
            diversify_meals fuel ∅ pid week_id persona (last_of last_week_diet) nonce = Ok u ->
            exists r,
              shape_and_diversify fuel raw persona pid week_id last_week_diet nonce = Ok r /\
              (forall k, k ∈ diet_keys -> r !! k = u !! k) /\
              truthy (get r "Note") = true /\
              (raw = _fallback persona -> r !! "Note"%string = Some (PStr "Fallback plan."))).
  { intros raw u Eu.
    destruct (shape_and_diversify_spec fuel raw persona pid week_id last_week_diet nonce)
      as (d & _ & K & ->).
    rewrite Eu. cbn [mbind result_bind].
    destruct (overlay_fields u d fuel pid week_id persona _ nonce Eu) as [F1 F2].
    exists (u ∪ d). split; [reflexivity|]. split; [exact F1|].
    split.
    - unfold get. rewrite (F2 _ note_not_diet_key). exact (ensured_note raw d K).
    - intros ->. rewrite (F2 _ note_not_diet_key). exact (fallback_note persona d K). }
  assert (R : forall raw e,
            diversify_meals fuel ∅ pid week_id persona (last_of last_week_diet) nonce =
              Raise e ->
            shape_and_diversify fuel raw persona pid week_id last_week_diet nonce = Raise e).
  { intros raw e Ee.
    destruct (shape_and_diversify_spec fuel raw persona pid week_id last_week_diet nonce)
      as (d & _ & _ & ->).
    rewrite Ee. reflexivity. }
  split.
  - intros u Eu. unfold get_diet_from_ace.
    destruct (reply 0%nat) as [raw0|].
    { destruct (G raw0 u Eu) as (r & Er & F & Hn & _). rewrite Er.
      exists r. split; [reflexivity|]. split; [exact F|]. split; [exact Hn|].
      intros H. discriminate H. }
    destruct (reply 1%nat) as [raw1|].
    { destruct (G raw1 u Eu) as (r & Er & F & Hn & _). rewrite Er.
      exists r. split; [reflexivity|]. split; [exact F|]. split; [exact Hn|].
      intros _ H. discriminate H. }
    destruct (G (_fallback persona) u Eu) as (r & Er & F & Hn & Hf).
    exists r. split; [exact Er|]. split; [exact F|]. split; [exact Hn|].
    intros _ _. apply Hf. reflexivity.
  - intros e Ee. unfold get_diet_from_ace.
    destruct (reply 0%nat) as [raw0|]; [rewrite (R raw0 e Ee)|];
      (destruct (reply 1%nat) as [raw1|]; [rewrite (R raw1 e Ee)|]);
      exact (R _ e Ee).
Qed.

(** X24.  Passing the plan itself as last week's plan never ends well: the
    result of every pass is then similar to "last week", so that
    [diversify_meals] recurses until the recursion depth is exhausted. *)
Theorem diversify_aliased_last_week `{RT : PyRuntime} `{RNG : PyRandom}
    (fuel : nat) (obj : gmap string pyval) (pid week_id : string)
    (persona : gmap string pyval) (nonce : Z) (goal : string) :
  py_lower (por (get persona "Primary_goal") (PStr "")) = Ok goal ->
  diversify_meals fuel obj pid week_id persona LastSame nonce = Raise RecursionError.
Proof.
  intros Eg.
  destruct (diversify_two_outcomes fuel obj pid week_id persona LastSame nonce goal Eg)
    as [[r E]|E]; [|exact E].
  apply diversify_shape in E as (T & N & S & -> & _ & Hsim).
  cbn [last_week_value _similar_overview] in Hsim.
  rewrite (diet_map_nonempty T N S obj), (same_names_refl T N S obj) in Hsim.
  discriminate Hsim.
Qed.

Lemma diversify_aliased_last_week_witness :
  py_lower (por (get persona1 "Primary_goal") (PStr "")) = Ok "muscle gain"%string /\
  diversify_meals (RNG := toy_rng) 5 ∅ "P01" "2025-W46" persona1 LastSame 0 =
    Raise RecursionError.
Proof.
  split; [reflexivity|].
  apply (diversify_aliased_last_week (RNG := toy_rng) 5 ∅ "P01" "2025-W46" persona1 0
           "muscle gain").
  reflexivity.
Defined.

End NormalizerExtras.

Section SimilarityFacts.
Import Py utils_json_v12.
Context `{RT : PyRuntime}.
#[local] Open Scope Q_scope.

Lemma forallb_pointwise {A} (f g : A -> bool) (l : list A) :
  (forall x, f x = g x) -> forallb f l = forallb g l.
Proof. intros H. induction l as [|x l IH]; [reflexivity|]. cbn [forallb]. now rewrite H, IH. Qed.

Lemma same_names_sym (a b : gmap string pyval) : same_names a b = same_names b a.
Proof.
  unfold same_names. apply forallb_pointwise. intros m. apply String.eqb_sym.
Qed.

Lemma same_names_self (a : gmap string pyval) : same_names a a = true.
Proof.
  unfold same_names. apply forallb_forall. intros m _. apply String.eqb_refl.
Qed.

Lemma Qabs_minus_sym (x y : Q) : Qabs (x - y) == Qabs (y - x).
Proof.
  rewrite <- (Qabs_opp (x - y)).
  assert (E : - (x - y) == y - x) by ring.
  rewrite E. reflexivity.
Qed.

Lemma close_totals_sym (a b : gmap string pyval) (tol : Q) :
  close_totals a b tol = close_totals b a tol.
Proof.
  unfold close_totals. apply forallb_pointwise. intros k.
  apply Qle_bool_eq; [apply Qabs_minus_sym | reflexivity].
Qed.

End SimilarityFacts.

Section SimilarityExtras.
Import Py utils_json_v12 Toy Samples.
#[local] Open Scope Q_scope.

(** X25.  [_similar_overview] is a symmetric relation on non-empty plans
    and every non-empty plan is similar to itself, whatever the tolerance;
    a missing or empty last week is similar to nothing. *)
Theorem similar_overview_relation `{RT : PyRuntime} (a b : gmap string pyval) (tol : Q) :
  _similar_overview a None tol = false /\
  _similar_overview a (Some ∅) tol = false /\
  (truthy (PDict a) = true -> _similar_overview a (Some a) tol = true) /\
  (truthy (PDict a) = true -> truthy (PDict b) = true ->
   _similar_overview a (Some b) tol = _similar_overview b (Some a) tol).
Proof.
  split; [reflexivity|]. split; [reflexivity|]. split.
  - intros Ha. unfold _similar_overview. rewrite Ha. cbn [negb].
    rewrite same_names_self. reflexivity.
  - intros Ha Hb. unfold _similar_overview. rewrite Ha, Hb. cbn [negb].
    rewrite same_names_sym, close_totals_sym. reflexivity.
Qed.

End SimilarityExtras.
